(** * munet/cli.py: the command interpreter of the munet control plane

    A shallow embedding of [munet/cli.py]: the pty bridge [spawn], the
    host-name prefix rule [host_cmd_split], the help text
    [make_help_str], the fan-out executor [run_command], the dispatcher
    [doline], the window bootstrap [remote_cli], the connection handler
    [cli_client_connected] of the control socket and the receiving half of
    its client [cli_client].

    Python [str] values are Rocq strings read as UTF-8 byte sequences,
    taken apart into characters where the code goes by characters;
    [bytes] values are lists of bytes, dictionaries are finite maps.
    Everything the interpreter does to the outside (writes to the output
    sink, calls on a host, terminal mode changes, socket traffic) is
    recorded in order in a trace carried by a state-and-exception monad.
    The output sink [outf] is a text stream such as the standard output,
    whose writes are recorded with the text written, or the stream writer
    of a connection of the control socket, which takes bytes and refuses
    text.  Calls on hosts are answered by the [Host] records of the
    session, so that a statement made for every session holds for every
    answer a host may give, faults included; [str.format] is any function
    from a template and an argument to a string or an exception. *)

From Stdlib Require Import ZArith Ascii String Strings.Byte List DecimalString Lia.
From stdpp Require Import base option gmap strings list sorting.

Local Open Scope string_scope.
Local Open Scope list_scope.

(** ** The Python string methods the interpreter uses *)

Module Py.

(** The characters of a [str], each as the string of its UTF-8 bytes: a
    character starts at every byte that is no continuation byte
    (0x80-0xBF), and takes the continuation bytes that follow it. *)
Definition is_continuation (c : ascii) : bool :=
  (128 <=? nat_of_ascii c)%nat && (nat_of_ascii c <? 192)%nat.

Fixpoint chars (s : string) : list string :=
  match s with
  | "" => []
  | String c s' =>
      match chars s' with
      | String d t :: rest =>
          if is_continuation d then String c (String d t) :: rest
          else String c "" :: String d t :: rest
      | rest => String c "" :: rest
      end
  end.

(** The string of a list of characters. *)
Definition unchars (l : list string) : string := foldr String.append "" l.

(** [ch.isspace()] for one character, which is also the class of
    whitespace of the regular expressions and the characters that
    [str.strip] and [str.split] take as blanks: U+0009-U+000D,
    U+001C-U+0020, U+0085, U+00A0, U+1680, U+2000-U+200A, U+2028, U+2029,
    U+202F, U+205F and U+3000. *)
Definition isspace (ch : string) : bool :=
  match ch with
  | String c "" =>
      match c with
      | "009" | "010" | "011" | "012" | "013"
      | "028" | "029" | "030" | "031" | " " => true
      | _ => false
      end
  | String "194" (String c "") =>
      match c with "133" | "160" => true | _ => false end
  | String "225" (String "154" (String "128" "")) => true
  | String "226" (String "128" (String c "")) =>
      match c with
      | "128" | "129" | "130" | "131" | "132" | "133" | "134" | "135"
      | "136" | "137" | "138" | "168" | "169" | "175" => true
      | _ => false
      end
  | String "226" (String "129" (String "159" "")) => true
  | String "227" (String "128" (String "128" "")) => true
  | _ => false
  end%char.

Definition is_newline (c : ascii) : bool :=
  match c with "010"%char => true | _ => false end.

Fixpoint take_while (p : ascii → bool) (s : string) : string :=
  match s with
  | String c s' => if p c then String c (take_while p s') else ""
  | "" => ""
  end.

Fixpoint drop_while (p : ascii → bool) (s : string) : string :=
  match s with
  | String c s' => if p c then drop_while p s' else s
  | "" => ""
  end.

(** The longest prefix of [l] whose elements pass [p], and what follows
    it. *)
Fixpoint takewhile {A} (p : A → bool) (l : list A) : list A :=
  match l with
  | x :: l' => if p x then x :: takewhile p l' else []
  | [] => []
  end.

Fixpoint dropwhile {A} (p : A → bool) (l : list A) : list A :=
  match l with
  | x :: l' => if p x then dropwhile p l' else l
  | [] => []
  end.

Definition lstrip_chars (l : list string) : list string := dropwhile isspace l.

Definition rstrip_chars (l : list string) : list string :=
  rev (dropwhile isspace (rev l)).

(** [s.strip()] *)
Definition strip (s : string) : string :=
  unchars (rstrip_chars (lstrip_chars (chars s))).

(** [s.split()]: the maximal runs of non-blank characters, in order.
    [cur] is the run read so far, most recent character first. *)
Fixpoint split_go (cur : list string) (l : list string) : list string :=
  match l with
  | [] => match cur with [] => [] | _ => [unchars (rev cur)] end
  | ch :: l' =>
      if isspace ch
      then match cur with
           | [] => split_go [] l'
           | _ => unchars (rev cur) :: split_go [] l'
           end
      else split_go (ch :: cur) l'
  end.

Definition split (s : string) : list string := split_go [] (chars s).

(** [sep.join(l)] *)
Fixpoint join (sep : string) (l : list string) : string :=
  match l with
  | [] => ""
  | [x] => x
  | x :: l' => x +:+ sep +:+ join sep l'
  end.

(** [s.replace(old, new)] for a non-empty [old]: occurrences are found
    left to right and do not overlap.  [skip] counts the characters of
    an occurrence still to be passed over. *)
Fixpoint replace_go (old new : string) (skip : nat) (s : string) : string :=
  match s with
  | "" => ""
  | String c s' =>
      match skip with
      | S k => replace_go old new k s'
      | O =>
          if String.prefix old s
          then new +:+ replace_go old new (String.length old - 1) s'
          else String c (replace_go old new 0 s')
      end
  end.

Definition replace (old new s : string) : string := replace_go old new 0 s.

(** [sorted(l)] on strings: the order is the code point order, which on
    UTF-8 byte strings is the byte-wise lexicographic order. *)
Definition sorted (l : list string) : list string := merge_sort String.le l.

(** ["%d" % n] *)
Definition str_of_int (n : Z) : string := NilZero.string_of_int (Z.to_int n).

(** [b[-n:]] and [b[:-n]] for [n > 0] *)
Definition last_n {A} (n : nat) (b : list A) : list A :=
  drop (length b - n) b.
Definition drop_last_n {A} (n : nat) (b : list A) : list A :=
  take (length b - n) b.


(** The characters ["\n"], ["\r"] and ["\t"] as one-character strings. *)
Definition LF : string := String "010"%char "".
Definition CR : string := String "013"%char "".
Definition TAB : string := String "009"%char "".

(** The no-break space U+00A0, a blank of two bytes. *)
Definition NBSP : string := String "194"%char (String "160"%char "").

End Py.

(** ** Exceptions and the interpreter monad *)

(** A raised Python exception: its class name and [str(error)].  Classes
    derived from [Exception] are caught by [except Exception]; the others
    ([KeyboardInterrupt], [SystemExit], [asyncio.CancelledError]) are not. *)
Inductive Exn :=
  | Exception (cls msg : string)
  | BaseException (cls msg : string).

Definition exn_str (e : Exn) : string :=
  match e with Exception _ m | BaseException _ m => m end.

(** [type(error).__name__] *)
Definition exn_cls (e : Exn) : string :=
  match e with Exception c _ | BaseException c _ => c end.

Definition is_Exception (e : Exn) : bool :=
  match e with Exception _ _ => true | BaseException _ _ => false end.

(** The outcome of a call: a value or a raised exception. *)
Inductive Res (A : Type) :=
  | Ret (a : A)
  | Raise (e : Exn).
Arguments Ret {A} a.
Arguments Raise {A} e.

(** ** The world outside the interpreter *)

(** Keyword arguments handed on to [host.run_in_window], opaque here. *)
Definition Kwargs : Type := list (string * string).

(** The attribute list of [termios.tcgetattr]:
    [[iflag, oflag, cflag, lflag, ispeed, ospeed, cc]]. *)
Record TermAttr := mkTermAttr {
  iflag : Z; oflag : Z; cflag : Z; lflag : Z;
  ispeed : Z; ospeed : Z; cc : list Z
}.

(** What the interpreter does to the outside, in the order it does it. *)
Inductive Event :=
  | Write (s : string)                 (* outf.write(s) *)
  | Flush                              (* outf.flush() *)
  | WriteBytes (b : list byte)         (* writer.write(b) *)
  | Drain                              (* await writer.drain() *)
  | ReadLine (line : string)           (* await reader.readline() *)
  | CmdStatus (host : string) (on_host : bool) (cmd : string)
      (* unet.hosts[host].async_cmd_status(cmd), or ..._host when on_host *)
  | OpenPty                            (* pty.openpty() *)
  | Popen (host cmd : string) (skip_pre_cmd : bool)
      (* unet.hosts[host].popen(cmd, ..., skip_pre_cmd=on_host) *)
  | PtyInput (d : list byte)           (* os.write(master_fd, d) *)
  | TcGetAttr                          (* termios.tcgetattr(sys.stdin) *)
  | SetRaw                             (* tty.setraw(sys.stdin.fileno()) *)
  | TcSetAttr (a : TermAttr)           (* termios.tcsetattr(sys.stdin, TCSADRAIN, a) *)
  | RunInWindow (host shell : string) (kwargs : Kwargs)
      (* unet.hosts[host].run_in_window(shell, **kwargs) *)
  | Mkdtemp                            (* tempfile.mkdtemp("-sockdir", "pty-") *)
  | StartUnixServer (path : string) (background : bool)
      (* asyncio.start_unix_server(partial(cli_client_connected, unet, background), path) *)
  | GetExecPath                        (* unet.async_get_exec_path(["python3", "python"]) *)
  | UnetRunInWindow (cmd title : string).
      (* unet.run_in_window(cmd, title=title, background=False) *)

(** The mutable state: the trace, the terminal discipline of standard
    input and [unet.cli_sockpath].  The remaining fields describe the
    operating system and are only read: whether standard input is a
    terminal, whether [pty.openpty] finds a device, what [tempfile.mkdtemp]
    and [asyncio.start_unix_server] answer, and [os.path.realpath(__file__)]. *)
Record World := mkWorld {
  trace : list Event;
  tty_attr : TermAttr;
  cli_sockpath : option string;
  stdin_isatty : bool;
  pty_available : bool;
  mkdtemp : Res string;
  start_unix_server : string → Res unit;
  realpath_file : string
}.

Definition with_trace (t : list Event) (w : World) : World :=
  mkWorld t (tty_attr w) (cli_sockpath w) (stdin_isatty w) (pty_available w)
          (mkdtemp w) (start_unix_server w) (realpath_file w).

Definition with_tty_attr (a : TermAttr) (w : World) : World :=
  mkWorld (trace w) a (cli_sockpath w) (stdin_isatty w) (pty_available w)
          (mkdtemp w) (start_unix_server w) (realpath_file w).

Definition with_cli_sockpath (p : option string) (w : World) : World :=
  mkWorld (trace w) (tty_attr w) p (stdin_isatty w) (pty_available w)
          (mkdtemp w) (start_unix_server w) (realpath_file w).

(** A computation: from a world to an outcome and the world it leaves. *)
Definition M (A : Type) : Type := World → Res A * World.

#[export] Instance M_ret : MRet M := λ A a w, (Ret a, w).

#[export] Instance M_bind : MBind M := λ A B f m w,
  match m w with
  | (Ret a, w') => f a w'
  | (Raise e, w') => (Raise e, w')
  end.

Definition raise {A} (e : Exn) : M A := λ w, (Raise e, w).

Definition lift {A} (r : Res A) : M A := λ w, (r, w).

Definition emit (e : Event) : M unit := λ w, (Ret tt, with_trace (trace w ++ [e]) w).

Definition get {A} (f : World → A) : M A := λ w, (Ret (f w), w).

Definition modify (f : World → World) : M unit := λ w, (Ret tt, f w).

(** [try: body finally: fin]; an exception of [fin] replaces the outcome
    of [body]. *)
Definition try_finally {A} (body : M A) (fin : M unit) : M A := λ w,
  match body w with
  | (r, w1) =>
      match fin w1 with
      | (Ret _, w2) => (r, w2)
      | (Raise e, w2) => (Raise e, w2)
      end
  end.

(** [try: body except Exception as error: handler(error)] *)
Definition try_except {A} (body : M A) (handler : Exn → M A) : M A := λ w,
  match body w with
  | (Raise e, w1) => if is_Exception e then handler e w1 else (Raise e, w1)
  | (Ret a, w1) => (Ret a, w1)
  end.

(** [for x in l: f(x)] *)
Fixpoint for_each {A} (l : list A) (f : A → M unit) : M unit :=
  match l with
  | [] => mret tt
  | x :: l' => f x ;; for_each l' f
  end.

(** The writes a trace holds: what the sink has received. *)
Definition writes (t : list Event) : list string :=
  omap (λ e, match e with Write s => Some s | _ => None end) t.

(** The execution operations of hosts a trace holds: captured runs and
    pty spawns. *)
Definition is_exec (e : Event) : bool :=
  match e with CmdStatus _ _ _ | Popen _ _ _ => true | _ => false end.

Definition execs (t : list Event) : list Event := List.filter is_exec t.

(** ** Hosts and the session object *)

(** One turn of the relay loop of [spawn], as [select] and the reads
    decide it: nothing ready within the poll interval, input typed on the
    terminal, the end of the pty's output, output of the child decoded to
    text, or an exception raised by an operation of this turn (a failed
    read or write, undecodable output, a keyboard interrupt). *)
Inductive RelayStep :=
  | SelTimeout
  | SelStdin (d : list byte)
  | SelMasterEmpty
  | SelMaster (text : string)
  | SelRaise (e : Exn).

(** The capability of a host.  A call is answered by its arguments: the
    result of a captured run is an exit status with the captured output
    and error text, or a fault; a spawned process is the list of turns the
    relay loop takes until [poll] reports its exit. *)
Record Host := mkHost {
  async_cmd_status : string → Res (Z * string * string);
  async_cmd_status_host : string → Res (Z * string * string);
  popen : string → bool → Res (list RelayStep);
  run_in_window : string → Kwargs → Res unit
}.

(** The session object [unet].  A registry entry is the tuple stored by
    [add_cli_run_cmd] and [add_cli_in_window_cmd]; the key [None] of
    [cli_run_cmds] is the default command. *)
Record Unet := mkUnet {
  hosts : gmap string Host;
  instance : string;
  cli_run_cmds : gmap (option string) (string * string * (string * bool * bool));
  cli_in_window_cmds : gmap string (string * string * (string * Kwargs));
  cli_histfile : option string;
  async_get_exec_path : Res string;
  unet_run_in_window : string → string → Res unit
}.

(** [x in unet.hosts] *)
Definition is_host (unet : Unet) (x : string) : bool :=
  bool_decide (is_Some (hosts unet !! x)).

(** [sorted(unet.hosts.keys())] *)
Definition sorted_hosts (unet : Unet) : list string :=
  Py.sorted (elements (dom (hosts unet))).

(** [add_cli_in_window_cmd(unet, cmd, cmdfmt, cmdhelp, shell, **kwargs)] *)
Definition add_cli_in_window_cmd (unet : Unet) (cmd cmdfmt cmdhelp shell : string)
    (kwargs : Kwargs) : Unet :=
  mkUnet (hosts unet) (instance unet) (cli_run_cmds unet)
         (<[cmd := (cmdfmt, cmdhelp, (shell, kwargs))]> (cli_in_window_cmds unet))
         (cli_histfile unet) (async_get_exec_path unet) (unet_run_in_window unet).

(** [add_cli_run_cmd(unet, cmd, cmdfmt, cmdhelp, execfmt, on_host, interactive)] *)
Definition add_cli_run_cmd (unet : Unet) (cmd : option string)
    (cmdfmt cmdhelp execfmt : string) (on_host interactive : bool) : Unet :=
  mkUnet (hosts unet) (instance unet)
         (<[cmd := (cmdfmt, cmdhelp, (execfmt, on_host, interactive))]> (cli_run_cmds unet))
         (cli_in_window_cmds unet)
         (cli_histfile unet) (async_get_exec_path unet) (unet_run_in_window unet).

(** ** The functions of [cli.py] *)

#[export] Instance byte_eq_dec : EqDecision byte := Byte.byte_eq_dec.

Definition ENDMARKER : list byte := [x00; x45; x4e; x44; x00].

(** The output sinks the interpreter is handed: a text stream, such as
    [sys.stdout], and the [asyncio.StreamWriter] of a connection.  The
    stream writer passes what it is given to its transport, which takes
    bytes-like objects only, and it has no method [flush]. *)
Inductive Sink := TextIO | StreamWriter.

(** [outf.write(s)] with the text [s] *)
Definition write (outf : Sink) (s : string) : M unit :=
  match outf with
  | TextIO => emit (Write s)
  | StreamWriter =>
      raise (Exception "TypeError" "data argument must be a bytes-like object, not 'str'")
  end.

(** [outf.flush()] *)
Definition flush (outf : Sink) : M unit :=
  match outf with
  | TextIO => emit Flush
  | StreamWriter =>
      raise (Exception "AttributeError" "'StreamWriter' object has no attribute 'flush'")
  end.

Section Cli.

(** The attributes [tty.setraw] installs on a terminal whose attributes
    are the argument. *)
Variable setraw_attr : TermAttr → TermAttr.

(** [fmt.format(arg)], the method [str.format] with the one positional
    argument [arg]: the formatted text, or the exception it raises. *)
Variable str_format : string → string → Res string.

(** [termios.tcgetattr(sys.stdin)] *)
Definition tcgetattr : M TermAttr := emit TcGetAttr ;; get tty_attr.

(** [tty.setraw(sys.stdin.fileno())] *)
Definition setraw : M unit :=
  emit SetRaw ;; modify (λ w, with_tty_attr (setraw_attr (tty_attr w)) w).

(** [termios.tcsetattr(sys.stdin, termios.TCSADRAIN, a)] *)
Definition tcsetattr (a : TermAttr) : M unit :=
  emit (TcSetAttr a) ;; modify (with_tty_attr a).

(** [pty.openpty()] *)
Definition openpty : M unit :=
  emit OpenPty ;;
  ok ← get pty_available;
  if ok : bool then mret tt else raise (Exception "OSError" "out of pty devices").

(** [unet.hosts[host]] *)
Definition host_of (unet : Unet) (host : string) : M Host :=
  match hosts unet !! host with
  | Some h => mret h
  | None => raise (Exception "KeyError" host)
  end.

(** The loop [while p.poll() is None: ...] of [spawn]; [steps] are the
    turns taken before [poll] reports the exit of the process.  A process
    that never exits keeps the loop turning and [spawn] has no way out. *)
Fixpoint relay (iow : Sink) (steps : list RelayStep) : M unit :=
  match steps with
  | [] => mret tt
  | SelTimeout :: rest => relay iow rest
  | SelStdin d :: rest => emit (PtyInput d) ;; relay iow rest
  | SelMasterEmpty :: rest => relay iow rest
  | SelMaster text :: rest => write iow text ;; flush iow ;; relay iow rest
  | SelRaise e :: _ => raise e
  end.

(** The [try] block of [spawn]. *)
Definition spawn_body (unet : Unet) (host cmd : string) (iow : Sink) (on_host : bool)
    : M unit :=
  openpty ;;
  h ← host_of unet host;
  emit (Popen host cmd on_host) ;;
  p ← lift (popen h cmd on_host);
  write iow Py.CR ;;
  flush iow ;;
  relay iow p.

Definition spawn (unet : Unet) (host cmd : string) (iow : Sink) (on_host : bool) : M unit :=
  isatty ← get stdin_isatty;
  old_tty ← (if isatty : bool
             then a ← tcgetattr; setraw ;; mret (Some a)
             else mret None);
  try_finally
    (spawn_body unet host cmd iow on_host)
    (isatty ← get stdin_isatty;
     if isatty : bool
     then match old_tty with
          | Some a => tcsetattr a
          | None => raise (Exception "UnboundLocalError" "old_tty")
          end
     else mret tt).

(** The loop [for i, e in enumerate(csplit): if e not in unet.hosts: break]:
    the value of [i] after it, given the value [i] before it and the
    index [idx] of the head of [csplit]. *)
Fixpoint enumerate_break (unet : Unet) (i idx : nat) (csplit : list string) : nat :=
  match csplit with
  | [] => i
  | e :: rest =>
      if is_host unet e then enumerate_break unet idx (S idx) rest else idx
  end.

Definition host_cmd_split (unet : Unet) (cmd : string) : list string * string :=
  let csplit := Py.split cmd in
  let i := enumerate_break unet 0 0 csplit in
  let hosts := take i csplit in
  let hosts := match hosts with [] => sorted_hosts unet | _ => hosts end in
  let cmd := Py.join " " (drop i csplit) in
  (hosts, cmd).

(** [sorted(keys)] for the keys of the two registries: [None] does not
    compare with a string, so a list of two or more keys holding [None]
    raises [TypeError].  The message of the exception is the text kept
    here followed by [ of 'NoneType' and 'str'] or by
    [ of 'str' and 'NoneType'], after the operands of the comparison
    that failed first; which of the two it is depends on the order in
    which the commands were registered and on the sorting procedure of
    the interpreter, neither of which the session as modelled here
    records.  The message kept is the part common to both. *)
Definition sorted_keys (keys : list (option string)) : Res (list (option string)) :=
  match keys with
  | [] | [_] => Ret keys
  | _ =>
      if bool_decide (None ∈ keys)
      then Raise (Exception "TypeError" "'<' not supported between instances")
      else Ret (Some <$> Py.sorted (omap id keys))
  end.

Definition help_header : string :=
  Py.LF +:+ "Basic Commands:" +:+ Py.LF +:+
  "  cli   :: open a secondary CLI window" +:+ Py.LF +:+
  "  help  :: this help" +:+ Py.LF +:+
  "  hosts :: list hosts" +:+ Py.LF +:+
  "  quit  :: quit the cli" +:+ Py.LF +:+
  Py.LF +:+ "Commands:" +:+ Py.LF.

(** The body of the loop of [make_help_str]: the text of the entries of
    [keys]. *)
Fixpoint help_lines (unet : Unet) (keys : list (option string)) : Res string :=
  match keys with
  | [] => Ret ""
  | cmd :: rest =>
      let v :=
        match cli_run_cmds unet !! cmd with
        | Some v => Some (v.1.1, v.1.2)
        | None =>
            match cmd ≫= (cli_in_window_cmds unet !!.) with
            | Some v => Some (v.1.1, v.1.2)
            | None => None
            end
        end in
      match v, help_lines unet rest with
      | Some (cmdfmt, cmdhelp), Ret s =>
          Ret ("  " +:+ cmdfmt +:+ Py.TAB +:+ ":: " +:+ cmdhelp +:+ Py.LF +:+ s)
      | None, _ => Raise (Exception "KeyError" (default "None" cmd))
      | _, Raise e => Raise e
      end
  end.

Definition make_help_str (unet : Unet) : Res string :=
  match sorted_keys (elements (dom (cli_run_cmds unet))
                     ++ (Some <$> elements (dom (cli_in_window_cmds unet)))) with
  | Raise e => Raise e
  | Ret keys =>
      match help_lines unet keys with
      | Raise e => Raise e
      | Ret s => Ret (help_header +:+ s +:+ Py.LF)
      end
  end.

(** [asyncio.gather] over [aws] with [return_exceptions=True]: every awaitable is
    run, and a fault takes the place of the result in the list. *)
Fixpoint gather {A} (aws : list (Event * Res A)) : M (list (Res A)) :=
  match aws with
  | [] => mret []
  | (e, r) :: rest => emit e ;; rs ← gather rest; mret (r :: rs)
  end.

(** The loop [for host, result in zip(hosts, results)] of [run_command];
    [many] is [len(hosts) > 1]. *)
Fixpoint report (outf : Sink) (many : bool) (l : list (string * Res (Z * string * string)))
    : M unit :=
  match l with
  | [] => mret tt
  | (host, result) :: rest =>
      '(rc, o, _) ← match result with
                    | Ret t => mret t
                    | Raise x =>
                        raise (Exception "TypeError"
                                 ("cannot unpack non-iterable " +:+ exn_cls x +:+ " object"))
                    end;
      (if many then write outf ("------ Host: " +:+ host +:+ " ------" +:+ Py.LF)
       else mret tt) ;;
      (if bool_decide (rc ≠ 0%Z)
       then write outf ("*** non-zero exit status: " +:+ Py.str_of_int rc +:+ Py.LF)
       else mret tt) ;;
      write outf o ;;
      (if many then write outf ("------- End: " +:+ host +:+ " ------" +:+ Py.LF)
       else mret tt) ;;
      report outf many rest
  end.

(** The loop of [run_command] that fills [aws]: one awaitable per host,
    not yet run. *)
Fixpoint build_aws (unet : Unet) (ucmd : string) (on_host : bool) (l : list string)
    : M (list (Event * Res (Z * string * string))) :=
  match l with
  | [] => mret []
  | host :: rest =>
      let shcmd := Py.replace "%NAME%" host ucmd in
      h ← host_of unet host;
      let cmdf := if on_host then async_cmd_status_host h else async_cmd_status h in
      aws ← build_aws unet ucmd on_host rest;
      mret ((CmdStatus host on_host shcmd, cmdf shcmd) :: aws)
  end.

Definition run_command (unet : Unet) (outf : Sink) (line execfmt : string)
    (on_host with_pty : bool) : M unit :=
  let '(hosts, ucmd) := host_cmd_split unet line in
  let unknowns := List.filter (λ x, negb (is_host unet x)) hosts in
  match unknowns with
  | _ :: _ =>
      write outf ("% Unknown host[s]: " +:+ Py.join ", " unknowns +:+ Py.LF)
  | [] =>
      ucmd ← lift (str_format execfmt ucmd);
      let ucmd := Py.replace "%INSTANCE%" (instance unet) ucmd in
      let many := bool_decide (1 < length hosts) in
      if with_pty
      then
        for_each hosts (λ host,
          let shcmd := Py.replace "%NAME%" host ucmd in
          (if many then write outf ("------ Host: " +:+ host +:+ " ------" +:+ Py.LF)
           else mret tt) ;;
          spawn unet host shcmd outf on_host ;;
          (if many then write outf ("------- End: " +:+ host +:+ " ------" +:+ Py.LF)
           else mret tt)) ;;
        write outf Py.LF
      else
        aws ← build_aws unet ucmd on_host hosts;
        results ← gather aws;
        report outf many (zip hosts results)
  end.

(** [re.match] of the pattern of [doline] on [line]: the groups 1 and 2
    of the match.  The pattern is a start anchor, group 1 of one or more
    non-blank characters, an optional part of one or more blanks
    followed by group 2 of any characters, and an end anchor.  Group 1
    is the leading run of non-blank characters.  The optional part takes
    the blanks after it and, as group 2, what follows up to the end of
    the line; the dot stops at a line feed and the end anchor holds at
    the end of the string or before a line feed that ends it. *)
Definition re_match (line : string) : option (string * option string) :=
  let not_blank ch := negb (Py.isspace ch) in
  let not_newline ch := negb (bool_decide (ch = Py.LF)) in
  let l := Py.chars line in
  let g1 := Py.takewhile not_blank l in
  let rest := Py.dropwhile not_blank l in
  match g1, rest with
  | [], _ => None
  | _, [] => Some (Py.unchars g1, None)
  | _, _ =>
      let rest := Py.dropwhile Py.isspace rest in
      let g2 := Py.takewhile not_newline rest in
      let tail := Py.dropwhile not_newline rest in
      if bool_decide (tail = [] ∨ tail = [Py.LF])
      then Some (Py.unchars g1, Some (Py.unchars g2))
      else None
  end.

Definition remote_cli (unet : Unet) (prompt title : string) (background : bool) : M unit :=
  try_except
    (sockpath ← get cli_sockpath;
     (if bool_decide (sockpath = None ∨ sockpath = Some "")
      then
        emit Mkdtemp ;;
        dir ← (r ← get mkdtemp; lift r);
        let sockpath := dir +:+ "/cli.sock" in
        emit (StartUnixServer sockpath background) ;;
        (f ← get start_unix_server; lift (f sockpath)) ;;
        modify (with_cli_sockpath (Some sockpath))
      else mret tt) ;;
     emit GetExecPath ;;
     python_path ← lift (async_get_exec_path unet);
     us ← get realpath_file;
     let cmd := python_path +:+ " " +:+ us in
     let cmd := match cli_histfile unet with
                | Some (String c h) => cmd +:+ " --histfile=" +:+ String c h
                | _ => cmd
                end in
     let cmd := match prompt with
                | "" => cmd
                | _ => cmd +:+ " --prompt='" +:+ prompt +:+ "'"
                end in
     sockpath ← get cli_sockpath;
     cmd ← match sockpath with
           | Some path => mret (cmd +:+ " " +:+ path)
           | None => raise (Exception "TypeError" "can only concatenate str to str")
           end;
     emit (UnetRunInWindow cmd title) ;;
     lift (unet_run_in_window unet cmd title))
    (λ error, mret tt).

(** The branch [elif cmd in unet.cli_in_window_cmds] of [doline], for the
    registry entry [entry] of [cmd]. *)
Definition doline_window (unet : Unet) (outf : Sink)
    (entry : string * string * (string * Kwargs)) (nline : string) : M bool :=
  let args := Py.split nline in
  let args := match args with ["*"] => sorted_hosts unet | _ => args end in
  let unknowns := List.filter (λ x, negb (is_host unet x)) args in
  match unknowns with
  | _ :: _ =>
      write outf ("% Unknown host[s]: " +:+ Py.join " " unknowns +:+ Py.LF) ;;
      mret true
  | [] =>
      hosts ← (fix lookup (l : list string) : M (list (string * Host)) :=
                 match l with
                 | [] => mret []
                 | x :: rest => h ← host_of unet x; hs ← lookup rest; mret ((x, h) :: hs)
                 end) args;
      try_except
        (let riwargs := entry.2 in
         for_each hosts (λ '(name, host),
           emit (RunInWindow name riwargs.1 riwargs.2) ;;
           lift (run_in_window host riwargs.1 riwargs.2)) ;;
         mret true)
        (λ error, write outf ("% Error: " +:+ exn_str error +:+ Py.LF) ;; mret true)
  end.

(** The branches [elif cmd in unet.cli_run_cmds] and
    [elif None in unet.cli_run_cmds] of [doline], for the registry entry
    [entry]; [body] is [nline] in the first and [line] in the second. *)
Definition doline_run (unet : Unet) (outf : Sink)
    (entry : string * string * (string * bool * bool)) (body : string) (notty : bool)
    : M bool :=
  let '(execfmt, on_host, with_pty) := entry.2 in
  if with_pty && notty
  then
    write outf ("% Error: interactive command must be run from primary CLI" +:+ Py.LF) ;;
    mret true
  else
    run_command unet outf body execfmt on_host with_pty ;;
    mret true.

Definition doline (unet : Unet) (line : string) (outf : Sink) (background notty : bool)
    : M bool :=
  let line := Py.strip line in
  match re_match line with
  | None => mret true
  | Some (cmd, g2) =>
      let nline := match g2 with Some (String c s) => String c s | _ => "" end in
      if bool_decide (cmd ∈ ["q"; "quit"]) then mret false
      else if bool_decide (cmd = "help") then
        (s ← lift (make_help_str unet); write outf s) ;; mret true
      else if bool_decide (cmd ∈ ["h"; "hosts"]) then
        write outf ("% Hosts:" +:+ Py.TAB +:+ Py.join " " (sorted_hosts unet) +:+ Py.LF) ;;
        mret true
      else if bool_decide (cmd = "cli") then
        remote_cli unet "secondary> " "Secondary CLI" background ;; mret true
      else
        match cli_in_window_cmds unet !! cmd with
        | Some entry => doline_window unet outf entry nline
        | None =>
            match cli_run_cmds unet !! Some cmd with
            | Some entry => doline_run unet outf entry nline notty
            | None =>
                match cli_run_cmds unet !! None with
                | Some entry => doline_run unet outf entry line notty
                | None =>
                    write outf ("% Unknown command: " +:+ line +:+ Py.LF) ;; mret true
                end
            end
        end
  end.

(** [cli_client_connected], the handler of one connection of the control
    socket.  [input] are the answers of [reader.readline()] decoded, each
    with its line end; the empty answer and the end of [input] are the
    end of the stream.  The sink handed to [doline] is the stream writer
    of the connection itself: the function that would encode the text is
    commented out in the source. *)
Fixpoint cli_client_connected (unet : Unet) (background : bool) (input : list string)
    : M unit :=
  match input with
  | [] => mret tt
  | line :: rest =>
      emit (ReadLine line) ;;
      match line with
      | "" => mret tt
      | _ =>
          let line := Py.strip line in
          continue ← doline unet line StreamWriter background true;
          if continue : bool
          then
            emit (WriteBytes ENDMARKER) ;;
            emit Drain ;;
            cli_client_connected unet background rest
          else mret tt
      end
  end.

(** The nested function [bendswith] of [cli_client]. *)
Definition bendswith (b sentinel : list byte) : bool :=
  let slen := length sentinel in
  bool_decide (slen ≤ length b)%nat && bool_decide (Py.last_n slen b = sentinel).

(** The receiving half of one turn of [cli_client]: [rb] is filled from
    the answers [chunks] of [sock.recv(4096)] until it ends with the
    marker, which is then cut off.  The result is the bytes to print and
    the answers not yet read, or [None] when an empty answer (or the end
    of [chunks]) comes first and the client returns. *)
Fixpoint recv_response (rb : list byte) (chunks : list (list byte))
    : option (list byte * list (list byte)) :=
  if bendswith rb ENDMARKER
  then Some (Py.drop_last_n (length ENDMARKER) rb, chunks)
  else
    match chunks with
    | [] => None
    | lb :: rest =>
        match lb with
        | [] => None
        | _ => recv_response (rb ++ lb) rest
        end
    end.

End Cli.

(** ** Fixtures: a small session used to run the interpreter *)

(** The formatter of the examples, a stand-in for [str.format] on the
    templates the examples use: [braces fmt arg] is [fmt.format(arg)]
    for a template [fmt] whose replacement fields are written [{}] or
    with an index of one digit, as [{0}], with the escapes [{{] and
    [}}].  There is one argument, so that an index other than 0 is out
    of range; automatic numbering reaches index 1 at the second [{}],
    and the two numberings do not mix.  On a field with a longer index,
    a name, a conversion or a format specification it stands for
    nothing: it gives up with a [NotImplementedError] of its own.  The
    properties are stated for every formatter, and this one only runs
    the examples. *)
Inductive Numbering := Unnumbered | Automatic | Manual.

Fixpoint braces_go (mode : Numbering) (arg : string) (s : string) : Res string :=
  let cons c r :=
    match r with Ret t => Ret (String c t) | Raise e => Raise e end in
  let field r :=
    match r with Ret t => Ret (arg +:+ t) | Raise e => Raise e end in
  match s with
  | "" => Ret ""
  | String "{" (String "{" s') => cons "{"%char (braces_go mode arg s')
  | String "}" (String "}" s') => cons "}"%char (braces_go mode arg s')
  | String "{" (String "}" s') =>
      match mode with
      | Unnumbered => field (braces_go Automatic arg s')
      | Automatic =>
          Raise (Exception "IndexError"
                   "Replacement index 1 out of range for positional args tuple")
      | Manual =>
          Raise (Exception "ValueError"
                   "cannot switch from manual field specification to automatic field numbering")
      end
  | String "{" (String "0" (String "}" s')) =>
      match mode with
      | Automatic =>
          Raise (Exception "ValueError"
                   "cannot switch from automatic field numbering to manual field specification")
      | _ => field (braces_go Manual arg s')
      end
  | String "{" (String d (String "}" s')) =>
      if (49 <=? nat_of_ascii d)%nat && (nat_of_ascii d <=? 57)%nat
      then
        match mode with
        | Automatic =>
            Raise (Exception "ValueError"
                     "cannot switch from automatic field numbering to manual field specification")
        | _ =>
            Raise (Exception "IndexError"
                     ("Replacement index " +:+ String d "" +:+
                      " out of range for positional args tuple"))
        end
      else Raise (Exception "NotImplementedError" "replacement field outside the examples")
  | String "{" "" => Raise (Exception "ValueError" "Single '{' encountered in format string")
  | String "{" _ =>
      Raise (Exception "NotImplementedError" "replacement field outside the examples")
  | String "}" _ => Raise (Exception "ValueError" "Single '}' encountered in format string")
  | String c s' => cons c (braces_go mode arg s')
  end.

Definition braces (fmt arg : string) : Res string := braces_go Unnumbered arg fmt.

(** A host whose captured runs exit with [rc] after printing [out], and
    whose spawned processes print [out] once and exit. *)
Definition host_rc (rc : Z) (out : string) : Host :=
  mkHost (λ _, Ret (rc, out, "")) (λ _, Ret (rc, out, ""))
         (λ _ _, Ret [SelMaster out]) (λ _ _, Ret tt).

(** A host on which every operation faults. *)
Definition host_fault : Host :=
  mkHost (λ _, Raise (Exception "TimeoutError" "timed out"))
         (λ _, Raise (Exception "TimeoutError" "timed out"))
         (λ _ _, Raise (Exception "OSError" "spawn failed"))
         (λ _ _, Raise (Exception "OSError" "no display")).

(** A host whose spawned process is interrupted from the keyboard after
    one line of output. *)
Definition host_interrupted : Host :=
  mkHost (λ _, Ret (0%Z, "", "")) (λ _, Ret (0%Z, "", ""))
         (λ _ _, Ret [SelMaster "$ "; SelStdin [x03];
                      SelRaise (BaseException "KeyboardInterrupt" "")])
         (λ _ _, Ret tt).

(** The session of the examples: the hosts [r1] and [r2], the captured
    command [sh], the interactive command [shi] and the window command
    [term]. *)
Definition session (h1 h2 : Host) : Unet :=
  mkUnet (<["r1" := h1]> (<["r2" := h2]> ∅)) "munet0"
    (<[Some "sh" := ("sh [hosts] <shell-command>", "execute <shell-command> on hosts",
                     ("bash -c '{}'", false, false))]>
     (<[Some "shi" := ("shi [hosts] <shell-command>", "interactive shell on hosts",
                       ("bash -c '{}'", false, true))]> ∅))
    (<["term" := ("term [hosts]", "open terminal[s] on hosts", ("bash", []))]> ∅)
    None (Ret "/usr/bin/python3") (λ _ _, Ret tt).

Definition cooked : TermAttr := mkTermAttr 1280 5 191 35387 15 15 [].

(** A raw mode that clears the local flags. *)
Definition clear_lflag (a : TermAttr) : TermAttr :=
  mkTermAttr (iflag a) (oflag a) (cflag a) 0 (ispeed a) (ospeed a) (cc a).

(** A world with the terminal in cooked mode and nothing done yet. *)
Definition world0 (isatty : bool) : World :=
  mkWorld [] cooked None isatty true (Ret "/tmp/pty-k3-sockdir") (λ _, Ret tt)
          "/usr/lib/python3/munet/cli.py".

(** ** The vocabulary of the properties *)

(** [only_emits P m]: [m] changes the world by appending events to the
    trace, all of them in [P], and in no other way. *)
Definition only_emits (P : Event → Prop) {A} (m : M A) : Prop :=
  ∀ w, ∃ evs, (m w).2 = with_trace (trace w ++ evs) w ∧ Forall P evs.

(** [emits P m]: [m] extends the trace by events in [P]. *)
Definition emits (P : Event → Prop) {A} (m : M A) : Prop :=
  ∀ w, ∃ evs, trace (m w).2 = trace w ++ evs ∧ Forall P evs.

(** The events of the relay loop: text for the sink and input for the
    child. *)
Definition relay_event (e : Event) : Prop :=
  match e with Write _ | Flush | PtyInput _ => True | _ => False end.

(** The events of the guarded part of [spawn]. *)
Definition bridge_event (e : Event) : Prop :=
  match e with
  | Write _ | Flush | PtyInput _ | OpenPty | Popen _ _ _ => True
  | _ => False
  end.

(** The operations on the terminal discipline. *)
Definition tty_event (e : Event) : Prop :=
  match e with TcGetAttr | SetRaw | TcSetAttr _ => True | _ => False end.

(** The operations on a host: captured runs, spawns, window launches. *)
Definition host_event (e : Event) : Prop :=
  match e with
  | CmdStatus _ _ _ | Popen _ _ _ | RunInWindow _ _ _ => True
  | _ => False
  end.

(** The longest prefix of [l] made of host names. *)
Fixpoint host_prefix (unet : Unet) (l : list string) : list string :=
  match l with
  | e :: rest => if is_host unet e then e :: host_prefix unet rest else []
  | [] => []
  end.

(** The rule as the specification words it: the targets are the longest
    prefix of the tokens of the line that are host names, or every host
    when that prefix is empty, and the command is the remaining tokens
    joined. *)
Definition host_cmd_split_spec (unet : Unet) (cmd : string) : list string * string :=
  let csplit := Py.split cmd in
  let hosts := host_prefix unet csplit in
  (match hosts with [] => sorted_hosts unet | _ => hosts end,
   Py.join " " (drop (length hosts) csplit)).

(** What the captured run of [ucmd] on [host] answers. *)
Definition captured (unet : Unet) (on_host : bool) (ucmd host : string)
    : Res (Z * string * string) :=
  match hosts unet !! host with
  | Some h =>
      (if on_host then async_cmd_status_host h else async_cmd_status h)
        (Py.replace "%NAME%" host ucmd)
  | None => Raise (Exception "KeyError" host)
  end.

(** The event of the captured run of [ucmd] on [host]. *)
Definition launch (on_host : bool) (ucmd host : string) : Event :=
  CmdStatus host on_host (Py.replace "%NAME%" host ucmd).

(** The bracket lines of the block of [host]. *)
Definition begin_line (host : string) : string :=
  "------ Host: " +:+ host +:+ " ------" +:+ Py.LF.

Definition end_line (host : string) : string :=
  "------- End: " +:+ host +:+ " ------" +:+ Py.LF.

(** What [run_command] writes of a command that completed with status
    [rc] and output [o]: the line on the exit status when it is not zero,
    then the output. *)
Definition output_lines (rc : Z) (o : string) : list string :=
  (if bool_decide (rc ≠ 0%Z)
   then ["*** non-zero exit status: " +:+ Py.str_of_int rc +:+ Py.LF] else []) ++ [o].

(** What [run_command] writes for [host]: the output lines, between the
    bracket lines when [many]. *)
Definition block (many : bool) (host : string) (rc : Z) (o : string) : list string :=
  if many then [begin_line host] ++ output_lines rc o ++ [end_line host]
  else output_lines rc o.

(** The outcome the test for unknown hosts stands for: the sink holds the
    one line that lists [names] as unknown, and no host has executed
    anything. *)
Definition rejects_unknown (names : list string) (t : list Event) : Prop :=
  writes t = ["% Unknown host[s]: " +:+ Py.join ", " names +:+ Py.LF] ∧ execs t = [].

(** The events of [doline]: everything but the socket traffic of the
    connection handler. *)
Definition dispatch_event (e : Event) : Prop :=
  match e with ReadLine _ | WriteBytes _ | Drain => False | _ => True end.

(** The events of the window bootstrap [remote_cli]. *)
Definition bootstrap_event (e : Event) : Prop :=
  match e with
  | Mkdtemp | StartUnixServer _ _ | GetExecPath | UnetRunInWindow _ _ => True
  | _ => False
  end.

(** The names [doline] answers itself. *)
Definition builtins : list string := ["q"; "quit"; "help"; "h"; "hosts"; "cli"].

(** The session with the executable part of every registry entry
    replaced: [f] rewrites the template and flags of the run commands,
    [g] the shell and options of the window commands.  Names, display
    formats and help texts stay. *)
Definition set_payloads (f : string * bool * bool → string * bool * bool)
    (g : string * Kwargs → string * Kwargs) (unet : Unet) : Unet :=
  mkUnet (hosts unet) (instance unet)
         ((λ v, (v.1, f v.2)) <$> cli_run_cmds unet)
         ((λ v, (v.1, g v.2)) <$> cli_in_window_cmds unet)
         (cli_histfile unet) (async_get_exec_path unet) (unet_run_in_window unet).

(** The line of the help text for an entry with the display format
    [cmdfmt] and the help text [cmdhelp]. *)
Definition help_line (cmdfmt cmdhelp : string) : string :=
  "  " +:+ cmdfmt +:+ Py.TAB +:+ ":: " +:+ cmdhelp +:+ Py.LF.

(** [occurs sub s]: the text [sub] is a part of [s]. *)
Definition occurs (sub s : string) : Prop := ∃ pre post, s = pre +:+ sub +:+ post.

(** * The rest of [cli.py] *)

(** ** Text and bytes *)

(** [s.encode("utf-8")]: a string is its UTF-8 bytes. *)
Definition encode_utf8 (s : string) : list byte := list_byte_of_string s.

Definition byte_in (lo hi : N) (b : byte) : bool :=
  (lo <=? Byte.to_N b)%N && (Byte.to_N b <=? hi)%N.

(** Whether [l] is well-formed UTF-8, as the strict decoder of Python
    takes it: no continuation byte out of place, no overlong form, no
    surrogate, nothing above U+10FFFF, no sequence cut short. *)
Fixpoint valid_utf8 (l : list byte) : bool :=
  match l with
  | [] => true
  | b0 :: l1 =>
      if byte_in 0x00 0x7F b0 then valid_utf8 l1
      else if byte_in 0xC2 0xDF b0 then
        match l1 with
        | b1 :: l2 => byte_in 0x80 0xBF b1 && valid_utf8 l2
        | _ => false
        end
      else if byte_in 0xE0 0xEF b0 then
        match l1 with
        | b1 :: b2 :: l3 =>
            (if byte_in 0xE0 0xE0 b0 then byte_in 0xA0 0xBF b1
             else if byte_in 0xED 0xED b0 then byte_in 0x80 0x9F b1
             else byte_in 0x80 0xBF b1)
            && byte_in 0x80 0xBF b2 && valid_utf8 l3
        | _ => false
        end
      else if byte_in 0xF0 0xF4 b0 then
        match l1 with
        | b1 :: b2 :: b3 :: l4 =>
            (if byte_in 0xF0 0xF0 b0 then byte_in 0x90 0xBF b1
             else if byte_in 0xF4 0xF4 b0 then byte_in 0x80 0x8F b1
             else byte_in 0x80 0xBF b1)
            && byte_in 0x80 0xBF b2 && byte_in 0x80 0xBF b3 && valid_utf8 l4
        | _ => false
        end
      else false
  end.

(** [b.decode("utf-8")] *)
Definition decode_utf8 (b : list byte) : Res string :=
  if valid_utf8 b then Ret (string_of_list_byte b)
  else Raise (Exception "UnicodeDecodeError" "'utf-8' codec can't decode bytes").

(** [s.find(LF)] with the two slices taken at it: the text before the
    first line feed and the text after it, or [None] when [s] has no
    line feed. *)
Definition cut_line (s : string) : option (string * string) :=
  match Py.drop_while (λ c, negb (Py.is_newline c)) s with
  | String _ rest => Some (Py.take_while (λ c, negb (Py.is_newline c)) s, rest)
  | "" => None
  end.

(** ** [lineiter] *)

(** The generator [lineiter(sock)], run to its end on the answers
    [chunks] of [sock.recv(256)]; [s] is the text read and not yet
    yielded.  The result is the lines yielded, the text left in [s] when
    the generator ends, and the exception of a chunk that does not decode.
    An empty answer, like the end of [chunks], ends the generator. *)
Fixpoint lineiter_from (s : string) (chunks : list (list byte))
    : list string * string * option Exn :=
  match chunks with
  | [] => ([], s, None)
  | [] :: _ => ([], s, None)
  | sb :: rest =>
      match decode_utf8 sb with
      | Raise e => ([], s, Some e)
      | Ret t =>
          let s := s +:+ t in
          match cut_line s with
          | Some (line, s') =>
              let '(lines, buf, e) := lineiter_from s' rest in
              (line :: lines, buf, e)
          | None => lineiter_from s rest
          end
      end
  end.

Definition lineiter (chunks : list (list byte)) : list string * string * option Exn :=
  lineiter_from "" chunks.

(** ** [cli_client] *)

(** What the socket client does: a line sent on the socket and a text
    written to the standard output. *)
Inductive ClientEvent :=
  | Sent (b : list byte)               (* sock.send(b) *)
  | Printed (s : string).              (* print(s), sys.stdout.write(s) *)

Definition banner : string :=
  Py.LF +:+ "--- Munet CLI Starting ---" +:+ Py.LF +:+ Py.LF.

(** The loop of [cli_client].  [inputs] are the lines [input(prompt)]
    returns, after which it raises [EOFError]; [chunks] are the answers
    of [sock.recv(4096)], as for [recv_response]. *)
Fixpoint cli_client_loop (inputs : list string) (chunks : list (list byte))
    : list ClientEvent * Res unit :=
  match inputs with
  | [] => ([], Raise (Exception "EOFError" "EOF when reading a line"))
  | line :: inputs' =>
      let line := line +:+ Py.LF in
      match recv_response [] chunks with
      | None => ([Sent (encode_utf8 line)], Ret tt)
      | Some (rb, chunks') =>
          match decode_utf8 rb with
          | Raise e => ([Sent (encode_utf8 line)], Raise e)
          | Ret text =>
              let '(evs, r) := cli_client_loop inputs' chunks' in
              (Sent (encode_utf8 line) :: Printed text :: evs, r)
          end
      end
  end.

(** [cli_client(sockpath, prompt)] on a socket that connects. *)
Definition cli_client (inputs : list string) (chunks : list (list byte))
    : list ClientEvent * Res unit :=
  let '(evs, r) := cli_client_loop inputs chunks in
  (Printed banner :: Printed Py.LF :: evs, r).

(** ** [local_cli] *)

(** Whether [except KeyboardInterrupt] catches [e]. *)
Definition is_KeyboardInterrupt (e : Exn) : bool :=
  match e with
  | BaseException cls _ => bool_decide (cls = "KeyboardInterrupt")
  | Exception _ _ => false
  end.

Section LocalCli.

Variable setraw_attr : TermAttr → TermAttr.
Variable str_format : string → string → Res string.

(** The handler [except KeyboardInterrupt] of [local_cli].  The text is
    no format string, and both of its percent signs are written. *)
Definition caught_interrupt (outf : Sink) : M unit :=
  write outf ("%% Caught KeyboardInterrupt" +:+ Py.LF +:+ "Use ^D or 'quit' to exit").

(** The loop of [local_cli].  [answers] are the outcomes of
    [await async_input(prompt)], one for each turn: a line, [None] at
    the end of the input, or an exception; the end of [answers] is the
    end of the input. *)
Fixpoint local_cli_loop (unet : Unet) (outf : Sink) (background : bool)
    (answers : list (Res (option string))) : M unit :=
  match answers with
  | [] => mret tt
  | answer :: rest => λ w,
      let turn :=
        match answer with
        | Raise e => (Raise e, w)
        | Ret None => (Ret false, w)
        | Ret (Some line) => doline setraw_attr str_format unet line outf background false w
        end in
      match turn with
      | (Ret true, w1) => local_cli_loop unet outf background rest w1
      | (Ret false, w1) => (Ret tt, w1)
      | (Raise e, w1) =>
          if is_KeyboardInterrupt e
          then (caught_interrupt outf ;; local_cli_loop unet outf background rest) w1
          else (Raise e, w1)
      end
  end.

(** [local_cli(unet, outf, prompt, background)]: the banner, which
    [print] writes to the standard output, then the loop. *)
Definition local_cli (unet : Unet) (outf : Sink) (background : bool)
    (answers : list (Res (option string))) : M unit :=
  write TextIO banner ;; write TextIO Py.LF ;; local_cli_loop unet outf background answers.

End LocalCli.

(** ** The vocabulary of the further properties *)

(** Whether every character of [s] passes [p]. *)
Fixpoint string_forall (p : ascii → bool) (s : string) : bool :=
  match s with
  | "" => true
  | String c s' => p c && string_forall p s'
  end.

(** The text of the lines [lines], each with its line feed. *)
Definition unlines (lines : list string) : string :=
  foldr (λ l acc, l +:+ Py.LF +:+ acc) "" lines.

(** A response as the connection handler frames it: the bytes of the
    text, then the marker. *)
Definition framed (out : string) : list byte := encode_utf8 out ++ ENDMARKER.

(** [keeps f m]: [m] leaves the part [f] of the world as it finds it. *)
Definition keeps {B} (f : World → B) {A} (m : M A) : Prop :=
  ∀ w, f (m w).2 = f w.

(** [never_false m]: [m] does not return [False]. *)
Definition never_false (m : M bool) : Prop := ∀ w, (m w).1 ≠ Ret false.

(** What [unet.hosts[x].run_in_window(shell, **kwargs)] answers. *)
Definition window_result (unet : Unet) (shell : string) (kwargs : Kwargs) (x : string)
    : Res unit :=
  match hosts unet !! x with
  | Some h => run_in_window h shell kwargs
  | None => Raise (Exception "KeyError" x)
  end.

(** The arguments of a window command: the words of the rest of the
    line, or every host for a lone star. *)
Definition window_args (unet : Unet) (nline : string) : list string :=
  let args := Py.split nline in
  match args with ["*"] => sorted_hosts unet | _ => args end.

(** The hosts named by [args] with their names, as [doline] looks them
    up. *)
Definition host_pairs (unet : Unet) (args : list string) : list (string * Host) :=
  omap (λ x, (λ h, (x, h)) <$> hosts unet !! x) args.

(** The rest of the line after its first word: group 2 of the match of
    [doline], or the empty string. *)
Definition rest_of_line (g2 : option string) : string :=
  match g2 with Some (String c s) => String c s | _ => "" end.

(** The traces of a connection, as the states of the handler order them:
    nothing; a line read and dispatched with no marker after it, which
    ends the connection; or a line read and dispatched, the marker and
    the drain, and the trace of the rest of the connection. *)
Inductive connection_trace : list Event → Prop :=
  | connection_end : connection_trace []
  | connection_last line evs :
      Forall dispatch_event evs →
      connection_trace (ReadLine line :: evs)
  | connection_turn line evs rest :
      line ≠ "" →
      Forall dispatch_event evs →
      connection_trace rest →
      connection_trace (ReadLine line :: evs ++ [WriteBytes ENDMARKER; Drain] ++ rest).

(** The events of the window bootstrap that make the server. *)
Definition server_event (e : Event) : Prop :=
  match e with Mkdtemp | StartUnixServer _ _ => True | _ => False end.

(** The command line of the window that [remote_cli] opens for the
    interpreter [python_path], the client program [us] and the socket
    [sockpath]. *)
Definition client_command (unet : Unet) (python_path us prompt sockpath : string) : string :=
  let cmd := python_path +:+ " " +:+ us in
  let cmd := match cli_histfile unet with
             | Some (String c h) => cmd +:+ " --histfile=" +:+ String c h
             | _ => cmd
             end in
  let cmd := match prompt with
             | "" => cmd
             | _ => cmd +:+ " --prompt='" +:+ prompt +:+ "'"
             end in
  cmd +:+ " " +:+ sockpath.

(** A world in which no directory can be made for the socket. *)
Definition world_no_tmp : World :=
  mkWorld [] cooked None true true (Raise (Exception "OSError" "No space left on device"))
          (λ _, Ret tt) "/usr/lib/python3/munet/cli.py".

(** The events of a captured run: launches and writes. *)
Definition captured_event (e : Event) : Prop :=
  match e with CmdStatus _ _ _ | Write _ => True | _ => False end.

(** The events of an interactive run: everything [spawn] does, and
    writes. *)
Definition interactive_event (e : Event) : Prop :=
  match e with
  | Write _ | Flush | PtyInput _ | OpenPty | Popen _ _ _
  | TcGetAttr | SetRaw | TcSetAttr _ => True
  | _ => False
  end.

(** [runs_one x m]: [m] changes the world by appending events to the
    trace only, and the execution operations among them are the one
    operation [x], or none when [m] raises. *)
Definition runs_one (x : Event) {A} (m : M A) : Prop :=
  ∀ w, ∃ evs, (m w).2 = with_trace (trace w ++ evs) w ∧
    (execs evs = [x] ∨ execs evs = [] ∧ ∃ e, (m w).1 = Raise e).

(** The events that are no execution operations. *)
Definition quiet (e : Event) : Prop := is_exec e = false.

(** The events of a dispatcher that puts no text into its sink:
    everything but the socket traffic and the writes and flushes of the
    sink. *)
Definition wordless_event (e : Event) : Prop :=
  match e with
  | Write _ | Flush | ReadLine _ | WriteBytes _ | Drain => False
  | _ => True
  end.

(** The events of a connection on which the only bytes sent are
    markers, and no text is written anywhere. *)
Definition marker_only (e : Event) : Prop :=
  match e with
  | Write _ | Flush => False
  | WriteBytes b => b = ENDMARKER
  | _ => True
  end.

(** [blind m]: [m] does not look at the trace.  On a world with another
    trace it has the same outcome and leaves the same world, the trace
    apart. *)
Definition blind {A} (m : M A) : Prop :=
  ∀ w t, ∃ t', m (with_trace t w) = ((m w).1, with_trace t' (m w).2).

(** The part of an interactive run for one target: the process spawned
    on [host], between the bracket lines when there are [many]
    targets. *)
Definition interactive_turn (setraw_attr : TermAttr → TermAttr) (unet : Unet) (outf : Sink)
    (ucmd : string) (on_host many : bool) (host : string) : M unit :=
  (if many then write outf ("------ Host: " +:+ host +:+ " ------" +:+ Py.LF) else mret tt) ;;
  spawn setraw_attr unet host (Py.replace "%NAME%" host ucmd) outf on_host ;;
  (if many then write outf ("------- End: " +:+ host +:+ " ------" +:+ Py.LF) else mret tt).

(** * Properties *)

(** ** The string methods and the fixtures, run *)

Example strip_ex : Py.strip ("  r1  echo ok" +:+ Py.LF) = "r1  echo ok".
Proof. reflexivity. Qed.

Example split_ex : Py.split (" r1   r2" +:+ Py.TAB +:+ "echo  ok ") = ["r1"; "r2"; "echo"; "ok"].
Proof. reflexivity. Qed.

Example chars_ex :
  Py.chars ("r1" +:+ Py.NBSP +:+ "x") = ["r"; "1"; Py.NBSP; "x"] ∧
  Py.isspace Py.NBSP = true ∧ Py.isspace Py.LF = true ∧ Py.isspace "x" = false.
Proof. repeat split; reflexivity. Qed.

Example strip_blanks_ex : Py.strip (Py.NBSP +:+ " hosts " +:+ Py.NBSP +:+ Py.LF) = "hosts".
Proof. reflexivity. Qed.

Example split_blanks_ex : Py.split ("r1" +:+ Py.NBSP +:+ "echo hi") = ["r1"; "echo"; "hi"].
Proof. reflexivity. Qed.

Example re_match_ex :
  re_match "sh  r1 echo ok" = Some ("sh", Some "r1 echo ok") ∧
  re_match "hosts" = Some ("hosts", None) ∧
  re_match ("hosts" +:+ Py.NBSP +:+ "x") = Some ("hosts", Some "x") ∧
  re_match ("sh r1" +:+ Py.LF +:+ "x") = None ∧
  re_match "" = None.
Proof. repeat split; reflexivity. Qed.

Example join_ex : Py.join " " ["echo"; "hi"] = "echo hi".
Proof. reflexivity. Qed.

Example replace_ex :
  Py.replace "%NAME%" "r1" "ip -n %NAME% a; echo %NAME%%" = "ip -n r1 a; echo r1%".
Proof. reflexivity. Qed.

Example sorted_ex : Py.sorted ["r2"; "r10"; "r1"] = ["r1"; "r10"; "r2"].
Proof. vm_compute. reflexivity. Qed.

Example str_of_int_ex :
  Py.str_of_int (-9) = "-9" ∧ Py.str_of_int 0 = "0" ∧ Py.str_of_int 127 = "127".
Proof. repeat split; reflexivity. Qed.

Example braces_ex :
  braces "bash -c '{}'" "echo hi" = Ret "bash -c 'echo hi'" ∧
  braces "{0}; {0}" "date" = Ret "date; date" ∧
  braces "awk '{{print $1}}' {}" "f" = Ret "awk '{print $1}' f".
Proof. repeat split; reflexivity. Qed.

Example braces_twice_ex :
  braces "{} {}" "x"
  = Raise (Exception "IndexError"
             "Replacement index 1 out of range for positional args tuple") ∧
  braces "{1}" "x"
  = Raise (Exception "IndexError"
             "Replacement index 1 out of range for positional args tuple") ∧
  braces "echo {" "x"
  = Raise (Exception "ValueError" "Single '{' encountered in format string").
Proof. repeat split; reflexivity. Qed.

Example doline_single_host_ex :
  let '(r, w) := doline clear_lflag braces (session (host_rc 0 ("ok" +:+ Py.LF)) (host_rc 0 ""))
                        "sh r1 echo ok" TextIO false false (world0 true) in
  r = Ret true ∧ trace w = [CmdStatus "r1" false "bash -c 'echo ok'"; Write ("ok" +:+ Py.LF)].
Proof. vm_compute. done. Qed.

Example doline_unknown_command_ex :
  let '(r, w) := doline clear_lflag braces (session (host_rc 0 "") (host_rc 0 ""))
                        "foo bar" TextIO false false (world0 true) in
  r = Ret true ∧ trace w = [Write ("% Unknown command: foo bar" +:+ Py.LF)].
Proof. vm_compute. done. Qed.

(** Lines whose first word ends at a no-break space, in a session with
    a default command: the word before the blank is the command. *)
Example doline_blanks_ex :
  let unet := add_cli_run_cmd (session (host_rc 0 "hi") (host_rc 0 "")) None
                "<cmd>" "run <cmd>" "{}" false false in
  let run line := doline clear_lflag braces unet line TextIO false false (world0 true) in
  run ("quit" +:+ Py.NBSP +:+ "x") = (Ret false, world0 true) ∧
  run ("hosts" +:+ Py.NBSP +:+ "x")
  = (Ret true, with_trace [Write ("% Hosts:" +:+ Py.TAB +:+ "r1 r2" +:+ Py.LF)] (world0 true)) ∧
  run ("term r1" +:+ Py.NBSP +:+ "r2")
  = (Ret true,
     with_trace [RunInWindow "r1" "bash" []; RunInWindow "r2" "bash" []] (world0 true)) ∧
  run ("r1" +:+ Py.NBSP +:+ "echo hi")
  = (Ret true, with_trace [CmdStatus "r1" false "echo hi"; Write "hi"] (world0 true)).
Proof. vm_compute. done. Qed.

Example doline_window_unknown_ex :
  let '(r, w) := doline clear_lflag braces (session (host_rc 0 "") (host_rc 0 ""))
                        "term r1 r9" TextIO false false (world0 true) in
  r = Ret true ∧ trace w = [Write ("% Unknown host[s]: r9" +:+ Py.LF)].
Proof. vm_compute. done. Qed.

(** ** What a computation leaves behind *)

Lemma with_trace_same w : with_trace (trace w) w = w.
Proof. by destruct w. Qed.

Lemma with_trace_twice t1 t2 w : with_trace t2 (with_trace t1 w) = with_trace t2 w.
Proof. done. Qed.

Lemma only_emits_emits P {A} (m : M A) : only_emits P m → emits P m.
Proof. intros H w. destruct (H w) as (evs & -> & ?). by exists evs. Qed.

Create HintDb frame discriminated.

Section Frame.
Context (P : Event → Prop).

Lemma only_emits_ret {A} (a : A) : only_emits P (mret a).
Proof. intros w. exists []. by rewrite app_nil_r, with_trace_same. Qed.

Lemma only_emits_raise {A} e : only_emits P (@raise A e).
Proof. intros w. exists []. by rewrite app_nil_r, with_trace_same. Qed.

Lemma only_emits_lift {A} (r : Res A) : only_emits P (lift r).
Proof. intros w. exists []. by rewrite app_nil_r, with_trace_same. Qed.

Lemma only_emits_get {A} (f : World → A) : only_emits P (get f).
Proof. intros w. exists []. by rewrite app_nil_r, with_trace_same. Qed.

Lemma only_emits_emit e : P e → only_emits P (emit e).
Proof. intros ? w. exists [e]. split; [done | by constructor]. Qed.

Lemma only_emits_bind {A B} (m : M A) (f : A → M B) :
  only_emits P m → (∀ a, only_emits P (f a)) → only_emits P (m ≫= f).
Proof.
  intros Hm Hf w. unfold mbind, M_bind.
  destruct (Hm w) as (evs & Hw & ?). destruct (m w) as [[a|e] w1]; simpl in *.
  - destruct (Hf a w1) as (evs' & -> & ?). subst w1. exists (evs ++ evs').
    split; [by rewrite with_trace_twice, app_assoc | by apply Forall_app].
  - by exists evs.
Qed.

Lemma only_emits_try_except {A} (m : M A) (h : Exn → M A) :
  only_emits P m → (∀ e, only_emits P (h e)) → only_emits P (try_except m h).
Proof.
  intros Hm Hh w. unfold try_except.
  destruct (Hm w) as (evs & Hw & ?). destruct (m w) as [[a|e] w1]; simpl in *.
  - by exists evs.
  - destruct (is_Exception e); [| by exists evs].
    destruct (Hh e w1) as (evs' & -> & ?). subst w1. exists (evs ++ evs').
    split; [by rewrite with_trace_twice, app_assoc | by apply Forall_app].
Qed.

Lemma only_emits_for_each {A} (l : list A) (f : A → M unit) :
  (∀ a, only_emits P (f a)) → only_emits P (for_each l f).
Proof.
  intros Hf. induction l as [|a l IH]; simpl.
  - apply only_emits_ret.
  - apply only_emits_bind; auto.
Qed.

Lemma emits_bind {A B} (m : M A) (f : A → M B) :
  emits P m → (∀ a, emits P (f a)) → emits P (m ≫= f).
Proof.
  intros Hm Hf w. unfold mbind, M_bind.
  destruct (Hm w) as (evs & Hw & ?). destruct (m w) as [[a|e] w1]; simpl in *.
  - destruct (Hf a w1) as (evs' & -> & ?). exists (evs ++ evs').
    split; [by rewrite Hw, app_assoc | by apply Forall_app].
  - by exists evs.
Qed.

(** The rule for a step whose continuation depends on the value was
    returned. *)
Lemma emits_bind_ret {A B} (m : M A) (f : A → M B) :
  emits P m → (∀ a w w', m w = (Ret a, w') → emits P (f a)) → emits P (m ≫= f).
Proof.
  intros Hm Hf w. unfold mbind, M_bind.
  destruct (Hm w) as (evs & Hw & ?). destruct (m w) as [[a|e] w1] eqn:Hmw; simpl in *.
  - destruct (Hf a w w1 Hmw w1) as (evs' & -> & ?). exists (evs ++ evs').
    split; [by rewrite Hw, app_assoc | by apply Forall_app].
  - by exists evs.
Qed.

Lemma emits_try_except {A} (m : M A) (h : Exn → M A) :
  emits P m → (∀ e, emits P (h e)) → emits P (try_except m h).
Proof.
  intros Hm Hh w. unfold try_except.
  destruct (Hm w) as (evs & Hw & ?). destruct (m w) as [[a|e] w1]; simpl in *.
  - by exists evs.
  - destruct (is_Exception e); [| by exists evs].
    destruct (Hh e w1) as (evs' & -> & ?). exists (evs ++ evs').
    split; [by rewrite Hw, app_assoc | by apply Forall_app].
Qed.

Lemma emits_try_finally {A} (m : M A) (fin : M unit) :
  emits P m → emits P fin → emits P (try_finally m fin).
Proof.
  intros Hm Hfin w. unfold try_finally.
  destruct (Hm w) as (evs & Hw & ?). destruct (m w) as [r w1]; simpl in *.
  destruct (Hfin w1) as (evs' & Hw' & ?). destruct (fin w1) as [[[]|e] w2]; simpl in *;
    (exists (evs ++ evs'); split; [by rewrite Hw', Hw, app_assoc | by apply Forall_app]).
Qed.

Lemma emits_for_each {A} (l : list A) (f : A → M unit) :
  (∀ a, emits P (f a)) → emits P (for_each l f).
Proof.
  intros Hf. induction l as [|a l IH]; simpl.
  - apply only_emits_emits, only_emits_ret.
  - apply emits_bind; auto.
Qed.

Lemma emits_modify (f : World → World) :
  (∀ w, trace (f w) = trace w) → emits P (modify f).
Proof. intros Hf w. exists []. simpl. by rewrite Hf, app_nil_r. Qed.

End Frame.

#[export] Hint Resolve only_emits_ret only_emits_raise only_emits_lift only_emits_get
  only_emits_emit only_emits_bind only_emits_try_except only_emits_for_each : frame.

Lemma only_emits_weaken (P Q : Event → Prop) {A} (m : M A) :
  (∀ e, Q e → P e) → only_emits Q m → only_emits P m.
Proof.
  intros HPQ Hm w. destruct (Hm w) as (evs & Hw & Hevs).
  exists evs. split; [done|]. eapply Forall_impl; eauto.
Qed.

Lemma emits_weaken (P Q : Event → Prop) {A} (m : M A) :
  (∀ e, Q e → P e) → emits Q m → emits P m.
Proof.
  intros HPQ Hm w. destruct (Hm w) as (evs & Hw & Hevs).
  exists evs. split; [done|]. eapply Forall_impl; eauto.
Qed.

(** Breaks a computation into its steps and settles each step that only
    appends to the trace. *)
Ltac frame_step :=
  first
    [ apply only_emits_ret | apply only_emits_raise | apply only_emits_lift
    | apply only_emits_get | (apply only_emits_emit; done)
    | (apply only_emits_bind; [| intros ?])
    | (apply only_emits_try_except; [| intros ?])
    | (apply only_emits_for_each; intros ?)
    | match goal with
      | |- only_emits _ (match ?x with _ => _ end) => destruct x
      | |- only_emits _ (let '(_, _) := ?x in _) => destruct x
      end ].

Ltac frame := repeat frame_step.

Lemma relay_only_emits outf steps : only_emits relay_event (relay outf steps).
Proof.
  induction steps as [|st steps IH]; simpl; [frame|].
  destruct st; unfold write, flush; frame; assumption.
Qed.

Lemma host_of_only_emits P unet host : only_emits P (host_of unet host).
Proof. unfold host_of. frame. Qed.

Lemma gather_only_emits P {A} (aws : list (Event * Res A)) :
  Forall (λ a, P a.1) aws → only_emits P (gather aws).
Proof.
  induction 1 as [|[e r] aws He Haws IH]; simpl; [frame|].
  frame; done.
Qed.

Lemma report_only_emits outf many l :
  only_emits (λ e, ∃ s, e = Write s) (report outf many l).
Proof.
  induction l as [|[host result] l IH]; simpl; [frame|].
  unfold write. frame; try assumption; apply only_emits_emit; by eexists.
Qed.

Lemma build_aws_only_emits P unet ucmd on_host l :
  only_emits P (build_aws unet ucmd on_host l).
Proof.
  induction l as [|host l IH]; simpl; [frame|].
  frame; [apply host_of_only_emits | done].
Qed.

Lemma spawn_body_only_emits unet outf host cmd on_host :
  only_emits bridge_event (spawn_body unet host cmd outf on_host).
Proof.
  unfold spawn_body, openpty, write, flush. frame; try apply host_of_only_emits.
  eapply only_emits_weaken; [| apply relay_only_emits]. by intros [].
Qed.

(** ** The PTY bridge and the terminal discipline *)

(** C8.  Whatever [spawn] returns or raises, the terminal attributes it
    leaves are the ones it found.  When standard input is a terminal the
    trace of [spawn] is: save the attributes, enter raw mode, the guarded
    part, restore the saved attributes; the guarded part performs no
    operation on the terminal discipline.  When standard input is not a
    terminal the trace is the guarded part alone, so that neither the
    switch to raw mode nor the restore takes place. *)
Theorem spawn_restores_terminal setraw_attr unet outf host cmd on_host w :
  ∃ evs,
    Forall (λ e, bridge_event e ∧ ¬ tty_event e) evs ∧
    let w' := (spawn setraw_attr unet host cmd outf on_host w).2 in
    tty_attr w' = tty_attr w ∧
    trace w' = trace w ++
      (if stdin_isatty w
       then [TcGetAttr; SetRaw] ++ evs ++ [TcSetAttr (tty_attr w)]
       else evs).
Proof.
  unfold spawn, tcgetattr, setraw, tcsetattr.
  unfold mbind, M_bind, mret, M_ret, get, emit, modify, try_finally. simpl.
  destruct (stdin_isatty w) eqn:Htty; simpl.
  - match goal with |- context [spawn_body _ _ _ outf _ ?w2] =>
      destruct (spawn_body_only_emits unet outf host cmd on_host w2) as (evs & Hw & Hevs);
      destruct (spawn_body unet host cmd outf on_host w2) as [r w3]
    end.
    simpl in Hw. subst w3. simpl. rewrite Htty. simpl.
    exists evs. split; [| split; [done|]].
    + eapply Forall_impl; [done|]. intros [] ?; simpl in *; tauto.
    + by rewrite <- !app_assoc.
  - destruct (spawn_body_only_emits unet outf host cmd on_host w) as (evs & Hw & Hevs).
    destruct (spawn_body unet host cmd outf on_host w) as [r w3].
    simpl in Hw. subst w3. simpl. rewrite Htty. simpl.
    exists evs. split; [| done].
    eapply Forall_impl; [done|]. intros [] ?; simpl in *; tauto.
Qed.

(** Both ways out of [spawn] on a terminal: the child exits, and the relay
    loop is interrupted from the keyboard. *)
Example spawn_exit_ex :
  let '(r, w) := spawn clear_lflag (session (host_rc 0 "done") host_fault)
                       "r1" "vtysh" TextIO false (world0 true) in
  r = Ret tt ∧ tty_attr w = cooked ∧
  trace w = [TcGetAttr; SetRaw; OpenPty; Popen "r1" "vtysh" false; Write Py.CR; Flush;
             Write "done"; Flush; TcSetAttr cooked].
Proof. vm_compute. done. Qed.

Example spawn_interrupt_ex :
  let '(r, w) := spawn clear_lflag (session host_interrupted host_fault)
                       "r1" "vtysh" TextIO false (world0 true) in
  r = Raise (BaseException "KeyboardInterrupt" "") ∧ tty_attr w = cooked ∧
  trace w = [TcGetAttr; SetRaw; OpenPty; Popen "r1" "vtysh" false; Write Py.CR; Flush;
             Write "$ "; Flush; PtyInput [x03]; TcSetAttr cooked].
Proof. vm_compute. done. Qed.

Example spawn_notty_ex :
  let '(r, w) := spawn clear_lflag (session (host_rc 0 "done") host_fault)
                       "r1" "vtysh" TextIO false (world0 false) in
  r = Ret tt ∧ tty_attr w = cooked ∧
  trace w = [OpenPty; Popen "r1" "vtysh" false; Write Py.CR; Flush; Write "done"; Flush].
Proof. vm_compute. done. Qed.

(** ** The host-name prefix rule *)

Lemma is_host_true unet x : is_host unet x = true ↔ x ∈ dom (hosts unet).
Proof.
  unfold is_host. rewrite bool_decide_eq_true. symmetry. apply elem_of_dom.
Qed.

Lemma sorted_hosts_known unet : Forall (λ x, is_host unet x = true) (sorted_hosts unet).
Proof.
  apply Forall_forall. intros x Hx. apply is_host_true.
  unfold sorted_hosts, Py.sorted in Hx.
  rewrite merge_sort_Permutation in Hx. by apply elem_of_elements in Hx.
Qed.

Lemma host_prefix_known unet l : Forall (λ x, is_host unet x = true) (host_prefix unet l).
Proof.
  induction l as [|e l IH]; simpl; [constructor|].
  destruct (is_host unet e) eqn:He; by constructor.
Qed.

Lemma host_prefix_is_prefix unet l : host_prefix unet l `prefix_of` l.
Proof.
  induction l as [|e l IH]; simpl; [done|].
  destruct (is_host unet e); [by apply prefix_cons | apply prefix_nil].
Qed.

(** When the loop meets a token that is no host it stops there, and [i]
    is the length of the host-name prefix. *)
Lemma enumerate_break_stops unet i idx l :
  Exists (λ e, is_host unet e = false) l →
  enumerate_break unet i idx l = idx + length (host_prefix unet l).
Proof.
  revert i idx. induction l as [|e l IH]; intros i idx Hex.
  - by apply Exists_nil in Hex.
  - simpl. destruct (is_host unet e) eqn:He; simpl; [| lia].
    apply Exists_cons in Hex as [Hex | Hex]; [congruence|].
    rewrite IH by done. lia.
Qed.

(** When every token is a host name the loop runs to its end, and [i] is
    the index of the last token. *)
Lemma enumerate_break_runs_out unet i idx l e :
  Forall (λ e, is_host unet e = true) (l ++ [e]) →
  enumerate_break unet i idx (l ++ [e]) = idx + length l.
Proof.
  revert i idx. induction l as [|x l IH]; intros i idx Hall.
  - simpl. destruct (is_host unet e); lia.
  - simpl in *. rewrite Forall_cons in Hall. destruct Hall as [Hx Hall].
    rewrite Hx, IH by done. lia.
Qed.

Lemma enumerate_break_le unet l :
  (enumerate_break unet 0 0 l ≤ length (host_prefix unet l))%nat.
Proof.
  assert (∀ i idx, l ≠ [] →
    (enumerate_break unet i idx l ≤ idx + length (host_prefix unet l))%nat) as H.
  { induction l as [|e l IH]; intros i idx Hne; [done|].
    simpl. destruct (is_host unet e); simpl; [| lia].
    destruct l as [|e' l]; [simpl; lia|].
    etrans; [apply IH; done|]. lia. }
  destruct l as [|e l]; [done|]. by apply H.
Qed.

(** The targets [host_cmd_split] returns are all known hosts, whatever
    the line: the test for unknown hosts in [run_command] finds none. *)
Lemma host_cmd_split_known unet line :
  List.filter (λ x, negb (is_host unet x)) (host_cmd_split unet line).1 = [].
Proof.
  assert (Forall (λ x, is_host unet x = true) (host_cmd_split unet line).1) as Hall.
  { unfold host_cmd_split. simpl.
    set (l := Py.split line). set (i := enumerate_break unet 0 0 l).
    destruct (take i l) eqn:Htake; [apply sorted_hosts_known|].
    rewrite <- Htake.
    assert (take i l = take i (host_prefix unet l)) as ->.
    { destruct (host_prefix_is_prefix unet l) as [k Hk].
      rewrite Hk at 1. apply take_app_le, enumerate_break_le. }
    apply Forall_take, host_prefix_known. }
  induction Hall as [|x l Hx Hl IH]; simpl; [done|]. by rewrite Hx.
Qed.

(** On a line with a token that is no host name, [host_cmd_split] follows
    the rule. *)
Lemma host_cmd_split_stops unet line :
  Exists (λ e, is_host unet e = false) (Py.split line) →
  host_cmd_split unet line = host_cmd_split_spec unet line.
Proof.
  intros Hex. unfold host_cmd_split, host_cmd_split_spec.
  rewrite enumerate_break_stops by done. simpl.
  assert (take (length (host_prefix unet (Py.split line))) (Py.split line)
          = host_prefix unet (Py.split line)) as ->; [|done].
  destruct (host_prefix_is_prefix unet (Py.split line)) as [k Hk].
  rewrite Hk at 2. by rewrite take_app_length.
Qed.

(** On a line made of host names only, the last name is not a target: it
    is returned as the command. *)
Lemma host_cmd_split_runs_out unet line l e :
  Py.split line = l ++ [e] →
  Forall (λ e, is_host unet e = true) (l ++ [e]) →
  host_cmd_split unet line
  = (match l with [] => sorted_hosts unet | _ => l end, e).
Proof.
  intros Hsplit Hall. unfold host_cmd_split. rewrite Hsplit.
  rewrite enumerate_break_runs_out by done. simpl.
  rewrite take_app_length, drop_app_length. done.
Qed.

(** C2.  On the line [r1 r2] of a session whose hosts are [r1] and [r2],
    the longest prefix of host names is [r1 r2] and nothing remains; the
    rule gives the targets [r1] and [r2] and the empty command, while
    [host_cmd_split] returns the target [r1] and the command [r2].  On
    the line [r1] it returns every host and the command [r1]. *)
Theorem host_cmd_split_drops_last_host :
  let unet := session (host_rc 0 "") (host_rc 0 "") in
  host_cmd_split unet "r1 r2" = (["r1"], "r2") ∧
  host_cmd_split_spec unet "r1 r2" = (["r1"; "r2"], "") ∧
  host_cmd_split unet "r1" = (["r1"; "r2"], "r1") ∧
  host_cmd_split_spec unet "r1" = (["r1"], "").
Proof. vm_compute. done. Qed.

(** ** Captured fan-out *)

Lemma build_aws_known unet ucmd on_host l w :
  Forall (λ x, is_host unet x = true) l →
  build_aws unet ucmd on_host l w
  = (Ret ((λ h, (launch on_host ucmd h, captured unet on_host ucmd h)) <$> l), w).
Proof.
  induction 1 as [|host l Hhost Hl IH]; [done|].
  simpl. unfold mbind, M_bind, host_of, captured.
  apply is_host_true, elem_of_dom in Hhost as [h Hh]. rewrite Hh. simpl.
  by rewrite IH.
Qed.

(** Gathering runs every awaitable, in order, and answers with all the
    outcomes, faults included. *)
Lemma gather_runs_all {A} (aws : list (Event * Res A)) w :
  gather aws w = (Ret (aws.*2), with_trace (trace w ++ aws.*1) w).
Proof.
  revert w. induction aws as [|[e r] aws IH]; intros w; simpl.
  - by rewrite app_nil_r, with_trace_same.
  - unfold mbind, M_bind, emit. simpl. rewrite IH. simpl.
    by rewrite with_trace_twice, <- app_assoc.
Qed.

(** One turn of the report, on a completion and on a fault. *)
Lemma report_cons_completed many host rc o e rest w :
  report TextIO many ((host, Ret (rc, o, e)) :: rest) w
  = report TextIO many rest (with_trace (trace w ++ (Write <$> block many host rc o)) w).
Proof.
  simpl. unfold mbind, M_bind, mret, M_ret, write, emit, block, output_lines, begin_line, end_line.
  destruct many, (bool_decide (rc ≠ 0%Z)); simpl;
    rewrite ?with_trace_twice, <- ?app_assoc; done.
Qed.

Lemma report_cons_fault outf many host x rest w :
  report outf many ((host, Raise x) :: rest) w
  = (Raise (Exception "TypeError" ("cannot unpack non-iterable " +:+ exn_cls x +:+ " object")),
     w).
Proof. done. Qed.

(** The report of results that are all completions. *)
Lemma report_completed many (l : list (string * (Z * string * string))) w :
  report TextIO many (prod_map id Ret <$> l) w
  = (Ret tt,
     with_trace (trace w ++ (Write <$> concat ((λ x, block many x.1 x.2.1.1 x.2.1.2) <$> l))) w).
Proof.
  revert w. induction l as [|[host [[rc o] e]] l IH]; intros w.
  - simpl. by rewrite app_nil_r, with_trace_same.
  - rewrite fmap_cons. unfold prod_map at 1. simpl fst. simpl snd. unfold id at 1.
    rewrite report_cons_completed, IH. simpl.
    by rewrite with_trace_twice, fmap_app, <- app_assoc.
Qed.

(** A captured [run_command]: the command is launched on every target,
    then the results are reported. *)
Lemma run_command_captured setraw_attr str_format unet outf line execfmt on_host hs body u
    w :
  host_cmd_split unet line = (hs, body) →
  str_format execfmt body = Ret u →
  let ucmd := Py.replace "%INSTANCE%" (instance unet) u in
  run_command setraw_attr str_format unet outf line execfmt on_host false w
  = report outf (bool_decide (1 < length hs))
           (zip hs (captured unet on_host ucmd <$> hs))
           (with_trace (trace w ++ (launch on_host ucmd <$> hs)) w).
Proof.
  intros Hsplit Hfmt ucmd. unfold run_command.
  pose proof (host_cmd_split_known unet line) as Hknown.
  rewrite Hsplit in *. simpl in Hknown. rewrite Hknown.
  unfold mbind at 1. unfold M_bind, lift. rewrite Hfmt. fold ucmd.
  unfold mbind at 1. unfold M_bind.
  rewrite build_aws_known.
  2:{ apply Forall_forall. intros x Hx.
      assert (x ∉ List.filter (λ x, negb (is_host unet x)) hs) as Hnot
        by (rewrite Hknown; apply not_elem_of_nil).
      destruct (is_host unet x) eqn:Hhost; [done|].
      exfalso. apply Hnot. apply list_elem_of_In, filter_In.
      split; [by apply list_elem_of_In | by rewrite Hhost]. }
  unfold mbind at 1. unfold M_bind. rewrite gather_runs_all.
  rewrite <- !list_fmap_compose. simpl.
  f_equal.
Qed.

(** C7, as stated, fails when a host is named twice: on the line
    [r1 r1 echo hi] the targets are one host, the command is launched on
    it twice, and the sink receives two bracketed blocks for it. *)
Lemma repeated_host_gets_two_blocks :
  let unet := session (host_rc 0 ("hi" +:+ Py.LF)) (host_rc 0 "") in
  host_cmd_split unet "r1 r1 echo hi" = (["r1"; "r1"], "echo hi") ∧
  run_command clear_lflag braces unet TextIO "r1 r1 echo hi" "bash -c '{}'" false false
              (world0 true)
  = (Ret tt,
     with_trace [CmdStatus "r1" false "bash -c 'echo hi'";
                 CmdStatus "r1" false "bash -c 'echo hi'";
                 Write (begin_line "r1"); Write ("hi" +:+ Py.LF); Write (end_line "r1");
                 Write (begin_line "r1"); Write ("hi" +:+ Py.LF); Write (end_line "r1")]
                (world0 true)).
Proof. vm_compute. done. Qed.

(** C7, amended.  A captured run on a sink that takes text, in which the
    command of every target completes: after the launches, the sink
    receives for each entry of the target list, in order, the lines of
    its output, and when the list has more than one entry each between
    the begin line and the end line of that entry, so that a host named
    twice has two blocks; a list of one entry has its output lines with
    no bracket line. *)
Theorem captured_report_brackets setraw_attr str_format unet line execfmt on_host hs body u
    results w :
  host_cmd_split unet line = (hs, body) →
  str_format execfmt body = Ret u →
  let ucmd := Py.replace "%INSTANCE%" (instance unet) u in
  captured unet on_host ucmd <$> hs = Ret <$> results →
  ∃ sink,
    run_command setraw_attr str_format unet TextIO line execfmt on_host false w
    = (Ret tt, with_trace (trace w ++ (launch on_host ucmd <$> hs) ++ (Write <$> sink)) w) ∧
    (1 < length hs →
     sink = concat (zip_with (λ h r, [begin_line h] ++ output_lines r.1.1 r.1.2 ++ [end_line h])
                             hs results)) ∧
    (∀ h, hs = [h] → ∃ rc o e, results = [(rc, o, e)] ∧ sink = output_lines rc o).
Proof.
  intros Hsplit Hfmt ucmd Hres.
  set (many := bool_decide (1 < length hs)).
  exists (concat (zip_with (λ h r, block many h r.1.1 r.1.2) hs results)).
  split; [| split].
  - rewrite (run_command_captured _ _ _ TextIO _ _ _ _ _ _ _ Hsplit Hfmt). fold ucmd many.
    rewrite Hres.
    rewrite <- (list_fmap_id hs) at 1. rewrite <- prod_map_zip.
    rewrite report_completed. simpl.
    rewrite with_trace_twice, <- app_assoc. do 5 f_equal.
    rewrite (zip_with_zip (λ h r, block many h r.1.1 r.1.2)). f_equal.
    apply list_fmap_ext. by intros ? [? [[??]?]].
  - intros Hmany. unfold many. by rewrite bool_decide_eq_true_2.
  - intros h ->. destruct results as [|[[rc o] e] [|??]]; try done.
    exists rc, o, e. split; [done|]. simpl. by rewrite app_nil_r.
Qed.

(** C7, on the session of the examples: two targets, then one. *)
Lemma captured_report_brackets_witness :
  ∃ sink,
    run_command clear_lflag braces (session (host_rc 0 ("ok" +:+ Py.LF)) (host_rc 1 "bad"))
                TextIO "r1 r2 false" "bash -c '{}'" false false (world0 true)
    = (Ret tt,
       with_trace ([] ++ [CmdStatus "r1" false "bash -c 'false'";
                          CmdStatus "r2" false "bash -c 'false'"] ++ (Write <$> sink))
                  (world0 true)) ∧
    (1 < length ["r1"; "r2"] →
     sink = concat (zip_with (λ h r, [begin_line h] ++ output_lines r.1.1 r.1.2 ++ [end_line h])
                             ["r1"; "r2"]
                             [(0%Z, "ok" +:+ Py.LF, ""); (1%Z, "bad", "")])) ∧
    (∀ h, ["r1"; "r2"] = [h] →
     ∃ rc o e, [(0%Z, "ok" +:+ Py.LF, ""); (1%Z, "bad", "")] = [(rc, o, e)]
               ∧ sink = output_lines rc o).
Proof.
  apply (captured_report_brackets clear_lflag braces
           (session (host_rc 0 ("ok" +:+ Py.LF)) (host_rc 1 "bad"))
           "r1 r2 false" "bash -c '{}'" false ["r1"; "r2"] "false" "bash -c 'false'"
           [(0%Z, "ok" +:+ Py.LF, ""); (1%Z, "bad", "")] (world0 true)).
  - vm_compute. reflexivity.
  - vm_compute. reflexivity.
  - vm_compute. reflexivity.
Defined.

Example captured_single_host_ex :
  let '(r, w) := run_command clear_lflag braces
                             (session (host_rc 0 ("ok" +:+ Py.LF)) (host_rc 1 "bad")) TextIO
                             "r1 echo ok" "bash -c '{}'" false false (world0 true) in
  r = Ret tt ∧ writes (trace w) = ["ok" +:+ Py.LF].
Proof. vm_compute. done. Qed.

Example captured_two_hosts_ex :
  let '(r, w) := run_command clear_lflag braces (session (host_rc 2 "") (host_rc 1 "bad"))
                             TextIO "r1 r2 false" "bash -c '{}'" false false (world0 true) in
  r = Ret tt ∧
  writes (trace w)
  = [begin_line "r1"; "*** non-zero exit status: 2" +:+ Py.LF; ""; end_line "r1";
     begin_line "r2"; "*** non-zero exit status: 1" +:+ Py.LF; "bad"; end_line "r2"].
Proof. vm_compute. done. Qed.

(** C6.  The session of the examples with a fault on [r1] and the exit
    status 1 on [r2], and the line [r1 r2 false]: both commands are
    launched and awaited, the fault of [r1] is collected as its result,
    and the report then fails on that result with a [TypeError] before
    anything is written: the line on the exit status of [r2] and the
    output of [r2] never reach the sink, and the exception leaves
    [doline].  With the fault on [r2] instead, the block of [r1] is
    written and the report fails after it. *)
Theorem captured_fault_aborts_report :
  let unpack := Exception "TypeError" "cannot unpack non-iterable TimeoutError object" in
  let launches := [CmdStatus "r1" false "bash -c 'false'";
                   CmdStatus "r2" false "bash -c 'false'"] in
  (let '(r, w) := run_command clear_lflag braces (session host_fault (host_rc 1 "bad"))
                              TextIO "r1 r2 false" "bash -c '{}'" false false (world0 true) in
   r = Raise unpack ∧ trace w = launches ∧ writes (trace w) = []) ∧
  (let '(r, w) := doline clear_lflag braces (session host_fault (host_rc 1 "bad"))
                         "sh r1 r2 false" TextIO true false (world0 true) in
   r = Raise unpack ∧ writes (trace w) = []) ∧
  (let '(r, w) := run_command clear_lflag braces (session (host_rc 1 "bad") host_fault)
                              TextIO "r1 r2 false" "bash -c '{}'" false false (world0 true) in
   r = Raise unpack ∧
   trace w = launches ++ (Write <$> block true "r1" 1 "bad")).
Proof. vm_compute. done. Qed.

(** In a captured run every target's command is launched, whatever the
    outcomes: a fault on one host keeps no other command from running.
    What follows the launches are writes of the report. *)
Lemma captured_launches_all setraw_attr str_format unet outf line execfmt on_host hs body u
    w :
  host_cmd_split unet line = (hs, body) →
  str_format execfmt body = Ret u →
  let ucmd := Py.replace "%INSTANCE%" (instance unet) u in
  ∃ r sink,
    run_command setraw_attr str_format unet outf line execfmt on_host false w
    = (r, with_trace (trace w ++ (launch on_host ucmd <$> hs) ++ (Write <$> sink)) w).
Proof.
  intros Hsplit Hfmt ucmd.
  rewrite (run_command_captured _ str_format _ outf _ _ _ _ _ _ _ Hsplit Hfmt). fold ucmd.
  match goal with |- ∃ _ _, report outf ?many ?l ?w1 = _ =>
    destruct (report_only_emits outf many l w1) as (evs & Hw & Hevs);
    destruct (report outf many l w1) as [r w2]
  end.
  simpl in Hw. subst w2.
  assert (∃ sink, evs = Write <$> sink) as [sink ->].
  { clear -Hevs. induction Hevs as [|e evs [s ->] _ [sink ->]]; [by exists []|].
    by exists (s :: sink). }
  exists r, sink. by rewrite with_trace_twice, <- app_assoc.
Qed.

(** ** The unknown-host test of [run_command] *)




(** ** What the dispatcher adds to the trace *)

Lemma spawn_body_emits unet outf host cmd on_host :
  emits dispatch_event (spawn_body unet host cmd outf on_host).
Proof.
  apply only_emits_emits.
  eapply only_emits_weaken; [| apply spawn_body_only_emits]. by intros [].
Qed.

Lemma host_of_emits P unet host : emits P (host_of unet host).
Proof. apply only_emits_emits, host_of_only_emits. Qed.

Lemma build_aws_emits P unet ucmd on_host l : emits P (build_aws unet ucmd on_host l).
Proof. apply only_emits_emits, build_aws_only_emits. Qed.

Lemma report_emits outf many l : emits dispatch_event (report outf many l).
Proof.
  apply only_emits_emits. eapply only_emits_weaken; [| apply report_only_emits].
  by intros ? [? ->].
Qed.

Lemma gather_emits P {A} (aws : list (Event * Res A)) :
  Forall (λ a, P a.1) aws → emits P (gather aws).
Proof. intros. by apply only_emits_emits, gather_only_emits. Qed.

#[export] Hint Resolve spawn_body_emits host_of_emits build_aws_emits report_emits : frame.

(** Breaks a computation into its steps and settles each step that
    extends the trace. *)
Ltac trace_step :=
  first
    [ solve [auto 1 with frame nocore]
    | (apply only_emits_emits; solve [frame])
    | (apply emits_bind; [| intros ?])
    | (apply emits_try_except; [| intros ?])
    | apply emits_try_finally
    | (apply emits_for_each; intros ?)
    | (apply emits_modify; done)
    | match goal with
      | |- emits _ (match ?x with _ => _ end) => destruct x
      | |- emits _ (let '(_, _) := ?x in _) => destruct x
      end ].

Ltac trace_frame := repeat trace_step.

Lemma spawn_emits setraw_attr unet outf host cmd on_host :
  emits dispatch_event (spawn setraw_attr unet host cmd outf on_host).
Proof. unfold spawn, tcgetattr, setraw, tcsetattr. trace_frame. Qed.

#[export] Hint Resolve spawn_emits : frame.

(** The awaitables [build_aws] makes are captured runs. *)
Lemma build_aws_launches unet ucmd on_host l w aws w' :
  build_aws unet ucmd on_host l w = (Ret aws, w') →
  Forall (λ a, dispatch_event a.1) aws.
Proof.
  revert aws w w'. induction l as [|host l IH]; intros aws w w'; simpl.
  - intros [= <- _]. constructor.
  - unfold mbind, M_bind, host_of. destruct (hosts unet !! host); [|done]. simpl.
    destruct (build_aws unet ucmd on_host l w) as [[aws'|?] w1] eqn:Hrest; [|done].
    intros [= <- _]. constructor; [done|]. by eapply IH.
Qed.

Lemma run_command_emits setraw_attr str_format unet outf line execfmt on_host with_pty :
  emits dispatch_event (run_command setraw_attr str_format unet outf line execfmt on_host with_pty).
Proof.
  unfold run_command.
  destruct (host_cmd_split unet line) as [hs body].
  destruct (List.filter _ hs); [| unfold write; trace_frame].
  apply emits_bind; [trace_frame | intros ucmd].
  destruct with_pty; [unfold write; trace_frame|].
  apply emits_bind_ret; [trace_frame | intros aws w w' Haws].
  apply build_aws_launches in Haws.
  apply emits_bind; [by apply gather_emits | intros; trace_frame].
Qed.

#[export] Hint Resolve run_command_emits : frame.

Lemma remote_cli_emits unet prompt title background :
  emits bootstrap_event (remote_cli unet prompt title background).
Proof. unfold remote_cli. trace_frame. Qed.

Lemma doline_window_emits unet outf entry nline :
  emits dispatch_event (doline_window unet outf entry nline).
Proof.
  unfold doline_window, write.
  match goal with |- context [List.filter ?f ?l] => destruct (List.filter f l) end;
    [| trace_frame].
  apply emits_bind; [| intros hosts; trace_frame].
  match goal with |- emits _ (?lookup ?args) => generalize args end.
  intros args. induction args as [|x args IH]; trace_frame.
Qed.

Lemma doline_run_emits setraw_attr str_format unet outf entry body notty :
  emits dispatch_event (doline_run setraw_attr str_format unet outf entry body notty).
Proof. unfold doline_run, write. destruct entry as [[? ?] [[? ?] ?]]. simpl. trace_frame. Qed.

#[export] Hint Resolve doline_window_emits doline_run_emits : frame.

Lemma doline_emits setraw_attr str_format unet outf line background notty :
  emits dispatch_event (doline setraw_attr str_format unet line outf background notty).
Proof.
  unfold doline, write. trace_frame.
Qed.

(** ** The dispatcher *)

(** On a line whose first word is no builtin name, [doline] goes by the
    registries: window commands, then run commands, then the default. *)
Lemma doline_registered setraw_attr str_format unet outf line background notty cmd g2 w :
  re_match (Py.strip line) = Some (cmd, g2) →
  cmd ∉ builtins →
  doline setraw_attr str_format unet line outf background notty w
  = match cli_in_window_cmds unet !! cmd with
    | Some entry =>
        doline_window unet outf entry
          (match g2 with Some (String c s) => String c s | _ => "" end) w
    | None =>
        match cli_run_cmds unet !! Some cmd with
        | Some entry =>
            doline_run setraw_attr str_format unet outf entry
              (match g2 with Some (String c s) => String c s | _ => "" end) notty w
        | None =>
            match cli_run_cmds unet !! None with
            | Some entry =>
                doline_run setraw_attr str_format unet outf entry (Py.strip line) notty w
            | None =>
                (write outf ("% Unknown command: " +:+ Py.strip line +:+ Py.LF) ;; mret true) w
            end
        end
    end.
Proof.
  intros Hm Hcmd. unfold doline. rewrite Hm. unfold builtins in Hcmd.
  rewrite !not_elem_of_cons in Hcmd.
  destruct Hcmd as (Hq & Hquit & Hhelp & Hh & Hhosts & Hcli & _).
  rewrite (bool_decide_eq_false_2 (cmd ∈ ["q"; "quit"]))
    by (rewrite !not_elem_of_cons; auto using not_elem_of_nil).
  rewrite (bool_decide_eq_false_2 (cmd = "help")) by done.
  rewrite (bool_decide_eq_false_2 (cmd ∈ ["h"; "hosts"]))
    by (rewrite !not_elem_of_cons; auto using not_elem_of_nil).
  rewrite (bool_decide_eq_false_2 (cmd = "cli")) by done.
  by repeat case_match.
Qed.

(** The refusal of an interactive command on a session without a
    terminal, when the sink takes text: a line that resolves to a run
    command, registered under its first word or the default, whose entry
    has the interactive flag set, makes the dispatcher write the one
    error line and return [True].  Nothing else is added to the trace:
    [run_command] is not entered and no host is asked to spawn or run
    anything. *)
Lemma refusal_on_text_sink setraw_attr str_format unet line background cmd g2 entry w :
  re_match (Py.strip line) = Some (cmd, g2) →
  cmd ∉ builtins →
  cli_in_window_cmds unet !! cmd = None →
  cli_run_cmds unet !! Some cmd = Some entry ∨
  cli_run_cmds unet !! Some cmd = None ∧ cli_run_cmds unet !! None = Some entry →
  entry.2.2 = true →
  doline setraw_attr str_format unet line TextIO background true w
  = (Ret true,
     with_trace
       (trace w ++ [Write ("% Error: interactive command must be run from primary CLI" +:+ Py.LF)])
       w).
Proof.
  intros Hm Hcmd Hwin Hrun Hpty.
  rewrite (doline_registered _ _ _ TextIO _ _ _ _ _ _ Hm Hcmd), Hwin.
  assert (∀ body, doline_run setraw_attr str_format unet TextIO entry body true w
          = (Ret true,
             with_trace
               (trace w ++ [Write ("% Error: interactive command must be run from primary CLI"
                                   +:+ Py.LF)]) w)) as Hrefuse.
  { intros body. unfold doline_run. destruct entry as [[? ?] [[execfmt on_host] with_pty]].
    simpl in Hpty. subst with_pty. done. }
  destruct Hrun as [-> | [-> ->]]; apply Hrefuse.
Qed.

(** The same line when the sink is the stream writer of a connection,
    which is the sink of every session without a terminal: the write of
    the error line raises [TypeError], nothing is written and [doline]
    does not return. *)
Lemma refusal_on_stream_writer setraw_attr str_format unet line background cmd g2 entry w :
  re_match (Py.strip line) = Some (cmd, g2) →
  cmd ∉ builtins →
  cli_in_window_cmds unet !! cmd = None →
  cli_run_cmds unet !! Some cmd = Some entry ∨
  cli_run_cmds unet !! Some cmd = None ∧ cli_run_cmds unet !! None = Some entry →
  entry.2.2 = true →
  doline setraw_attr str_format unet line StreamWriter background true w
  = (Raise (Exception "TypeError" "data argument must be a bytes-like object, not 'str'"), w).
Proof.
  intros Hm Hcmd Hwin Hrun Hpty.
  rewrite (doline_registered _ _ _ StreamWriter _ _ _ _ _ _ Hm Hcmd), Hwin.
  assert (∀ body, doline_run setraw_attr str_format unet StreamWriter entry body true w
          = (Raise (Exception "TypeError"
                      "data argument must be a bytes-like object, not 'str'"), w)) as Hrefuse.
  { intros body. unfold doline_run. destruct entry as [[? ?] [[execfmt on_host] with_pty]].
    simpl in Hpty. subst with_pty. done. }
  destruct Hrun as [-> | [-> ->]]; apply Hrefuse.
Qed.

(** C5.  The interactive command [shi] of the session of the examples,
    sent on a connection of the control socket.  The handler calls
    [doline] with [notty] set and with the stream writer as the sink; the
    command is refused, no host is asked to spawn anything, but the write
    of the error line raises [TypeError]: no error reaches the sink,
    [doline] does not return [True], and the exception ends the handler
    before a marker is written or the next line is read.  On a sink that
    takes text the same call writes the error line and returns [True]. *)
Theorem interactive_refusal_raises_on_socket :
  let unet := session (host_rc 0 "") (host_rc 0 "") in
  let refusal := "% Error: interactive command must be run from primary CLI" +:+ Py.LF in
  let error := Exception "TypeError" "data argument must be a bytes-like object, not 'str'" in
  (let '(r, w) := cli_client_connected clear_lflag braces unet false
                    ["shi r1 vtysh" +:+ Py.LF; "term r1" +:+ Py.LF] (world0 true) in
   r = Raise error ∧ trace w = [ReadLine ("shi r1 vtysh" +:+ Py.LF)]) ∧
  doline clear_lflag braces unet "shi r1 vtysh" StreamWriter false true (world0 true)
  = (Raise error, world0 true) ∧
  doline clear_lflag braces unet "shi r1 vtysh" TextIO false true (world0 true)
  = (Ret true, with_trace [Write refusal] (world0 true)).
Proof. vm_compute. done. Qed.

(** The same for a default command with the interactive flag: the line
    [vtysh] matches no name and falls to the default entry. *)
Example default_interactive_refused_ex :
  let unet := add_cli_run_cmd (session (host_rc 0 "") (host_rc 0 "")) None
                "<cmd>" "run <cmd> in a pty" "bash -c '{}'" false true in
  doline clear_lflag braces unet "vtysh" StreamWriter false true (world0 true)
  = (Raise (Exception "TypeError" "data argument must be a bytes-like object, not 'str'"),
     world0 true) ∧
  doline clear_lflag braces unet "vtysh" TextIO false true (world0 true)
  = (Ret true,
     with_trace [Write ("% Error: interactive command must be run from primary CLI" +:+ Py.LF)]
                (world0 true)).
Proof. vm_compute. done. Qed.

(** C10.  A line that is the name of a registered window command and
    nothing else: no host is resolved, no window is launched, nothing is
    written, and the dispatcher returns [True]; the world is as before. *)
Theorem window_command_without_targets setraw_attr str_format unet outf line background notty
    cmd g2 entry w :
  re_match (Py.strip line) = Some (cmd, g2) →
  g2 = None ∨ g2 = Some "" →
  cmd ∉ builtins →
  cli_in_window_cmds unet !! cmd = Some entry →
  doline setraw_attr str_format unet line outf background notty w = (Ret true, w).
Proof.
  intros Hm Hg2 Hcmd Hwin.
  rewrite (doline_registered _ str_format _ outf _ _ _ _ _ _ Hm Hcmd), Hwin.
  by destruct Hg2 as [-> | ->].
Qed.

Lemma window_command_without_targets_witness :
  doline clear_lflag braces (session (host_rc 0 "") (host_rc 0 "")) "term" TextIO false false
         (world0 true)
  = (Ret true, world0 true).
Proof.
  apply (window_command_without_targets clear_lflag braces
           (session (host_rc 0 "") (host_rc 0 "")) TextIO "term" false false "term" None
           ("term [hosts]", "open terminal[s] on hosts", ("bash", [])) (world0 true)).
  - vm_compute. reflexivity.
  - left. reflexivity.
  - unfold builtins. intros H. vm_compute in H.
    repeat (apply elem_of_cons in H as [H|H]; [discriminate H|]). by apply elem_of_nil in H.
  - vm_compute. reflexivity.
Defined.

Lemma help_lines_payloads f g unet keys :
  help_lines (set_payloads f g unet) keys = help_lines unet keys.
Proof.
  induction keys as [|cmd keys IH]; [done|].
  simpl. rewrite IH, lookup_fmap.
  destruct (cli_run_cmds unet !! cmd) as [[[??]?]|]; simpl; [done|].
  destruct cmd as [cmd|]; simpl; [|done].
  rewrite lookup_fmap. by destruct (cli_in_window_cmds unet !! cmd) as [[[??]?]|].
Qed.

Lemma make_help_str_payloads f g unet :
  make_help_str (set_payloads f g unet) = make_help_str unet.
Proof.
  unfold make_help_str. simpl. rewrite !dom_fmap_L.
  destruct (sorted_keys _); [| done]. by rewrite help_lines_payloads.
Qed.

(** A run command registered under the name [hosts] is never run: the
    line [hosts r1] lists the hosts. *)
Example hosts_shadows_registered_ex :
  let unet := add_cli_run_cmd (session (host_rc 0 "") (host_rc 0 "")) (Some "hosts")
                "hosts <file>" "show the hosts file" "bash -c 'cat /etc/hosts {}'" false false in
  let '(r, w) := doline clear_lflag braces unet "hosts r1" TextIO false false (world0 true) in
  r = Ret true ∧ trace w = [Write ("% Hosts:" +:+ Py.TAB +:+ "r1 r2" +:+ Py.LF)].
Proof. vm_compute. done. Qed.

(** ** The control socket *)

(** One turn of the connection handler on a line of the stream: after the
    read, the dispatcher runs, and its outcome decides what follows. *)
Lemma cli_client_connected_turn setraw_attr str_format unet background line rest w :
  line ≠ "" →
  cli_client_connected setraw_attr str_format unet background (line :: rest) w
  = match doline setraw_attr str_format unet (Py.strip line) StreamWriter background true
            (with_trace (trace w ++ [ReadLine line]) w) with
    | (Ret true, w1) =>
        cli_client_connected setraw_attr str_format unet background rest
          (with_trace (trace w1 ++ [WriteBytes ENDMARKER; Drain]) w1)
    | (Ret false, w1) => (Ret tt, w1)
    | (Raise e, w1) => (Raise e, w1)
    end.
Proof.
  intros Hline. destruct line as [|c line]; [done|].
  simpl. unfold mbind, M_bind, emit. simpl.
  destruct (doline _ _ _ _ _ _ _ _) as [[[|]|e] w1]; try done.
  by rewrite with_trace_twice, <- app_assoc.
Qed.

(** [q] and [quit] stop the session and leave no trace. *)
Lemma doline_quit setraw_attr str_format unet outf line background notty cmd g2 w :
  re_match (Py.strip line) = Some (cmd, g2) →
  cmd ∈ ["q"; "quit"] →
  doline setraw_attr str_format unet line outf background notty w = (Ret false, w).
Proof. intros Hm Hq. unfold doline. rewrite Hm. by rewrite bool_decide_eq_true_2. Qed.




(** A connection on which a window is opened, an empty line is sent and
    the session is left: each of the first two lines is answered by the
    marker, and nothing is read after [q]. *)
Example socket_session_ex :
  let '(r, w) := cli_client_connected clear_lflag braces (session (host_rc 0 "") (host_rc 0 ""))
                   false ["term r1" +:+ Py.LF; Py.LF; "q" +:+ Py.LF; "term r2" +:+ Py.LF]
                   (world0 true) in
  r = Ret tt ∧
  trace w = [ReadLine ("term r1" +:+ Py.LF);
             RunInWindow "r1" "bash" [];
             WriteBytes ENDMARKER; Drain;
             ReadLine Py.LF; WriteBytes ENDMARKER; Drain;
             ReadLine ("q" +:+ Py.LF)].
Proof. vm_compute. done. Qed.

(** A line on which the dispatcher writes text, here [hosts] and a
    captured command: the stream writer refuses the text, and the
    exception ends the handler with no marker written.  The command of
    the second connection has run by then. *)
Example socket_text_refused_ex :
  let error := Exception "TypeError" "data argument must be a bytes-like object, not 'str'" in
  let unet := session (host_rc 0 "ok") (host_rc 0 "") in
  cli_client_connected clear_lflag braces unet false ["hosts" +:+ Py.LF; "q" +:+ Py.LF]
                       (world0 true)
  = (Raise error, with_trace [ReadLine ("hosts" +:+ Py.LF)] (world0 true)) ∧
  cli_client_connected clear_lflag braces unet false ["sh r1 date" +:+ Py.LF] (world0 true)
  = (Raise error,
     with_trace [ReadLine ("sh r1 date" +:+ Py.LF); CmdStatus "r1" false "bash -c 'date'"]
                (world0 true)).
Proof. vm_compute. done. Qed.

(** ** The marker *)

(** C4, as stated, fails on the length: the marker has five bytes, not
    six. *)
Lemma ENDMARKER_is_not_six_bytes : length ENDMARKER ≠ 6.
Proof. vm_compute. discriminate. Qed.

Lemma bendswith_marker (out : list byte) : bendswith (out ++ ENDMARKER) ENDMARKER = true.
Proof.
  unfold bendswith, Py.last_n. apply andb_true_iff. split; apply bool_decide_eq_true.
  - rewrite length_app. lia.
  - rewrite length_app.
    replace (length out + length ENDMARKER - length ENDMARKER) with (length out) by lia.
    apply drop_app_length.
Qed.

Lemma drop_marker (out : list byte) :
  Py.drop_last_n (length ENDMARKER) (out ++ ENDMARKER) = out.
Proof.
  unfold Py.drop_last_n. rewrite length_app.
  replace (length out + length ENDMARKER - length ENDMARKER) with (length out) by lia.
  apply take_app_length.
Qed.

Lemma bendswith_split (rb : list byte) :
  bendswith rb ENDMARKER = true →
  rb = Py.drop_last_n (length ENDMARKER) rb ++ ENDMARKER.
Proof.
  unfold bendswith, Py.drop_last_n, Py.last_n. intros Hends.
  apply andb_true_iff in Hends as [_ Hlast]. apply bool_decide_eq_true in Hlast.
  set (n := length rb - length ENDMARKER) in *.
  rewrite <- Hlast. symmetry. apply take_drop.
Qed.

(** What the client returns for printing, followed by the marker, is
    what it has received so far. *)
Lemma recv_response_received rb chunks out more :
  recv_response rb chunks = Some (out, more) →
  ∃ k, rb ++ concat (take k chunks) = out ++ ENDMARKER ∧ more = drop k chunks.
Proof.
  revert rb. induction chunks as [|lb chunks IH]; intros rb; simpl.
  - destruct (bendswith rb ENDMARKER) eqn:Hends; [|done].
    intros [= <- <-]. exists 0. simpl. rewrite app_nil_r. split; [|done].
    by apply bendswith_split.
  - destruct (bendswith rb ENDMARKER) eqn:Hends.
    + intros [= <- <-]. exists 0. simpl. rewrite app_nil_r. split; [|done].
      by apply bendswith_split.
    + destruct lb as [|b lb]; [done|]. intros Hrec.
      destruct (IH _ Hrec) as (k & Hk & ->). exists (S k). simpl.
      split; [|done]. by rewrite <- Hk, <- app_assoc.
Qed.

(** C4, amended.  The marker is the five bytes NUL, [E], [N], [D], NUL.
    The connection handler writes these bytes after a line that the
    dispatcher has answered; the client takes a buffer that ends with
    these bytes as a complete response and cuts exactly these bytes off
    before printing. *)
Theorem marker_is_shared setraw_attr str_format unet background line rest w w1 :
  line ≠ "" →
  doline setraw_attr str_format unet (Py.strip line) StreamWriter background true
         (with_trace (trace w ++ [ReadLine line]) w) = (Ret true, w1) →
  ENDMARKER = [x00; x45; x4e; x44; x00] ∧
  length ENDMARKER = 5 ∧
  cli_client_connected setraw_attr str_format unet background (line :: rest) w
  = cli_client_connected setraw_attr str_format unet background rest
      (with_trace (trace w1 ++ [WriteBytes [x00; x45; x4e; x44; x00]; Drain]) w1) ∧
  (∀ out more,
     bendswith (out ++ [x00; x45; x4e; x44; x00]) ENDMARKER = true ∧
     recv_response [] ((out ++ [x00; x45; x4e; x44; x00]) :: more) = Some (out, more)) ∧
  (∀ rb chunks out more,
     recv_response rb chunks = Some (out, more) →
     ∃ k, rb ++ concat (take k chunks) = out ++ [x00; x45; x4e; x44; x00]
          ∧ more = drop k chunks).
Proof.
  intros Hline Hdo. split; [done|]. split; [done|]. split; [|split].
  - rewrite cli_client_connected_turn by done. by rewrite Hdo.
  - intros out more. split; [apply bendswith_marker|].
    change [x00; x45; x4e; x44; x00] with ENDMARKER.
    unfold recv_response.
    change (bendswith [] ENDMARKER) with false. cbv iota.
    destruct (out ++ ENDMARKER) as [|b l] eqn:Hout.
    { by destruct out. }
    rewrite app_nil_l, <- Hout. fold recv_response.
    destruct more; simpl; by rewrite bendswith_marker, drop_marker.
  - apply recv_response_received.
Qed.

Lemma marker_is_shared_witness :
  let unet := session (host_rc 0 "") (host_rc 0 "") in
  let line := "term r1" +:+ Py.LF in
  let w := world0 true in
  let w1 := with_trace [ReadLine line; RunInWindow "r1" "bash" []] w in
  ENDMARKER = [x00; x45; x4e; x44; x00] ∧
  length ENDMARKER = 5 ∧
  cli_client_connected clear_lflag braces unet false [line] w
  = cli_client_connected clear_lflag braces unet false []
      (with_trace (trace w1 ++ [WriteBytes [x00; x45; x4e; x44; x00]; Drain]) w1) ∧
  (∀ out more,
     bendswith (out ++ [x00; x45; x4e; x44; x00]) ENDMARKER = true ∧
     recv_response [] ((out ++ [x00; x45; x4e; x44; x00]) :: more) = Some (out, more)) ∧
  (∀ rb chunks out more,
     recv_response rb chunks = Some (out, more) →
     ∃ k, rb ++ concat (take k chunks) = out ++ [x00; x45; x4e; x44; x00]
          ∧ more = drop k chunks).
Proof.
  apply (marker_is_shared clear_lflag braces (session (host_rc 0 "") (host_rc 0 "")) false
           ("term r1" +:+ Py.LF) [] (world0 true)).
  - vm_compute. discriminate.
  - vm_compute. reflexivity.
Defined.

(** The client on a response that arrives in three pieces. *)
Example recv_response_ex :
  recv_response [] [[x6f; x6b; x0a; x00]; [x45; x4e]; [x44; x00]; [x6e; x65; x78; x74]]
  = Some ([x6f; x6b; x0a], [[x6e; x65; x78; x74]]).
Proof. vm_compute. reflexivity. Qed.

(** * Properties of the rest of [cli.py] *)

(** ** Strings *)

Lemma str_app_cons c s t : String c s +:+ t = String c (s +:+ t).
Proof. done. Qed.

Lemma str_app_nil_l s : "" +:+ s = s.
Proof. done. Qed.

Lemma str_app_nil_r s : s +:+ "" = s.
Proof. induction s as [|c s IH]; [done|]. by rewrite str_app_cons, IH. Qed.

Lemma str_app_assoc s t u : (s +:+ t) +:+ u = s +:+ (t +:+ u).
Proof. induction s as [|c s IH]; [done|]. by rewrite !str_app_cons, IH. Qed.

Lemma string_of_list_byte_app a b :
  string_of_list_byte (a ++ b) = string_of_list_byte a +:+ string_of_list_byte b.
Proof.
  unfold string_of_list_byte. induction a as [|x a IH]; [done|].
  simpl. by rewrite str_app_cons, <- IH.
Qed.

Lemma take_drop_while p s : Py.take_while p s +:+ Py.drop_while p s = s.
Proof.
  induction s as [|c s IH]; [done|]. simpl.
  destruct (p c); [by rewrite str_app_cons, IH | done].
Qed.

Lemma take_while_forall p s : string_forall p (Py.take_while p s) = true.
Proof.
  induction s as [|c s IH]; [done|]. simpl.
  destruct (p c) eqn:Hc; [simpl; by rewrite Hc | done].
Qed.

Lemma drop_while_head p s c s' : Py.drop_while p s = String c s' → p c = false.
Proof.
  induction s as [|x s IH]; [done|]. simpl.
  destruct (p x) eqn:Hx; [done|]. by intros [= <- _].
Qed.

Lemma is_newline_LF c : Py.is_newline c = true → String c "" = Py.LF.
Proof.
  destruct c as [[] [] [] [] [] [] [] []]; try discriminate. done.
Qed.

(** A cut is at the first line feed: the text before it has none, and
    the three parts make up the text. *)
Lemma cut_line_Some s line s' :
  cut_line s = Some (line, s') →
  s = line +:+ Py.LF +:+ s' ∧ string_forall (λ c, negb (Py.is_newline c)) line = true.
Proof.
  unfold cut_line.
  destruct (Py.drop_while _ s) as [|c rest] eqn:Hdrop; [done|].
  intros [= <- <-]. split; [| apply take_while_forall].
  rewrite <- (take_drop_while (λ c, negb (Py.is_newline c)) s) at 1.
  rewrite Hdrop. f_equal.
  apply drop_while_head, negb_false_iff, is_newline_LF in Hdrop.
  change (String c rest) with (String c "" +:+ rest). by rewrite Hdrop.
Qed.

(** ** [lineiter] *)

(** X1.  Lines that [lineiter] yields hold no line feed, and no text is
    lost or made up on the way: the text held at the start followed by
    the chunks read is the lines yielded, each with its line feed,
    followed by the text left over.  The chunks read are all the chunks
    up to the first empty one when the generator ends without
    exception. *)
Theorem lineiter_keeps_text s chunks lines buf e :
  lineiter_from s chunks = (lines, buf, e) →
  Forall (λ l, string_forall (λ c, negb (Py.is_newline c)) l = true) lines ∧
  ∃ k, s +:+ string_of_list_byte (concat (take k chunks)) = unlines lines +:+ buf ∧
       Forall (λ c, c ≠ []) (take k chunks) ∧
       (e = None → k = length chunks ∨ chunks !! k = Some []).
Proof.
  revert s lines buf e. induction chunks as [|sb chunks IH]; intros s lines buf e.
  - intros [= <- <- <-]. split; [constructor|]. exists 0. simpl.
    rewrite str_app_nil_r. auto.
  - destruct sb as [|b sb].
    { intros [= <- <- <-]. split; [constructor|]. exists 0. simpl.
      rewrite str_app_nil_r. auto. }
    cbn [lineiter_from]. unfold decode_utf8.
    destruct (valid_utf8 (b :: sb)).
    2:{ intros [= <- <- <-]. split; [constructor|]. exists 0. simpl.
        rewrite str_app_nil_r. repeat split; [constructor | done]. }
    destruct (cut_line (s +:+ string_of_list_byte (b :: sb))) as [[line s']|] eqn:Hcut.
    + destruct (lineiter_from s' chunks) as [[lines' buf'] e'] eqn:Hrest.
      intros [= <- <- <-].
      destruct (IH _ _ _ _ Hrest) as (Hlines & k & Htext & Hne & Hend).
      apply cut_line_Some in Hcut as [Hs Hline].
      split; [by constructor|]. exists (S k). cbn [take concat].
      rewrite string_of_list_byte_app, <- str_app_assoc, Hs.
      split; [| split].
      * cbn [unlines foldr]. fold (unlines lines').
        rewrite !str_app_assoc. by rewrite <- Htext.
      * by constructor.
      * intros He. destruct (Hend He) as [-> | Hk]; [by left | by right].
    + intros Hrest.
      destruct (IH _ _ _ _ Hrest) as (Hlines & k & Htext & Hne & Hend).
      split; [done|]. exists (S k). cbn [take concat].
      rewrite string_of_list_byte_app, <- str_app_assoc.
      split; [done|]. split; [by constructor|].
      intros He. destruct (Hend He) as [-> | Hk]; [by left | by right].
Qed.

Lemma lineiter_keeps_text_witness :
  let chunks := [encode_utf8 ("hosts" +:+ Py.LF +:+ "he"); encode_utf8 ("lp" +:+ Py.LF); []] in
  Forall (λ l, string_forall (λ c, negb (Py.is_newline c)) l = true) ["hosts"; "help"] ∧
  ∃ k, "" +:+ string_of_list_byte (concat (take k chunks)) = unlines ["hosts"; "help"] +:+ "" ∧
       Forall (λ c, c ≠ []) (take k chunks) ∧
       (@None Exn = None → k = length chunks ∨ chunks !! k = Some []).
Proof.
  apply (lineiter_keeps_text ""
           [encode_utf8 ("hosts" +:+ Py.LF +:+ "he"); encode_utf8 ("lp" +:+ Py.LF); []]
           ["hosts"; "help"] "" None).
  vm_compute. reflexivity.
Defined.

(** X2.  [lineiter] tests for a line once per chunk: it yields at most
    one line for each chunk it reads, however many line feeds the chunks
    hold, and what it has not yielded when the stream ends is left in
    the buffer. *)
Theorem lineiter_one_line_per_chunk s chunks :
  (length (lineiter_from s chunks).1.1 ≤ length chunks)%nat.
Proof.
  revert s. induction chunks as [|sb chunks IH]; intros s; [done|].
  destruct sb as [|b sb]; [simpl; lia|].
  cbn [lineiter_from]. destruct (decode_utf8 (b :: sb)) as [t|]; [|simpl; lia].
  destruct (cut_line (s +:+ t)) as [[line s']|].
  - specialize (IH s'). destruct (lineiter_from s' chunks) as [[lines buf] e].
    simpl in *. lia.
  - specialize (IH (s +:+ t)). simpl. lia.
Qed.

(** Two lines that arrive in one chunk: the second is yielded only after
    a further chunk, and is left behind when the stream ends first. *)
Example lineiter_two_lines_ex :
  lineiter [encode_utf8 ("hosts" +:+ Py.LF +:+ "help" +:+ Py.LF); []]
  = (["hosts"], "help" +:+ Py.LF, None) ∧
  lineiter [encode_utf8 ("hosts" +:+ Py.LF +:+ "help" +:+ Py.LF); encode_utf8 "q"; []]
  = (["hosts"; "help"], "q", None).
Proof. vm_compute. done. Qed.

(** ** [cli_client] *)

Lemma recv_response_collects rb chunks more out :
  Forall (λ c, c ≠ []) chunks →
  rb ++ concat chunks = out ++ ENDMARKER →
  (∀ k, k < length chunks → bendswith (rb ++ concat (take k chunks)) ENDMARKER = false) →
  recv_response rb (chunks ++ more) = Some (out, more).
Proof.
  revert rb. induction chunks as [|c chunks IH]; intros rb Hne Hall Hearly.
  - simpl in *. rewrite app_nil_r in Hall. subst rb.
    destruct more; simpl; by rewrite bendswith_marker, drop_marker.
  - apply Forall_cons in Hne as [Hc Hne].
    pose proof (Hearly 0 ltac:(simpl; lia)) as H0. simpl in H0. rewrite app_nil_r in H0.
    simpl. rewrite H0. destruct c as [|b c]; [done|].
    apply IH; [done | by rewrite <- app_assoc |].
    intros k Hk. specialize (Hearly (S k) ltac:(simpl; lia)).
    simpl in Hearly. by rewrite <- app_assoc.
Qed.

(** X3.  However a response is cut into chunks on its way, the client
    takes it whole: when the chunks are not empty, make up the bytes
    [out] followed by the marker, and the buffer does not end with the
    marker before the last chunk is in, the client returns [out] and
    leaves the chunks behind it unread. *)
Theorem recv_response_chunked rb chunks more out :
  Forall (λ c, c ≠ []) chunks →
  rb ++ concat chunks = out ++ ENDMARKER →
  (∀ k, k < length chunks → bendswith (rb ++ concat (take k chunks)) ENDMARKER = false) →
  recv_response rb (chunks ++ more) = Some (out, more).
Proof. apply recv_response_collects. Qed.

Lemma recv_response_chunked_witness :
  recv_response [] ([[x6f; x6b; x0a; x00]; [x45; x4e]; [x44; x00]] ++ [[x6e; x65]])
  = Some ([x6f; x6b; x0a], [[x6e; x65]]).
Proof.
  apply (recv_response_chunked [] [[x6f; x6b; x0a; x00]; [x45; x4e]; [x44; x00]]
           [[x6e; x65]] [x6f; x6b; x0a]).
  - repeat constructor; discriminate.
  - vm_compute. reflexivity.
  - intros k Hk. simpl in Hk.
    destruct k as [|[|[|k]]]; [vm_compute; reflexivity.. | lia].
Defined.

(** X4.  A stream that ends before the buffer ends with the marker gives
    the client nothing to print: it returns without a response. *)
Theorem recv_response_cut_short rb chunks :
  (∀ k, (k ≤ length chunks)%nat →
        bendswith (rb ++ concat (take k chunks)) ENDMARKER = false) →
  recv_response rb chunks = None ∧ recv_response rb (chunks ++ [[]]) = None.
Proof.
  revert rb. induction chunks as [|c chunks IH]; intros rb Hearly.
  - pose proof (Hearly 0 ltac:(simpl; lia)) as H0. simpl in H0. rewrite app_nil_r in H0.
    simpl. by rewrite H0.
  - pose proof (Hearly 0 ltac:(simpl; lia)) as H0. simpl in H0. rewrite app_nil_r in H0.
    simpl. rewrite H0. destruct c as [|b c]; [done|].
    apply IH. intros k Hk. specialize (Hearly (S k) ltac:(simpl; lia)).
    simpl in Hearly. by rewrite <- app_assoc.
Qed.

Lemma recv_response_cut_short_witness :
  recv_response [] [[x6f; x6b; x00; x45]; [x4e]] = None ∧
  recv_response [] ([[x6f; x6b; x00; x45]; [x4e]] ++ [[]]) = None.
Proof.
  apply (recv_response_cut_short [] [[x6f; x6b; x00; x45]; [x4e]]).
  intros k Hk. simpl in Hk.
  destruct k as [|[|[|k]]]; [vm_compute; reflexivity.. | lia].
Defined.

Lemma recv_response_framed out more :
  recv_response [] (framed out :: more) = Some (encode_utf8 out, more).
Proof.
  apply (recv_response_collects [] [framed out] more (encode_utf8 out)).
  - constructor; [|constructor]. unfold framed. by destruct (encode_utf8 out).
  - simpl. by rewrite app_nil_r.
  - intros [|k] Hk; [done | simpl in Hk; lia].
Qed.

Lemma decode_encode out :
  valid_utf8 (encode_utf8 out) = true → decode_utf8 (encode_utf8 out) = Ret out.
Proof.
  intros Hvalid. unfold decode_utf8. rewrite Hvalid.
  unfold encode_utf8. by rewrite string_of_list_byte_of_string.
Qed.

(** X5.  The client against a server that answers each line with one
    framed response, each arriving whole: for every line typed the client
    sends the line with its line feed and prints the text of the
    response, unchanged and without the marker.  It ends with the
    [EOFError] of [input] when the lines run out, and returns after
    sending a line for which no response comes. *)
Theorem cli_client_round_trip inputs outs :
  Forall (λ o, valid_utf8 (encode_utf8 o) = true) outs →
  cli_client_loop inputs (framed <$> outs)
  = (concat (zip_with (λ l o, [Sent (encode_utf8 (l +:+ Py.LF)); Printed o]) inputs outs)
     ++ match drop (length outs) inputs with
        | l :: _ => [Sent (encode_utf8 (l +:+ Py.LF))]
        | [] => []
        end,
     match drop (length outs) inputs with
     | _ :: _ => Ret tt
     | [] => Raise (Exception "EOFError" "EOF when reading a line")
     end).
Proof.
  revert outs. induction inputs as [|l inputs IH]; intros outs Hvalid.
  - simpl. by rewrite drop_nil.
  - destruct outs as [|o outs]; [done|].
    apply Forall_cons in Hvalid as [Ho Hvalid].
    cbn [cli_client_loop fmap list_fmap]. rewrite recv_response_framed.
    rewrite decode_encode by done. fold (fmap (M:=list) framed outs).
    rewrite IH by done. done.
Qed.

Lemma cli_client_round_trip_witness :
  cli_client_loop ["hosts"; "sh r1 date"; "quit"] (framed <$> ["r1 r2" +:+ Py.LF; "Mon" +:+ Py.LF])
  = (concat (zip_with (λ l o, [Sent (encode_utf8 (l +:+ Py.LF)); Printed o])
               ["hosts"; "sh r1 date"; "quit"] ["r1 r2" +:+ Py.LF; "Mon" +:+ Py.LF])
     ++ match drop (length ["r1 r2" +:+ Py.LF; "Mon" +:+ Py.LF])
                   ["hosts"; "sh r1 date"; "quit"] with
        | l :: _ => [Sent (encode_utf8 (l +:+ Py.LF))]
        | [] => []
        end,
     match drop (length ["r1 r2" +:+ Py.LF; "Mon" +:+ Py.LF]) ["hosts"; "sh r1 date"; "quit"] with
     | _ :: _ => Ret tt
     | [] => Raise (Exception "EOFError" "EOF when reading a line")
     end).
Proof.
  apply (cli_client_round_trip ["hosts"; "sh r1 date"; "quit"]
           ["r1 r2" +:+ Py.LF; "Mon" +:+ Py.LF]).
  repeat constructor.
Defined.

(** ** What the dispatcher leaves of the world *)

Lemma spawn_only_emits setraw_attr unet outf host cmd on_host :
  only_emits dispatch_event (spawn setraw_attr unet host cmd outf on_host).
Proof.
  intros w. unfold spawn, tcgetattr, setraw, tcsetattr.
  unfold mbind, M_bind, mret, M_ret, get, emit, modify, try_finally. simpl.
  destruct (stdin_isatty w) eqn:Htty; simpl.
  - match goal with |- context [spawn_body _ _ _ outf _ ?w2] =>
      destruct (spawn_body_only_emits unet outf host cmd on_host w2) as (evs & Hw & Hevs);
      destruct (spawn_body unet host cmd outf on_host w2) as [r w3]
    end.
    simpl in Hw. subst w3. simpl. rewrite Htty. simpl.
    exists ([TcGetAttr; SetRaw] ++ evs ++ [TcSetAttr (tty_attr w)]). split.
    + destruct w. unfold with_trace, with_tty_attr. simpl.
      by rewrite <- !app_assoc.
    + repeat first [apply Forall_app; split | apply Forall_cons; split | apply Forall_nil];
        try done.
      eapply Forall_impl; [done|]. by intros [].
  - destruct (spawn_body_only_emits unet outf host cmd on_host w) as (evs & Hw & Hevs).
    destruct (spawn_body unet host cmd outf on_host w) as [r w3].
    simpl in Hw. subst w3. simpl. rewrite Htty. simpl.
    exists evs. split; [done|]. eapply Forall_impl; [done|]. by intros [].
Qed.

Lemma only_emits_bind_ret P {A B} (m : M A) (f : A → M B) :
  only_emits P m → (∀ a w w', m w = (Ret a, w') → only_emits P (f a)) →
  only_emits P (m ≫= f).
Proof.
  intros Hm Hf w. unfold mbind, M_bind.
  destruct (Hm w) as (evs & Hw & ?). destruct (m w) as [[a|e] w1] eqn:Hmw; simpl in *.
  - destruct (Hf a w w1 Hmw w1) as (evs' & -> & ?). subst w1. exists (evs ++ evs').
    split; [by rewrite with_trace_twice, app_assoc | by apply Forall_app].
  - by exists evs.
Qed.

Lemma report_dispatch outf many l : only_emits dispatch_event (report outf many l).
Proof.
  eapply only_emits_weaken; [| apply report_only_emits]. by intros ? [? ->].
Qed.

Create HintDb leaves discriminated.

#[export] Hint Resolve spawn_only_emits host_of_only_emits build_aws_only_emits
  report_dispatch : leaves.

(** Settles the steps that are known to change the trace only, and
    breaks up the others. *)
Ltac leaves_step := first [ solve [auto 1 with leaves nocore] | frame_step ].

Ltac leaves := repeat leaves_step.

Lemma run_command_only_emits setraw_attr str_format unet outf line execfmt on_host with_pty :
  only_emits dispatch_event
    (run_command setraw_attr str_format unet outf line execfmt on_host with_pty).
Proof.
  unfold run_command.
  destruct (host_cmd_split unet line) as [hs body].
  destruct (List.filter _ hs); [| unfold write; leaves].
  apply only_emits_bind; [leaves | intros ucmd].
  destruct with_pty; [unfold write; leaves|].
  apply only_emits_bind_ret; [leaves | intros aws w w' Haws].
  apply build_aws_launches in Haws.
  apply only_emits_bind; [by apply gather_only_emits | intros; leaves].
Qed.

#[export] Hint Resolve run_command_only_emits : leaves.

Lemma doline_window_only_emits unet outf entry nline :
  only_emits dispatch_event (doline_window unet outf entry nline).
Proof.
  unfold doline_window, write.
  match goal with |- context [List.filter ?f ?l] => destruct (List.filter f l) end;
    [| leaves].
  apply only_emits_bind; [| intros hosts; leaves].
  match goal with |- only_emits _ (?lookup ?args) => generalize args end.
  intros args. induction args as [|x args IH]; leaves.
Qed.

Lemma doline_run_only_emits setraw_attr str_format unet outf entry body notty :
  only_emits dispatch_event (doline_run setraw_attr str_format unet outf entry body notty).
Proof.
  unfold doline_run, write. destruct entry as [[? ?] [[? ?] ?]]. simpl. leaves.
Qed.

#[export] Hint Resolve doline_window_only_emits doline_run_only_emits : leaves.

Lemma only_emits_keeps {B} (f : World → B) P {A} (m : M A) :
  (∀ t w, f (with_trace t w) = f w) → only_emits P m → keeps f m.
Proof. intros Hf Hm w. destruct (Hm w) as (evs & -> & _). apply Hf. Qed.

Lemma keeps_bind {B} (f : World → B) {A C} (m : M A) (k : A → M C) :
  keeps f m → (∀ a, keeps f (k a)) → keeps f (m ≫= k).
Proof.
  intros Hm Hk w. unfold mbind, M_bind. specialize (Hm w).
  destruct (m w) as [[a|e] w1]; simpl in *; [| done].
  by rewrite Hk.
Qed.

Lemma keeps_try_except {B} (f : World → B) {A} (m : M A) (h : Exn → M A) :
  keeps f m → (∀ e, keeps f (h e)) → keeps f (try_except m h).
Proof.
  intros Hm Hh w. unfold try_except. specialize (Hm w).
  destruct (m w) as [[a|e] w1]; simpl in *; [done|].
  destruct (is_Exception e); [| done]. by rewrite Hh.
Qed.

(** The window bootstrap changes the trace and [unet.cli_sockpath] and
    nothing else of the world. *)
Lemma remote_cli_keeps_tty unet prompt title background :
  keeps tty_attr (remote_cli unet prompt title background).
Proof.
  unfold remote_cli.
  repeat first
    [ (apply (only_emits_keeps tty_attr (λ _, True)); [done | solve [frame]])
    | (apply keeps_bind; [| intros ?])
    | (apply keeps_try_except; [| intros ?])
    | (intros ?; reflexivity)
    | match goal with
      | |- keeps _ (match ?x with _ => _ end) => destruct x
      end ].
Qed.

Lemma doline_keeps_tty setraw_attr str_format unet outf line background notty :
  keeps tty_attr (doline setraw_attr str_format unet line outf background notty).
Proof.
  unfold doline.
  destruct (re_match (Py.strip line)) as [[cmd g2]|];
    [| apply (only_emits_keeps tty_attr dispatch_event); [done | leaves]].
  repeat case_bool_decide;
    try (apply (only_emits_keeps tty_attr dispatch_event);
         [done | unfold write; solve [leaves]]).
  apply keeps_bind; [apply remote_cli_keeps_tty | intros ?].
  apply (only_emits_keeps tty_attr dispatch_event); [done | leaves].
Qed.

(** X6.  Whatever the line and whatever the hosts answer, the terminal
    attributes after [doline] are those before it: an interactive command
    that ends, fails or is interrupted leaves the terminal as it was, and
    no other command touches it. *)
Theorem doline_keeps_terminal setraw_attr str_format unet outf line background notty w :
  tty_attr (doline setraw_attr str_format unet line outf background notty w).2 = tty_attr w.
Proof. apply doline_keeps_tty. Qed.

(** An interactive command interrupted from the keyboard: the exception
    leaves [doline] and the terminal is back in its mode. *)
Example doline_interrupted_ex :
  let '(r, w) := doline clear_lflag braces (session host_interrupted (host_rc 0 ""))
                        "shi r1 vtysh" TextIO false false (world0 true) in
  r = Raise (BaseException "KeyboardInterrupt" "") ∧ tty_attr w = cooked.
Proof. vm_compute. done. Qed.

(** ** More of the dispatcher *)

Lemma never_false_then_true {A} (m : M A) : never_false (m ≫= λ _, mret true).
Proof.
  intros w. unfold mbind, M_bind. by destruct (m w) as [[a|e] w1].
Qed.

Lemma never_false_bind {A} (m : M A) (k : A → M bool) :
  (∀ a, never_false (k a)) → never_false (m ≫= k).
Proof.
  intros Hk w. unfold mbind, M_bind. destruct (m w) as [[a|e] w1]; [apply Hk | done].
Qed.

Lemma never_false_try_except (m : M bool) (h : Exn → M bool) :
  never_false m → (∀ e, never_false (h e)) → never_false (try_except m h).
Proof.
  intros Hm Hh w. unfold try_except. specialize (Hm w).
  destruct (m w) as [[a|e] w1]; [done|].
  destruct (is_Exception e); [apply Hh | done].
Qed.

Lemma doline_window_never_false unet outf entry nline :
  never_false (doline_window unet outf entry nline).
Proof.
  unfold doline_window.
  match goal with |- context [List.filter ?f ?l] => destruct (List.filter f l) end.
  - apply never_false_bind. intros hs. apply never_false_try_except.
    + apply never_false_then_true.
    + intros e. apply never_false_then_true.
  - apply never_false_then_true.
Qed.

Lemma doline_run_never_false setraw_attr str_format unet outf entry body notty :
  never_false (doline_run setraw_attr str_format unet outf entry body notty).
Proof.
  unfold doline_run. destruct entry as [[? ?] [[? ?] with_pty]]. simpl.
  destruct (with_pty && notty); apply never_false_then_true.
Qed.

(** X7.  Only [q] and [quit] end a session: when [doline] returns
    [False] the first word of the line is [q] or [quit], and nothing was
    done.  No registered command, window command or default command makes
    [doline] return [False]. *)
Theorem doline_stops_only_on_quit setraw_attr str_format unet outf line background notty w
    w' :
  doline setraw_attr str_format unet line outf background notty w = (Ret false, w') →
  ∃ cmd g2, re_match (Py.strip line) = Some (cmd, g2) ∧ cmd ∈ ["q"; "quit"] ∧ w' = w.
Proof.
  unfold doline. destruct (re_match (Py.strip line)) as [[cmd g2]|]; [|done].
  case_bool_decide as Hq.
  { intros [= <-]. by exists cmd, g2. }
  intros Hret. exfalso.
  assert (never_false
    (if bool_decide (cmd = "help")
     then (s ← lift (make_help_str unet); write outf s) ;; mret true
     else if bool_decide (cmd ∈ ["h"; "hosts"])
     then write outf ("% Hosts:" +:+ Py.TAB +:+ Py.join " " (sorted_hosts unet) +:+ Py.LF) ;;
          mret true
     else if bool_decide (cmd = "cli")
     then remote_cli unet "secondary> " "Secondary CLI" background ;; mret true
     else match cli_in_window_cmds unet !! cmd with
          | Some entry =>
              doline_window unet outf entry
                (match g2 with Some (String c s) => String c s | _ => "" end)
          | None =>
              match cli_run_cmds unet !! Some cmd with
              | Some entry =>
                  doline_run setraw_attr str_format unet outf entry
                    (match g2 with Some (String c s) => String c s | _ => "" end) notty
              | None =>
                  match cli_run_cmds unet !! None with
                  | Some entry =>
                      doline_run setraw_attr str_format unet outf entry (Py.strip line) notty
                  | None =>
                      write outf ("% Unknown command: " +:+ Py.strip line +:+ Py.LF) ;;
                      mret true
                  end
              end
          end)) as Hnf.
  { repeat case_bool_decide; try apply never_false_then_true.
    repeat case_match;
      first [ apply doline_window_never_false | apply doline_run_never_false
            | apply never_false_then_true ]. }
  apply (Hnf w). by rewrite Hret.
Qed.

Lemma doline_stops_only_on_quit_witness :
  ∃ cmd g2, re_match (Py.strip "quit now") = Some (cmd, g2) ∧ cmd ∈ ["q"; "quit"]
            ∧ world0 true = world0 true.
Proof.
  apply (doline_stops_only_on_quit clear_lflag braces (session (host_rc 0 "") (host_rc 0 ""))
           TextIO "quit now" false false (world0 true) (world0 true)).
  vm_compute. reflexivity.
Defined.

Lemma dropwhile_all {A} (p : A → bool) l : forallb p l = true → Py.dropwhile p l = [].
Proof.
  induction l as [|x l IH]; [done|]. simpl.
  intros [Hx Hl]%andb_true_iff. rewrite Hx. by apply IH.
Qed.

Lemma strip_blank s : forallb Py.isspace (Py.chars s) = true → Py.strip s = "".
Proof.
  intros Hblank. unfold Py.strip, Py.lstrip_chars. by rewrite dropwhile_all.
Qed.

(** X8.  A line of blanks only, the empty line included, is a no-op:
    [doline] returns [True] and does nothing. *)
Theorem doline_blank_line setraw_attr str_format unet outf line background notty w :
  forallb Py.isspace (Py.chars line) = true →
  doline setraw_attr str_format unet line outf background notty w = (Ret true, w).
Proof.
  intros Hblank. unfold doline. by rewrite strip_blank.
Qed.

Lemma doline_blank_line_witness :
  doline clear_lflag braces (session (host_rc 0 "") (host_rc 0 "")) (" " +:+ Py.TAB +:+ Py.LF)
         TextIO false false (world0 true)
  = (Ret true, world0 true).
Proof.
  apply (doline_blank_line clear_lflag braces (session (host_rc 0 "") (host_rc 0 "")) TextIO
           (" " +:+ Py.TAB +:+ Py.LF) false false (world0 true)).
  vm_compute. reflexivity.
Defined.

(** X9.  A line whose first word is no builtin name and no registered
    name, in a session without a default command: [doline] writes the one
    line that names the whole stripped line as an unknown command, and
    returns [True]. *)
Theorem doline_unknown_command setraw_attr str_format unet line background notty cmd g2 w :
  re_match (Py.strip line) = Some (cmd, g2) →
  cmd ∉ builtins →
  cli_in_window_cmds unet !! cmd = None →
  cli_run_cmds unet !! Some cmd = None →
  cli_run_cmds unet !! None = None →
  doline setraw_attr str_format unet line TextIO background notty w
  = (Ret true,
     with_trace (trace w ++ [Write ("% Unknown command: " +:+ Py.strip line +:+ Py.LF)]) w).
Proof.
  intros Hm Hcmd Hwin Hrun Hdefault.
  by rewrite (doline_registered _ str_format _ TextIO _ _ _ _ _ _ Hm Hcmd), Hwin, Hrun, Hdefault.
Qed.

Lemma doline_unknown_command_witness :
  doline clear_lflag braces (session (host_rc 0 "") (host_rc 0 "")) "  reboot r1 " TextIO
         false false (world0 true)
  = (Ret true,
     with_trace (trace (world0 true)
                 ++ [Write ("% Unknown command: " +:+ Py.strip "  reboot r1 " +:+ Py.LF)])
                (world0 true)).
Proof.
  apply (doline_unknown_command clear_lflag braces (session (host_rc 0 "") (host_rc 0 ""))
           "  reboot r1 " false false "reboot" (Some "r1") (world0 true)).
  - vm_compute. reflexivity.
  - unfold builtins. intros H. vm_compute in H.
    repeat (apply elem_of_cons in H as [H|H]; [discriminate H|]). by apply elem_of_nil in H.
  - vm_compute. reflexivity.
  - vm_compute. reflexivity.
  - vm_compute. reflexivity.
Defined.

(** ** Running a computation step by step *)

Lemma bind_ret {A B} (m : M A) (k : A → M B) w a w' :
  m w = (Ret a, w') → (m ≫= k) w = k a w'.
Proof. intros H. unfold mbind, M_bind. by rewrite H. Qed.

Lemma bind_raise {A B} (m : M A) (k : A → M B) w e w' :
  m w = (Raise e, w') → (m ≫= k) w = (Raise e, w').
Proof. intros H. unfold mbind, M_bind. by rewrite H. Qed.

Lemma try_except_ret {A} (m : M A) (h : Exn → M A) w a w' :
  m w = (Ret a, w') → try_except m h w = (Ret a, w').
Proof. intros H. unfold try_except. by rewrite H. Qed.

Lemma try_except_caught {A} (m : M A) (h : Exn → M A) w e w' :
  m w = (Raise e, w') → is_Exception e = true → try_except m h w = h e w'.
Proof. intros H He. unfold try_except. by rewrite H, He. Qed.

Lemma try_except_passed {A} (m : M A) (h : Exn → M A) w e w' :
  m w = (Raise e, w') → is_Exception e = false → try_except m h w = (Raise e, w').
Proof. intros H He. unfold try_except. by rewrite H, He. Qed.

(** ** Window commands *)

Lemma doline_window_args unet outf entry nline :
  doline_window unet outf entry nline
  = match List.filter (λ x, negb (is_host unet x)) (window_args unet nline) with
    | _ :: _ =>
        write outf ("% Unknown host[s]: " +:+
               Py.join " " (List.filter (λ x, negb (is_host unet x)) (window_args unet nline))
               +:+ Py.LF) ;;
        mret true
    | [] =>
        hosts ← (fix lookup (l : list string) : M (list (string * Host)) :=
                   match l with
                   | [] => mret []
                   | x :: rest => h ← host_of unet x; hs ← lookup rest; mret ((x, h) :: hs)
                   end) (window_args unet nline);
        try_except
          (for_each hosts (λ '(name, host),
             emit (RunInWindow name entry.2.1 entry.2.2) ;;
             lift (run_in_window host entry.2.1 entry.2.2)) ;;
           mret true)
          (λ error, write outf ("% Error: " +:+ exn_str error +:+ Py.LF) ;; mret true)
    end.
Proof. done. Qed.

Lemma filter_unknown_nil unet args :
  List.filter (λ x, negb (is_host unet x)) args = [] →
  Forall (λ x, is_host unet x = true) args.
Proof.
  induction args as [|x args IH]; [constructor|]. simpl.
  destruct (is_host unet x) eqn:Hx; [|done]. intros Hrest. constructor; auto.
Qed.

Lemma lookup_known unet args w :
  Forall (λ x, is_host unet x = true) args →
  (fix lookup (l : list string) : M (list (string * Host)) :=
     match l with
     | [] => mret []
     | x :: rest => h ← host_of unet x; hs ← lookup rest; mret ((x, h) :: hs)
     end) args w
  = (Ret (host_pairs unet args), w).
Proof.
  induction 1 as [|x args Hx Hargs IH]; [done|].
  unfold mbind, M_bind, host_of, host_pairs in *. simpl.
  apply is_host_true, elem_of_dom in Hx as [h Hh]. rewrite Hh. simpl.
  by rewrite IH.
Qed.

(** The launch loop over hosts that all answer. *)
Lemma launch_all unet shell kwargs args w :
  Forall (λ x, window_result unet shell kwargs x = Ret tt) args →
  for_each (host_pairs unet args) (λ '(name, host),
    emit (RunInWindow name shell kwargs) ;; lift (run_in_window host shell kwargs)) w
  = (Ret tt, with_trace (trace w ++ ((λ x, RunInWindow x shell kwargs) <$> args)) w).
Proof.
  intros Hall. revert w. induction Hall as [|x args Hx Hargs IH]; intros w.
  - simpl. by rewrite app_nil_r, with_trace_same.
  - unfold window_result in Hx. unfold host_pairs. simpl.
    destruct (hosts unet !! x) as [h|] eqn:Hh; [|done]. simpl.
    unfold mbind, M_bind, emit, lift. simpl. rewrite Hx.
    fold (host_pairs unet args). rewrite IH. simpl.
    by rewrite with_trace_twice, <- app_assoc.
Qed.

(** The launch loop up to the first host that does not answer. *)
Lemma launch_until_failure unet shell kwargs pre x post e w :
  Forall (λ x, window_result unet shell kwargs x = Ret tt) pre →
  is_host unet x = true →
  window_result unet shell kwargs x = Raise e →
  for_each (host_pairs unet (pre ++ x :: post)) (λ '(name, host),
    emit (RunInWindow name shell kwargs) ;; lift (run_in_window host shell kwargs)) w
  = (Raise e,
     with_trace (trace w ++ ((λ x, RunInWindow x shell kwargs) <$> (pre ++ [x]))) w).
Proof.
  intros Hpre Hx Hfail. revert w. induction Hpre as [|y pre Hy Hpre IH]; intros w.
  - unfold window_result in Hfail. unfold host_pairs. simpl.
    apply is_host_true, elem_of_dom in Hx as [h Hh]. rewrite Hh in *. simpl.
    unfold mbind, M_bind, emit, lift. simpl. by rewrite Hfail.
  - unfold window_result in Hy. unfold host_pairs. simpl.
    destruct (hosts unet !! y) as [h|] eqn:Hh; [|done]. simpl.
    unfold mbind, M_bind, emit, lift. simpl. rewrite Hy.
    fold (host_pairs unet (pre ++ x :: post)). rewrite IH. simpl.
    by rewrite with_trace_twice, <- app_assoc.
Qed.

(** X10.  A window command checks every name before it opens any
    window: when one of the names is no host, [doline] writes the one
    line that lists the unknown names, in the order given, opens no
    window, not even on the known hosts named, and returns [True]. *)
Theorem window_command_unknown_host setraw_attr str_format unet line background notty cmd g2 entry
    u us w :
  re_match (Py.strip line) = Some (cmd, g2) →
  cmd ∉ builtins →
  cli_in_window_cmds unet !! cmd = Some entry →
  List.filter (λ x, negb (is_host unet x)) (window_args unet (rest_of_line g2)) = u :: us →
  doline setraw_attr str_format unet line TextIO background notty w
  = (Ret true,
     with_trace (trace w ++ [Write ("% Unknown host[s]: " +:+ Py.join " " (u :: us) +:+ Py.LF)])
                w).
Proof.
  intros Hm Hcmd Hwin Hunknown.
  rewrite (doline_registered _ str_format _ TextIO _ _ _ _ _ _ Hm Hcmd), Hwin.
  fold (rest_of_line g2). rewrite doline_window_args, Hunknown. done.
Qed.

Lemma window_command_unknown_host_witness :
  doline clear_lflag braces (session (host_rc 0 "") (host_rc 0 "")) "term r1 r9 r2 r7" TextIO
         false false (world0 true)
  = (Ret true,
     with_trace (trace (world0 true)
                 ++ [Write ("% Unknown host[s]: " +:+ Py.join " " ["r9"; "r7"] +:+ Py.LF)])
                (world0 true)).
Proof.
  apply (window_command_unknown_host clear_lflag braces (session (host_rc 0 "") (host_rc 0 ""))
           "term r1 r9 r2 r7" false false "term" (Some "r1 r9 r2 r7")
           ("term [hosts]", "open terminal[s] on hosts", ("bash", [])) "r9" ["r7"]
           (world0 true)).
  - vm_compute. reflexivity.
  - unfold builtins. intros H. vm_compute in H.
    repeat (apply elem_of_cons in H as [H|H]; [discriminate H|]). by apply elem_of_nil in H.
  - vm_compute. reflexivity.
  - vm_compute. reflexivity.
Defined.

(** X11.  A window command on names that are all hosts, or on a lone
    star, which stands for every host in sorted order: when every launch
    answers, [doline] opens one window on each host named, in order,
    with the shell and the options of the entry, writes nothing and
    returns [True]. *)
Theorem window_command_launches setraw_attr str_format unet outf line background notty cmd g2
    entry w :
  re_match (Py.strip line) = Some (cmd, g2) →
  cmd ∉ builtins →
  cli_in_window_cmds unet !! cmd = Some entry →
  let args := window_args unet (rest_of_line g2) in
  Forall (λ x, is_host unet x = true) args →
  Forall (λ x, window_result unet entry.2.1 entry.2.2 x = Ret tt) args →
  doline setraw_attr str_format unet line outf background notty w
  = (Ret true,
     with_trace (trace w ++ ((λ x, RunInWindow x entry.2.1 entry.2.2) <$> args)) w).
Proof.
  intros Hm Hcmd Hwin args Hknown Hok.
  rewrite (doline_registered _ str_format _ outf _ _ _ _ _ _ Hm Hcmd), Hwin.
  fold (rest_of_line g2). rewrite doline_window_args. fold args.
  assert (List.filter (λ x, negb (is_host unet x)) args = []) as ->.
  { clear -Hknown. induction Hknown as [|x l Hx Hl IH]; simpl; [done|]. by rewrite Hx. }
  erewrite bind_ret by (by apply lookup_known).
  erewrite try_except_ret; [done|].
  erewrite bind_ret by (by apply launch_all). done.
Qed.

Lemma window_command_launches_witness :
  let unet := session (host_rc 0 "") (host_rc 0 "") in
  let args := window_args unet (rest_of_line (Some "*")) in
  doline clear_lflag braces unet "term *" TextIO false false (world0 true)
  = (Ret true,
     with_trace (trace (world0 true) ++ ((λ x, RunInWindow x "bash" []) <$> args))
                (world0 true)).
Proof.
  apply (window_command_launches clear_lflag braces (session (host_rc 0 "") (host_rc 0 "")) TextIO
           "term *" false false "term" (Some "*")
           ("term [hosts]", "open terminal[s] on hosts", ("bash", [])) (world0 true)).
  - vm_compute. reflexivity.
  - unfold builtins. intros H. vm_compute in H.
    repeat (apply elem_of_cons in H as [H|H]; [discriminate H|]). by apply elem_of_nil in H.
  - vm_compute. reflexivity.
  - vm_compute. repeat constructor.
  - vm_compute. repeat constructor.
Defined.

(** X12.  A window command whose launch fails on a host with an
    exception of class [Exception]: the hosts before it have their
    windows, the hosts after it are not asked, [doline] writes the error
    as one line and returns [True].  The failure does not leave the
    dispatcher. *)
Theorem window_command_launch_failure setraw_attr str_format unet line background notty cmd g2 entry
    pre x post e w :
  re_match (Py.strip line) = Some (cmd, g2) →
  cmd ∉ builtins →
  cli_in_window_cmds unet !! cmd = Some entry →
  window_args unet (rest_of_line g2) = pre ++ x :: post →
  Forall (λ x, is_host unet x = true) (pre ++ x :: post) →
  Forall (λ x, window_result unet entry.2.1 entry.2.2 x = Ret tt) pre →
  window_result unet entry.2.1 entry.2.2 x = Raise e →
  is_Exception e = true →
  doline setraw_attr str_format unet line TextIO background notty w
  = (Ret true,
     with_trace (trace w ++ ((λ x, RunInWindow x entry.2.1 entry.2.2) <$> (pre ++ [x]))
                 ++ [Write ("% Error: " +:+ exn_str e +:+ Py.LF)]) w).
Proof.
  intros Hm Hcmd Hwin Hargs Hknown Hpre Hfail Hexc.
  rewrite (doline_registered _ str_format _ TextIO _ _ _ _ _ _ Hm Hcmd), Hwin.
  fold (rest_of_line g2). rewrite doline_window_args, Hargs.
  assert (List.filter (λ x, negb (is_host unet x)) (pre ++ x :: post) = []) as ->.
  { clear -Hknown. induction Hknown as [|y l Hy Hl IH]; simpl; [done|]. by rewrite Hy. }
  erewrite bind_ret by (by apply lookup_known).
  assert (is_host unet x = true) as Hx.
  { rewrite Forall_app, Forall_cons in Hknown. tauto. }
  erewrite try_except_caught; [| | exact Hexc].
  2:{ erewrite bind_raise; [done|]. by apply launch_until_failure. }
  unfold write, emit, mbind, M_bind. simpl.
  by rewrite with_trace_twice, <- app_assoc.
Qed.

Lemma window_command_launch_failure_witness :
  doline clear_lflag braces (session (host_rc 0 "") host_fault) "term r1 r2 r1" TextIO false false
         (world0 true)
  = (Ret true,
     with_trace (trace (world0 true)
                 ++ ((λ x, RunInWindow x "bash" []) <$> (["r1"] ++ ["r2"]))
                 ++ [Write ("% Error: " +:+ exn_str (Exception "OSError" "no display")
                            +:+ Py.LF)])
                (world0 true)).
Proof.
  apply (window_command_launch_failure clear_lflag braces (session (host_rc 0 "") host_fault)
           "term r1 r2 r1" false false "term" (Some "r1 r2 r1")
           ("term [hosts]", "open terminal[s] on hosts", ("bash", []))
           ["r1"] "r2" ["r1"] (Exception "OSError" "no display") (world0 true)).
  - vm_compute. reflexivity.
  - unfold builtins. intros H. vm_compute in H.
    repeat (apply elem_of_cons in H as [H|H]; [discriminate H|]). by apply elem_of_nil in H.
  - vm_compute. reflexivity.
  - vm_compute. reflexivity.
  - vm_compute. repeat constructor.
  - vm_compute. repeat constructor.
  - vm_compute. reflexivity.
  - reflexivity.
Defined.

(** ** The help text *)

(** X13.  In a session with a default command and at least one more
    registered command, the help text cannot be made: sorting the names
    compares [None] with a string and raises [TypeError], and the
    exception leaves [doline] on every line whose first word is [help],
    with nothing written. *)
Theorem help_fails_with_default_command setraw_attr str_format unet outf line background notty g2
    w :
  is_Some (cli_run_cmds unet !! None) →
  (2 ≤ size (cli_run_cmds unet) + size (cli_in_window_cmds unet))%nat →
  re_match (Py.strip line) = Some ("help", g2) →
  make_help_str unet = Raise (Exception "TypeError" "'<' not supported between instances") ∧
  doline setraw_attr str_format unet line outf background notty w
  = (Raise (Exception "TypeError" "'<' not supported between instances"), w).
Proof.
  intros Hdefault Hsize Hm.
  assert (make_help_str unet
          = Raise (Exception "TypeError" "'<' not supported between instances")) as Hhelp.
  { unfold make_help_str.
    set (keys := elements (dom (cli_run_cmds unet))
                 ++ (Some <$> elements (dom (cli_in_window_cmds unet)))).
    assert (None ∈ keys) as Hin.
    { apply elem_of_app. left. by apply elem_of_elements, elem_of_dom. }
    assert (2 ≤ length keys)%nat as Hlen.
    { unfold keys. rewrite length_app, length_fmap.
      rewrite <- !size_dom in Hsize. apply Hsize. }
    unfold sorted_keys. destruct keys as [|k1 [|k2 keys]]; simpl in Hlen; [lia..|].
    by rewrite bool_decide_eq_true_2. }
  split; [done|]. unfold doline. rewrite Hm, Hhelp. done.
Qed.

Lemma help_fails_with_default_command_witness :
  let unet := add_cli_run_cmd (session (host_rc 0 "") (host_rc 0 "")) None
                "<cmd>" "run <cmd> on the hosts" "bash -c '{}'" false false in
  make_help_str unet = Raise (Exception "TypeError" "'<' not supported between instances") ∧
  doline clear_lflag braces unet "help" TextIO false false (world0 true)
  = (Raise (Exception "TypeError" "'<' not supported between instances"), world0 true).
Proof.
  apply (help_fails_with_default_command clear_lflag braces
           (add_cli_run_cmd (session (host_rc 0 "") (host_rc 0 "")) None
              "<cmd>" "run <cmd> on the hosts" "bash -c '{}'" false false) TextIO
           "help" false false None (world0 true)).
  - vm_compute. eauto.
  - vm_compute. lia.
  - vm_compute. reflexivity.
Defined.

(** ** The connection handler over a whole connection *)

(** X14.  Over a whole connection, whatever the lines and whatever the
    dispatcher does with them, the handler reads a line, dispatches it
    and writes the marker and drains, turn after turn; the marker is
    written only as the end of the response to the line read last, and
    the one line that may be left without a marker is the last line
    read. *)
Theorem connection_follows_protocol setraw_attr str_format unet background input w :
  ∃ evs,
    trace (cli_client_connected setraw_attr str_format unet background input w).2
    = trace w ++ evs ∧
    connection_trace evs.
Proof.
  revert w. induction input as [|line input IH]; intros w.
  - exists []. split; [by rewrite app_nil_r | constructor].
  - destruct (decide (line = "")) as [-> | Hline].
    { exists [ReadLine ""]. split; [done | by constructor]. }
    rewrite cli_client_connected_turn by done.
    destruct (doline_emits setraw_attr str_format unet StreamWriter (Py.strip line) background
                true (with_trace (trace w ++ [ReadLine line]) w)) as (evs & Hw1 & Hevs).
    destruct (doline _ _ _ _ _ _ _ _) as [[[|]|e] w1]; simpl in Hw1.
    + destruct (IH (with_trace (trace w1 ++ [WriteBytes ENDMARKER; Drain]) w1))
        as (rest & Hrest & Hconn).
      exists (ReadLine line :: evs ++ [WriteBytes ENDMARKER; Drain] ++ rest).
      split; [| by constructor].
      rewrite Hrest. simpl. rewrite Hw1. by rewrite <- !app_assoc.
    + exists (ReadLine line :: evs). split; [| by constructor].
      simpl. rewrite Hw1. by rewrite <- !app_assoc.
    + exists (ReadLine line :: evs). split; [| by constructor].
      simpl. rewrite Hw1. by rewrite <- !app_assoc.
Qed.

(** ** The local session *)

Lemma local_cli_loop_cons setraw_attr str_format unet outf background answer rest w :
  local_cli_loop setraw_attr str_format unet outf background (answer :: rest) w
  = match
      match answer with
      | Raise e => (Raise e, w)
      | Ret None => (Ret false, w)
      | Ret (Some line) => doline setraw_attr str_format unet line outf background false w
      end
    with
    | (Ret true, w1) => local_cli_loop setraw_attr str_format unet outf background rest w1
    | (Ret false, w1) => (Ret tt, w1)
    | (Raise e, w1) =>
        if is_KeyboardInterrupt e
        then (caught_interrupt outf ;;
              local_cli_loop setraw_attr str_format unet outf background rest) w1
        else (Raise e, w1)
    end.
Proof. done. Qed.

(** X15.  A keyboard interrupt never ends the local session, whether it
    comes at the prompt or out of a command: the session ends by the end
    of the input, by [q] or [quit], or by an exception that is no
    keyboard interrupt.  When it ends the terminal attributes are those
    it started with. *)
Theorem local_cli_survives_interrupts setraw_attr str_format unet outf background answers w :
  let '(r, w') := local_cli setraw_attr str_format unet outf background answers w in
  (∀ e, r = Raise e → is_KeyboardInterrupt e = false) ∧ tty_attr w' = tty_attr w.
Proof.
  assert (∀ w,
            let '(r, w') := local_cli_loop setraw_attr str_format unet outf background answers w in
            (∀ e, r = Raise e → is_KeyboardInterrupt e = false) ∧ tty_attr w' = tty_attr w)
    as Hloop.
  { induction answers as [|answer answers IH]; intros w0; [done|].
    rewrite local_cli_loop_cons.
    assert (tty_attr (match answer with
                      | Raise e => (Raise e, w0)
                      | Ret None => (Ret false, w0)
                      | Ret (Some line) =>
                          doline setraw_attr str_format unet line outf background false w0
                      end).2 = tty_attr w0) as Htty.
    { destruct answer as [[line|]|e]; [apply doline_keeps_tty | done..]. }
    destruct (match answer with Raise e => _ | Ret _ => _ end) as [[[|]|e] w1];
      simpl in Htty.
    - specialize (IH w1). destruct (local_cli_loop _ _ _ _ _ _ w1) as [r w2].
      by rewrite <- Htty.
    - split; [done | done].
    - destruct (is_KeyboardInterrupt e) eqn:He.
      + destruct outf.
        * unfold caught_interrupt, write, emit, mbind, M_bind. simpl.
          specialize (IH (with_trace
            (trace w1 ++ [Write ("%% Caught KeyboardInterrupt" +:+ Py.LF
                                 +:+ "Use ^D or 'quit' to exit")]) w1)).
          destruct (local_cli_loop _ _ _ _ _ _ _) as [r w2]. by rewrite <- Htty.
        * split; [by intros ? [= <-] | done].
      + split; [by intros ? [= <-] | done]. }
  unfold local_cli, write, emit, mbind, M_bind. simpl.
  specialize (Hloop (with_trace ((trace w ++ [Write banner]) ++ [Write Py.LF])
                                (with_trace (trace w ++ [Write banner]) w))).
  by destruct (local_cli_loop _ _ _ _ _ _ _).
Qed.

(** An interactive command interrupted from the keyboard, then a second
    line: the interrupt is reported, the terminal is restored, and the
    session goes on to the second line. *)
Example local_cli_interrupt_ex :
  let '(r, w) := local_cli_loop clear_lflag braces (session host_interrupted (host_rc 0 ""))
                   TextIO true
                   [Ret (Some "shi r1 vtysh"); Ret (Some "hosts"); Ret None] (world0 true) in
  r = Ret tt ∧ tty_attr w = cooked ∧
  writes (trace w)
  = [Py.CR; "$ ";
     "%% Caught KeyboardInterrupt" +:+ Py.LF +:+ "Use ^D or 'quit' to exit";
     "% Hosts:" +:+ Py.TAB +:+ "r1 r2" +:+ Py.LF].
Proof. vm_compute. done. Qed.

(** X16.  Nothing is read after the end of the input or after a line
    that makes the dispatcher stop: what would follow in the input has
    no part in the outcome of the session. *)
Theorem local_cli_reads_nothing_after_stop setraw_attr str_format unet outf background pre last
    rest w :
  last = Ret None ∨
  (∃ line cmd g2, last = Ret (Some line) ∧
                  re_match (Py.strip line) = Some (cmd, g2) ∧ cmd ∈ ["q"; "quit"]) →
  local_cli setraw_attr str_format unet outf background (pre ++ last :: rest) w
  = local_cli setraw_attr str_format unet outf background (pre ++ [last]) w.
Proof.
  intros Hlast.
  assert (∀ w,
            local_cli_loop setraw_attr str_format unet outf background (pre ++ last :: rest) w
            = local_cli_loop setraw_attr str_format unet outf background (pre ++ [last]) w)
    as Hloop.
  { induction pre as [|answer pre IH]; intros w0.
    - simpl app. rewrite !local_cli_loop_cons.
      destruct Hlast as [-> | (line & cmd & g2 & -> & Hm & Hq)]; [done|].
      by rewrite (doline_quit _ _ _ _ _ _ _ _ _ _ Hm Hq).
    - simpl app. rewrite !local_cli_loop_cons.
      destruct (match answer with Raise e => _ | Ret _ => _ end) as [[[|]|e] w1];
        [apply IH | done |].
      destruct (is_KeyboardInterrupt e); [|done].
      unfold mbind, M_bind. destruct (caught_interrupt outf w1) as [[[]|?] ?]; [apply IH | done]. }
  unfold local_cli, mbind, M_bind.
  destruct (write TextIO banner w) as [[[]|?] w1]; [|done].
  destruct (write TextIO Py.LF w1) as [[[]|?] w2]; [|done]. apply Hloop.
Qed.

Lemma local_cli_reads_nothing_after_stop_witness :
  local_cli clear_lflag braces (session (host_rc 0 "") (host_rc 0 "")) TextIO true
            ([Ret (Some "hosts")] ++ Ret (Some "quit") :: [Ret (Some "sh r1 reboot")])
            (world0 true)
  = local_cli clear_lflag braces (session (host_rc 0 "") (host_rc 0 "")) TextIO true
              ([Ret (Some "hosts")] ++ [Ret (Some "quit")]) (world0 true).
Proof.
  apply (local_cli_reads_nothing_after_stop clear_lflag braces
           (session (host_rc 0 "") (host_rc 0 "")) TextIO
           true [Ret (Some "hosts")] (Ret (Some "quit")) [Ret (Some "sh r1 reboot")]
           (world0 true)).
  right. exists "quit", "quit", None. split; [reflexivity|]. split; [vm_compute; reflexivity|].
  apply list_elem_of_further, list_elem_of_here.
Defined.

(** ** The window bootstrap *)

(** The window bootstrap once the socket path is known. *)
Lemma remote_cli_window unet prompt title path w :
  cli_sockpath w = Some path →
  try_except
    (emit GetExecPath ;;
     python_path ← lift (async_get_exec_path unet);
     us ← get realpath_file;
     let cmd := python_path +:+ " " +:+ us in
     let cmd := match cli_histfile unet with
                | Some (String c h) => cmd +:+ " --histfile=" +:+ String c h
                | _ => cmd
                end in
     let cmd := match prompt with
                | "" => cmd
                | _ => cmd +:+ " --prompt='" +:+ prompt +:+ "'"
                end in
     sockpath ← get cli_sockpath;
     cmd ← match sockpath with
           | Some path => mret (cmd +:+ " " +:+ path)
           | None => raise (Exception "TypeError" "can only concatenate str to str")
           end;
     emit (UnetRunInWindow cmd title) ;;
     lift (unet_run_in_window unet cmd title))
    (λ error, mret tt) w
  = match async_get_exec_path unet with
    | Ret python_path =>
        let cmd := client_command unet python_path (realpath_file w) prompt path in
        let w' := with_trace (trace w ++ [GetExecPath; UnetRunInWindow cmd title]) w in
        match unet_run_in_window unet cmd title with
        | Ret _ => (Ret tt, w')
        | Raise e => if is_Exception e then (Ret tt, w') else (Raise e, w')
        end
    | Raise e =>
        let w' := with_trace (trace w ++ [GetExecPath]) w in
        if is_Exception e then (Ret tt, w') else (Raise e, w')
    end.
Proof.
  intros Hpath. unfold try_except, mbind, M_bind, emit, lift, get, mret, M_ret. simpl.
  destruct (async_get_exec_path unet) as [python_path|e]; simpl.
  - rewrite Hpath. simpl. unfold client_command.
    destruct (unet_run_in_window unet _ title) as [[]|e]; simpl;
      rewrite ?with_trace_twice, <- ?app_assoc; simpl; done.
  - by destruct (is_Exception e).
Qed.

Lemma remote_cli_window_path unet prompt title background c p w :
  cli_sockpath w = Some (String c p) →
  remote_cli unet prompt title background w
  = match async_get_exec_path unet with
    | Ret python_path =>
        let cmd := client_command unet python_path (realpath_file w) prompt (String c p) in
        let w' := with_trace (trace w ++ [GetExecPath; UnetRunInWindow cmd title]) w in
        match unet_run_in_window unet cmd title with
        | Ret _ => (Ret tt, w')
        | Raise e => if is_Exception e then (Ret tt, w') else (Raise e, w')
        end
    | Raise e =>
        let w' := with_trace (trace w ++ [GetExecPath]) w in
        if is_Exception e then (Ret tt, w') else (Raise e, w')
    end.
Proof.
  intros Hpath. rewrite <- (remote_cli_window unet prompt title (String c p) w Hpath).
  unfold remote_cli, try_except. unfold mbind at 1. unfold M_bind at 1.
  unfold get at 1. rewrite Hpath.
  rewrite bool_decide_eq_false_2 by (intros [?|?]; done).
  unfold mbind at 1. unfold M_bind at 1. unfold mret at 1. unfold M_ret at 1.
  done.
Qed.

(** X17.  The server of the control socket is made at most once: when
    the session has a socket path, [remote_cli] makes no directory and
    starts no server and leaves the path as it is.  All it does is ask
    for the interpreter and, when that answers, open the window of a
    client for that path; it raises no exception of class [Exception]. *)
Theorem remote_cli_reuses_server unet prompt title background c p w :
  cli_sockpath w = Some (String c p) →
  let '(r, w') := remote_cli unet prompt title background w in
  cli_sockpath w' = Some (String c p) ∧
  (∀ e, r = Raise e → is_Exception e = false) ∧
  ∃ evs, w' = with_trace (trace w ++ evs) w ∧ Forall (λ e, ¬ server_event e) evs ∧
         ∀ python_path, async_get_exec_path unet = Ret python_path →
           evs = [GetExecPath;
                  UnetRunInWindow
                    (client_command unet python_path (realpath_file w) prompt (String c p))
                    title].
Proof.
  intros Hpath. rewrite (remote_cli_window_path _ _ _ _ _ _ _ Hpath).
  destruct (async_get_exec_path unet) as [python_path|e]; simpl.
  - destruct (unet_run_in_window unet _ title) as [[]|e]; simpl.
    + split; [done|]. split; [done|]. eexists. split; [done|].
      split; [repeat constructor; by intros []|]. by intros ? [= <-].
    + destruct (is_Exception e) eqn:He; (split; [done|]);
        (split; [by (intros ? [= <-] || done)|]);
        eexists; (split; [done|]); (split; [repeat constructor; by intros []|]);
        by intros ? [= <-].
  - destruct (is_Exception e) eqn:He; (split; [done|]);
      (split; [by (intros ? [= <-] || done)|]);
      eexists; (split; [done|]); (split; [repeat constructor; by intros []|]); done.
Qed.

Lemma remote_cli_reuses_server_witness :
  let unet := session (host_rc 0 "") (host_rc 0 "") in
  let w := with_cli_sockpath (Some "/tmp/pty-k3-sockdir/cli.sock") (world0 true) in
  let '(r, w') := remote_cli unet "secondary> " "Secondary CLI" true w in
  cli_sockpath w' = Some "/tmp/pty-k3-sockdir/cli.sock" ∧
  (∀ e, r = Raise e → is_Exception e = false) ∧
  ∃ evs, w' = with_trace (trace w ++ evs) w ∧ Forall (λ e, ¬ server_event e) evs ∧
         ∀ python_path, async_get_exec_path unet = Ret python_path →
           evs = [GetExecPath;
                  UnetRunInWindow
                    (client_command unet python_path (realpath_file w) "secondary> "
                       "/tmp/pty-k3-sockdir/cli.sock")
                    "Secondary CLI"].
Proof.
  apply (remote_cli_reuses_server (session (host_rc 0 "") (host_rc 0 "")) "secondary> "
           "Secondary CLI" true "/" "tmp/pty-k3-sockdir/cli.sock"
           (with_cli_sockpath (Some "/tmp/pty-k3-sockdir/cli.sock") (world0 true))).
  reflexivity.
Defined.

(** The first part of the window bootstrap in a session without a socket
    path, when the directory and the server can be made. *)
Lemma remote_cli_first unet prompt title background dir w :
  cli_sockpath w = None ∨ cli_sockpath w = Some "" →
  mkdtemp w = Ret dir →
  start_unix_server w (dir +:+ "/cli.sock") = Ret tt →
  let path := dir +:+ "/cli.sock" in
  let w1 := with_cli_sockpath (Some path)
              (with_trace (trace w ++ [Mkdtemp; StartUnixServer path background]) w) in
  remote_cli unet prompt title background w
  = match async_get_exec_path unet with
    | Ret python_path =>
        let cmd := client_command unet python_path (realpath_file w) prompt path in
        let w' := with_trace (trace w1 ++ [GetExecPath; UnetRunInWindow cmd title]) w1 in
        match unet_run_in_window unet cmd title with
        | Ret _ => (Ret tt, w')
        | Raise e => if is_Exception e then (Ret tt, w') else (Raise e, w')
        end
    | Raise e =>
        let w' := with_trace (trace w1 ++ [GetExecPath]) w1 in
        if is_Exception e then (Ret tt, w') else (Raise e, w')
    end.
Proof.
  intros Hpath Hdir Hserver path w1.
  unfold remote_cli, try_except, mbind, M_bind, emit, get, lift, modify, mret, M_ret.
  rewrite bool_decide_eq_true_2 by done. simpl. rewrite Hdir. simpl. rewrite Hserver.
  simpl. fold path.
  destruct (async_get_exec_path unet) as [python_path|e]; simpl.
  - unfold client_command.
    destruct (unet_run_in_window unet _ title) as [[]|e]; simpl;
      unfold w1, with_trace, with_cli_sockpath; simpl; rewrite <- ?app_assoc; simpl;
      try done; by destruct (is_Exception e).
  - unfold w1, with_trace, with_cli_sockpath; simpl; rewrite <- ?app_assoc; simpl;
      try done; by destruct (is_Exception e).
Qed.

(** X18.  Two window requests in a session that had no socket path, with
    nothing failing: the first makes the directory and starts the server
    on [cli.sock] in it, keeps the path, and opens a client window for
    it; the second starts nothing and opens a second client window for
    the same path. *)
Theorem remote_cli_twice unet prompt1 title1 prompt2 title2 background dir python_path w :
  cli_sockpath w = None ∨ cli_sockpath w = Some "" →
  mkdtemp w = Ret dir →
  start_unix_server w (dir +:+ "/cli.sock") = Ret tt →
  async_get_exec_path unet = Ret python_path →
  (∀ cmd title, unet_run_in_window unet cmd title = Ret tt) →
  let path := dir +:+ "/cli.sock" in
  let client prompt := client_command unet python_path (realpath_file w) prompt path in
  let w1 := (remote_cli unet prompt1 title1 background w).2 in
  let w2 := (remote_cli unet prompt2 title2 background w1).2 in
  cli_sockpath w1 = Some path ∧ cli_sockpath w2 = Some path ∧
  trace w2 = trace w ++ [Mkdtemp; StartUnixServer path background;
                         GetExecPath; UnetRunInWindow (client prompt1) title1;
                         GetExecPath; UnetRunInWindow (client prompt2) title2].
Proof.
  intros Hpath Hdir Hserver Hpy Hwin path client w1 w2.
  assert (w1 = with_trace (trace w ++ [Mkdtemp; StartUnixServer path background;
                                       GetExecPath; UnetRunInWindow (client prompt1) title1])
                 (with_cli_sockpath (Some path) w)) as Hw1.
  { unfold w1. rewrite (remote_cli_first _ _ _ _ dir) by done.
    rewrite Hpy. simpl. rewrite Hwin. simpl.
    unfold with_trace, with_cli_sockpath. simpl. by rewrite <- app_assoc. }
  assert (cli_sockpath w1 = Some path) as Hpath1 by (by rewrite Hw1).
  split; [done|].
  assert (∃ c p, path = String c p) as (c & p & Hcp).
  { unfold path. destruct dir; simpl; eauto. }
  unfold w2. rewrite Hcp in Hpath1.
  rewrite (remote_cli_window_path unet prompt2 title2 background c p w1 Hpath1).
  rewrite Hpy. simpl. rewrite Hwin. simpl. rewrite <- Hcp.
  split; [by rewrite Hw1|].
  rewrite Hw1. simpl. by rewrite <- app_assoc.
Qed.

Lemma remote_cli_twice_witness :
  let unet := session (host_rc 0 "") (host_rc 0 "") in
  let w := world0 true in
  let path := "/tmp/pty-k3-sockdir" +:+ "/cli.sock" in
  let client prompt := client_command unet "/usr/bin/python3" (realpath_file w) prompt path in
  let w1 := (remote_cli unet "secondary> " "Secondary CLI" true w).2 in
  let w2 := (remote_cli unet "third> " "Third CLI" true w1).2 in
  cli_sockpath w1 = Some path ∧ cli_sockpath w2 = Some path ∧
  trace w2 = trace w ++ [Mkdtemp; StartUnixServer path true;
                         GetExecPath; UnetRunInWindow (client "secondary> ") "Secondary CLI";
                         GetExecPath; UnetRunInWindow (client "third> ") "Third CLI"].
Proof.
  apply (remote_cli_twice (session (host_rc 0 "") (host_rc 0 "")) "secondary> " "Secondary CLI"
           "third> " "Third CLI" true "/tmp/pty-k3-sockdir" "/usr/bin/python3" (world0 true)).
  - left. reflexivity.
  - reflexivity.
  - reflexivity.
  - reflexivity.
  - intros cmd title. reflexivity.
Defined.

(** X19.  [remote_cli] lets no exception of class [Exception] out,
    whatever fails in it: the directory, the server, the search for the
    interpreter or the window. *)
Theorem remote_cli_swallows_exceptions unet prompt title background w cls msg :
  (remote_cli unet prompt title background w).1 ≠ Raise (Exception cls msg).
Proof.
  unfold remote_cli, try_except.
  match goal with |- context [match ?body w with _ => _ end] =>
    destruct (body w) as [[[]|[cls' msg'|cls' msg']] w1] end; done.
Qed.

(** X20.  When the directory or the server of the control socket cannot
    be made, [remote_cli] gives up without opening a window and without
    a socket path, so that the next request tries again; the failure is
    swallowed. *)
Theorem remote_cli_server_failure unet prompt title background e w :
  cli_sockpath w = None ∨ cli_sockpath w = Some "" →
  is_Exception e = true →
  (mkdtemp w = Raise e →
   remote_cli unet prompt title background w
   = (Ret tt, with_trace (trace w ++ [Mkdtemp]) w)) ∧
  (∀ dir, mkdtemp w = Ret dir →
          start_unix_server w (dir +:+ "/cli.sock") = Raise e →
          remote_cli unet prompt title background w
          = (Ret tt,
             with_trace (trace w ++ [Mkdtemp; StartUnixServer (dir +:+ "/cli.sock") background])
                        w)).
Proof.
  intros Hpath He. split.
  - intros Hdir.
    unfold remote_cli, try_except, mbind, M_bind, emit, get, lift, modify, mret, M_ret.
    rewrite bool_decide_eq_true_2 by done. simpl. rewrite Hdir. simpl. by rewrite He.
  - intros dir Hdir Hserver.
    unfold remote_cli, try_except, mbind, M_bind, emit, get, lift, modify, mret, M_ret.
    rewrite bool_decide_eq_true_2 by done. simpl. rewrite Hdir. simpl. rewrite Hserver.
    simpl. rewrite He. by rewrite with_trace_twice, <- app_assoc.
Qed.

Lemma remote_cli_server_failure_witness :
  let unet := session (host_rc 0 "") (host_rc 0 "") in
  let e := Exception "OSError" "No space left on device" in
  (mkdtemp world_no_tmp = Raise e →
   remote_cli unet "secondary> " "Secondary CLI" true world_no_tmp
   = (Ret tt, with_trace (trace world_no_tmp ++ [Mkdtemp]) world_no_tmp)) ∧
  (∀ dir, mkdtemp world_no_tmp = Ret dir →
          start_unix_server world_no_tmp (dir +:+ "/cli.sock") = Raise e →
          remote_cli unet "secondary> " "Secondary CLI" true world_no_tmp
          = (Ret tt,
             with_trace (trace world_no_tmp
                         ++ [Mkdtemp; StartUnixServer (dir +:+ "/cli.sock") true])
                        world_no_tmp)).
Proof.
  apply (remote_cli_server_failure (session (host_rc 0 "") (host_rc 0 "")) "secondary> "
           "Secondary CLI" true (Exception "OSError" "No space left on device") world_no_tmp).
  - left. reflexivity.
  - reflexivity.
Defined.

(** ** More of the fan-out executor *)

(** X21.  A template on which [str.format] raises stops [run_command]
    before anything happens: the exception of the formatter is raised as
    it is, whatever its class, no host is asked and nothing is
    written. *)
Theorem run_command_bad_template setraw_attr str_format unet outf line execfmt on_host with_pty e
    w :
  str_format execfmt (host_cmd_split unet line).2 = Raise e →
  run_command setraw_attr str_format unet outf line execfmt on_host with_pty w = (Raise e, w).
Proof.
  intros Hfmt. unfold run_command.
  pose proof (host_cmd_split_known unet line) as Hknown.
  destruct (host_cmd_split unet line) as [hs body]. simpl in *. rewrite Hknown.
  by erewrite bind_raise by (unfold lift; by rewrite Hfmt).
Qed.

Lemma run_command_bad_template_witness :
  run_command clear_lflag braces (session (host_rc 0 "") (host_rc 0 "")) TextIO "r1 echo hi"
              "ssh {} bash -c '{}'" false false (world0 true)
  = (Raise (Exception "IndexError" "Replacement index 1 out of range for positional args tuple"),
     world0 true).
Proof.
  apply (run_command_bad_template clear_lflag braces (session (host_rc 0 "") (host_rc 0 "")) TextIO
           "r1 echo hi" "ssh {} bash -c '{}'" false false).
  vm_compute. reflexivity.
Defined.

(** X22.  The targets of a line are hosts of the session, all of them,
    whatever the line; and there is at least one target unless the
    session has no host at all. *)
Theorem targets_are_hosts unet line :
  Forall (λ x, is_host unet x = true) (host_cmd_split unet line).1 ∧
  ((host_cmd_split unet line).1 = [] ↔ hosts unet = ∅).
Proof.
  split.
  { apply filter_unknown_nil, host_cmd_split_known. }
  assert (sorted_hosts unet = [] ↔ hosts unet = ∅) as Hsorted.
  { unfold sorted_hosts, Py.sorted. split.
    - intros Hnil. apply dom_empty_inv_L, leibniz_equiv, elements_empty_inv.
      apply Permutation_nil_r. rewrite <- Hnil. by rewrite merge_sort_Permutation.
    - intros ->. rewrite dom_empty_L, elements_empty. done. }
  unfold host_cmd_split. simpl.
  set (l := Py.split line). set (i := enumerate_break unet 0 0 l).
  destruct (take i l) as [|x rest] eqn:Htake; [done|].
  split; [done|]. intros Hempty. exfalso.
  assert (is_host unet x = true) as Hx.
  { assert (Forall (λ x, is_host unet x = true) (take i l)) as Hall.
    { assert (take i l = take i (host_prefix unet l)) as ->.
      { destruct (host_prefix_is_prefix unet l) as [k Hk].
        rewrite Hk at 1. apply take_app_le, enumerate_break_le. }
      apply Forall_take, host_prefix_known. }
    rewrite Htake in Hall. by apply Forall_cons in Hall as [? _]. }
  apply is_host_true in Hx. rewrite Hempty, dom_empty_L in Hx. by apply elem_of_empty in Hx.
Qed.

(** X23.  On a line with a word that is no host name, the targets are
    the host names the line starts with, or every host in sorted order
    when it starts with none, and the command is the rest of the words
    joined by single blanks. *)
Theorem prefix_rule_on_commands unet line :
  Exists (λ e, is_host unet e = false) (Py.split line) →
  let csplit := Py.split line in
  let named := host_prefix unet csplit in
  host_cmd_split unet line
  = (match named with [] => sorted_hosts unet | _ => named end,
     Py.join " " (drop (length named) csplit)).
Proof. intros Hex. by rewrite host_cmd_split_stops. Qed.

Lemma prefix_rule_on_commands_witness :
  let unet := session (host_rc 0 "") (host_rc 0 "") in
  let csplit := Py.split " r2  r1 ip   route show r1 " in
  let named := host_prefix unet csplit in
  host_cmd_split unet " r2  r1 ip   route show r1 "
  = (match named with [] => sorted_hosts unet | _ => named end,
     Py.join " " (drop (length named) csplit)).
Proof.
  apply (prefix_rule_on_commands (session (host_rc 0 "") (host_rc 0 ""))
           " r2  r1 ip   route show r1 ").
  vm_compute. apply Exists_cons_tl, Exists_cons_tl, Exists_cons_hd. reflexivity.
Defined.

Example prefix_rule_ex :
  host_cmd_split (session (host_rc 0 "") (host_rc 0 "")) " r2  r1 ip   route show r1 "
  = (["r2"; "r1"], "ip route show r1").
Proof. vm_compute. reflexivity. Qed.



Lemma spawn_interactive setraw_attr unet outf host cmd on_host :
  only_emits interactive_event (spawn setraw_attr unet host cmd outf on_host).
Proof.
  intros w. unfold spawn, tcgetattr, setraw, tcsetattr.
  unfold mbind, M_bind, mret, M_ret, get, emit, modify, try_finally. simpl.
  destruct (stdin_isatty w) eqn:Htty; simpl.
  - match goal with |- context [spawn_body _ _ _ outf _ ?w2] =>
      destruct (spawn_body_only_emits unet outf host cmd on_host w2) as (evs & Hw & Hevs);
      destruct (spawn_body unet host cmd outf on_host w2) as [r w3]
    end.
    simpl in Hw. subst w3. simpl. rewrite Htty. simpl.
    exists ([TcGetAttr; SetRaw] ++ evs ++ [TcSetAttr (tty_attr w)]). split.
    + destruct w. unfold with_trace, with_tty_attr. simpl.
      by rewrite <- !app_assoc.
    + repeat first [apply Forall_app; split | apply Forall_cons; split | apply Forall_nil];
        try done.
      eapply Forall_impl; [done|]. by intros [].
  - destruct (spawn_body_only_emits unet outf host cmd on_host w) as (evs & Hw & Hevs).
    destruct (spawn_body unet host cmd outf on_host w) as [r w3].
    simpl in Hw. subst w3. simpl. rewrite Htty. simpl.
    exists evs. split; [done|]. eapply Forall_impl; [done|]. by intros [].
Qed.

Lemma build_aws_captured unet ucmd on_host l w aws w' :
  build_aws unet ucmd on_host l w = (Ret aws, w') →
  Forall (λ a, captured_event a.1) aws.
Proof.
  revert aws w w'. induction l as [|host l IH]; intros aws w w'; simpl.
  - intros [= <- _]. constructor.
  - unfold mbind, M_bind, host_of. destruct (hosts unet !! host); [|done]. simpl.
    destruct (build_aws unet ucmd on_host l w) as [[aws'|?] w1] eqn:Hrest; [|done].
    intros [= <- _]. constructor; [done|]. by eapply IH.
Qed.

(** X25.  The two modes of [run_command] do not mix.  A captured run
    consists of launches of captured commands and of writes: it opens no
    pty and performs no operation on the terminal.  An interactive run
    consists of what [spawn] does and of writes: it launches no captured
    command.  Either leaves the world as it was but for the trace. *)
Theorem run_command_modes setraw_attr str_format unet outf line execfmt on_host :
  only_emits captured_event
    (run_command setraw_attr str_format unet outf line execfmt on_host false) ∧
  only_emits interactive_event
    (run_command setraw_attr str_format unet outf line execfmt on_host true).
Proof.
  split; unfold run_command;
    destruct (host_cmd_split unet line) as [hs body];
    (destruct (List.filter _ hs); [| unfold write; frame]);
    (apply only_emits_bind; [frame | intros ucmd]).
  - apply only_emits_bind_ret; [apply build_aws_only_emits | intros aws w w' Haws].
    apply build_aws_captured in Haws.
    apply only_emits_bind; [by apply gather_only_emits | intros results].
    eapply only_emits_weaken; [| apply report_only_emits]. by intros ? [? ->].
  - unfold write.
    repeat first [ apply spawn_interactive | frame_step ].
Qed.

(** ** Registering commands *)

(** X26.  What [add_cli_run_cmd] registers is what [doline] runs.  After
    a run command is registered under a name that is no builtin name and
    no window command, a line that starts with the name runs
    [run_command] on the rest of the line with the template and the
    flags registered, whatever was registered under the name before.
    After a default command is registered, a line whose first word is no
    builtin name and not registered runs [run_command] on the whole
    line, first word included.  In both cases an interactive command
    needs a session with a terminal. *)
Theorem registered_command_runs setraw_attr str_format unet outf key cmdfmt cmdhelp execfmt on_host
    interactive line background notty cmd g2 w :
  re_match (Py.strip line) = Some (cmd, g2) →
  cmd ∉ builtins →
  cli_in_window_cmds unet !! cmd = None →
  key = Some cmd ∨ key = None ∧ cli_run_cmds unet !! Some cmd = None →
  interactive && notty = false →
  let unet' := add_cli_run_cmd unet key cmdfmt cmdhelp execfmt on_host interactive in
  doline setraw_attr str_format unet' line outf background notty w
  = (run_command setraw_attr str_format unet' outf
       (match key with Some _ => rest_of_line g2 | None => Py.strip line end)
       execfmt on_host interactive ;;
     mret true) w.
Proof.
  intros Hm Hcmd Hwin Hkey Hpty unet'. subst unet'.
  rewrite (doline_registered _ str_format _ outf _ _ _ _ _ _ Hm Hcmd). simpl. rewrite Hwin.
  destruct Hkey as [-> | [-> Hnone]].
  - rewrite lookup_insert_eq. unfold doline_run. simpl. rewrite Hpty. reflexivity.
  - rewrite lookup_insert_ne by done. rewrite Hnone, lookup_insert_eq.
    unfold doline_run. simpl. rewrite Hpty. reflexivity.
Qed.

Lemma registered_command_runs_witness :
  let unet' := add_cli_run_cmd (session (host_rc 0 "") (host_rc 0 "")) (Some "sh")
                 "sh <cmd>" "run in a login shell" "bash -lc '{}'" true false in
  doline clear_lflag braces unet' "sh r1 date" TextIO false true (world0 true)
  = (run_command clear_lflag braces unet' TextIO
       (match Some "sh" with
        | Some _ => rest_of_line (Some "r1 date")
        | None => Py.strip "sh r1 date"
        end)
       "bash -lc '{}'" true false ;;
     mret true) (world0 true).
Proof.
  apply (registered_command_runs clear_lflag braces (session (host_rc 0 "") (host_rc 0 "")) TextIO
           (Some "sh") "sh <cmd>" "run in a login shell" "bash -lc '{}'" true false
           "sh r1 date" false true "sh" (Some "r1 date") (world0 true)).
  - vm_compute. reflexivity.
  - unfold builtins. intros H. vm_compute in H.
    repeat (apply elem_of_cons in H as [H|H]; [discriminate H|]). by apply elem_of_nil in H.
  - vm_compute. reflexivity.
  - left. reflexivity.
  - reflexivity.
Defined.

Example default_command_ex :
  let unet := add_cli_run_cmd (session (host_rc 0 "") (host_rc 0 "")) None
                "<cmd>" "run <cmd> on the hosts" "bash -c '{}'" false false in
  let '(r, w) := doline clear_lflag braces unet "ip route" TextIO false false (world0 true) in
  r = Ret true ∧
  execs (trace w) = [CmdStatus "r1" false "bash -c 'ip route'";
                     CmdStatus "r2" false "bash -c 'ip route'"].
Proof. vm_compute. done. Qed.

(** X27.  The name of a window command goes to the window command:
    registering a run command under the same name, or a default command,
    changes nothing of what [doline] does on a line that starts with the
    name. *)
Theorem window_command_shadows_run setraw_attr str_format unet outf key cmdfmt cmdhelp execfmt
    on_host interactive line background notty cmd g2 w :
  re_match (Py.strip line) = Some (cmd, g2) →
  cmd ∉ builtins →
  is_Some (cli_in_window_cmds unet !! cmd) →
  doline setraw_attr str_format
         (add_cli_run_cmd unet key cmdfmt cmdhelp execfmt on_host interactive)
         line outf background notty w
  = doline setraw_attr str_format unet line outf background notty w.
Proof.
  intros Hm Hcmd [entry Hwin].
  rewrite !(doline_registered _ str_format _ outf _ _ _ _ _ _ Hm Hcmd). simpl. by rewrite Hwin.
Qed.

Lemma window_command_shadows_run_witness :
  let unet := session (host_rc 0 "") (host_rc 0 "") in
  doline clear_lflag braces
         (add_cli_run_cmd unet (Some "term") "term <cmd>" "run" "bash -c '{}'" false false)
         "term r1" TextIO false false (world0 true)
  = doline clear_lflag braces unet "term r1" TextIO false false (world0 true).
Proof.
  apply (window_command_shadows_run clear_lflag braces (session (host_rc 0 "") (host_rc 0 ""))
           TextIO (Some "term") "term <cmd>" "run" "bash -c '{}'" false false
           "term r1" false false "term" (Some "r1") (world0 true)).
  - vm_compute. reflexivity.
  - unfold builtins. intros H. vm_compute in H.
    repeat (apply elem_of_cons in H as [H|H]; [discriminate H|]). by apply elem_of_nil in H.
  - vm_compute. eauto.
Defined.

(** ** The interactive mode of the fan-out executor *)

Lemma execs_quiet evs : Forall quiet evs → execs evs = [].
Proof.
  induction 1 as [|e evs He _ IH]; [done|].
  unfold execs in *. simpl. by rewrite He.
Qed.

Lemma runs_one_emit x : is_exec x = true → runs_one x (emit x).
Proof.
  intros Hx w. exists [x]. split; [done|]. left. unfold execs. simpl. by rewrite Hx.
Qed.

Lemma runs_one_bind_l x {A B} (m : M A) (f : A → M B) :
  only_emits quiet m → (∀ a, runs_one x (f a)) → runs_one x (m ≫= f).
Proof.
  intros Hm Hf w. unfold mbind, M_bind.
  destruct (Hm w) as (evs & Hw & Hq). apply execs_quiet in Hq.
  destruct (m w) as [[a|e] w1]; simpl in *; subst w1.
  - destruct (Hf a (with_trace (trace w ++ evs) w)) as (evs' & Hw' & Hx).
    exists (evs ++ evs'). split.
    + by rewrite Hw', with_trace_twice, app_assoc.
    + unfold execs in *. by rewrite List.filter_app, Hq.
  - exists evs. split; [done|]. right. eauto.
Qed.

Lemma runs_one_bind_r x {A B} (m : M A) (f : A → M B) :
  runs_one x m → (∀ a, only_emits quiet (f a)) → runs_one x (m ≫= f).
Proof.
  intros Hm Hf w. unfold mbind, M_bind.
  destruct (Hm w) as (evs & Hw & Hx).
  destruct (m w) as [[a|e] w1]; simpl in *; subst w1.
  - destruct (Hf a (with_trace (trace w ++ evs) w)) as (evs' & Hw' & Hq).
    apply execs_quiet in Hq. exists (evs ++ evs'). split.
    + by rewrite Hw', with_trace_twice, app_assoc.
    + left. destruct Hx as [Hx | [_ [e He]]]; [|done].
      unfold execs in *. by rewrite List.filter_app, Hx, Hq.
  - exists evs. split; [done|]. destruct Hx as [Hx | [Hx _]]; [by left | right; eauto].
Qed.

Lemma spawn_body_runs_one unet outf host cmd on_host :
  runs_one (Popen host cmd on_host) (spawn_body unet host cmd outf on_host).
Proof.
  unfold spawn_body.
  apply runs_one_bind_l; [unfold openpty; frame | intros _].
  apply runs_one_bind_l; [apply host_of_only_emits | intros h].
  apply runs_one_bind_r; [by apply runs_one_emit | intros _].
  unfold write, flush. frame.
  eapply only_emits_weaken; [| apply relay_only_emits]. by intros [].
Qed.

Lemma spawn_runs_one setraw_attr unet outf host cmd on_host :
  runs_one (Popen host cmd on_host) (spawn setraw_attr unet host cmd outf on_host).
Proof.
  intros w. unfold spawn, tcgetattr, setraw, tcsetattr.
  unfold mbind, M_bind, mret, M_ret, get, emit, modify, try_finally. simpl.
  destruct (stdin_isatty w) eqn:Htty; simpl.
  - match goal with |- context [spawn_body _ _ _ outf _ ?w2] =>
      destruct (spawn_body_runs_one unet outf host cmd on_host w2) as (evs & Hw & Hevs);
      destruct (spawn_body unet host cmd outf on_host w2) as [r w3]
    end.
    simpl in Hw, Hevs. subst w3. simpl. rewrite Htty. simpl.
    exists ([TcGetAttr; SetRaw] ++ evs ++ [TcSetAttr (tty_attr w)]). split.
    + destruct w. unfold with_trace, with_tty_attr. simpl.
      by rewrite <- !app_assoc.
    + unfold execs in *. rewrite !List.filter_app. simpl. rewrite app_nil_r.
      done.
  - destruct (spawn_body_runs_one unet outf host cmd on_host w) as (evs & Hw & Hevs).
    destruct (spawn_body unet host cmd outf on_host w) as [r w3].
    simpl in Hw, Hevs. subst w3. simpl. rewrite Htty. simpl.
    by exists evs.
Qed.

Lemma for_each_runs {A} (mk : A → Event) (f : A → M unit) l :
  (∀ a, runs_one (mk a) (f a)) →
  ∀ w, ∃ k evs,
    (for_each l f w).2 = with_trace (trace w ++ evs) w ∧
    execs evs = mk <$> take k l ∧
    ((for_each l f w).1 = Ret tt → k = length l).
Proof.
  intros Hf. induction l as [|a l IH]; intros w; simpl.
  - exists 0, []. by rewrite app_nil_r, with_trace_same.
  - unfold mbind, M_bind. destruct (Hf a w) as (evs & Hw & Hx).
    destruct (f a w) as [[[]|e] w1]; simpl in *; subst w1.
    + destruct Hx as [Hx | [_ [e He]]]; [|done].
      destruct (IH (with_trace (trace w ++ evs) w)) as (k & evs' & Hw' & Hk & Hret).
      exists (S k), (evs ++ evs'). split; [|split].
      * by rewrite Hw', with_trace_twice, app_assoc.
      * unfold execs in *. by rewrite List.filter_app, Hx, Hk.
      * intros Hr. by rewrite (Hret Hr).
    + destruct Hx as [Hx | [Hx _]].
      * exists 1, evs. rewrite Hx. by destruct l.
      * by exists 0, evs.
Qed.

(** A step that does not look at the trace. *)
Lemma blind_ret {A} (a : A) : blind (mret a).
Proof. intros w t. by exists t. Qed.

Lemma blind_raise {A} e : blind (@raise A e).
Proof. intros w t. by exists t. Qed.

Lemma blind_lift {A} (r : Res A) : blind (lift r).
Proof. intros w t. by exists t. Qed.

Lemma blind_emit e : blind (emit e).
Proof. intros w t. by exists (t ++ [e]). Qed.

Lemma blind_get {A} (f : World → A) : (∀ t w, f (with_trace t w) = f w) → blind (get f).
Proof. intros Hf w t. exists t. unfold get. simpl. by rewrite Hf. Qed.

Lemma blind_modify (g : World → World) :
  (∀ t w, g (with_trace t w) = with_trace t (g w)) → blind (modify g).
Proof. intros Hg w t. exists t. unfold modify. simpl. by rewrite Hg. Qed.

Lemma blind_bind {A B} (m : M A) (k : A → M B) :
  blind m → (∀ a, blind (k a)) → blind (m ≫= k).
Proof.
  intros Hm Hk w t. unfold mbind, M_bind.
  destruct (Hm w t) as [t1 ->]. destruct (m w) as [[a|e] w1]; simpl.
  - apply Hk.
  - by exists t1.
Qed.

Lemma blind_try_finally {A} (m : M A) (fin : M unit) :
  blind m → blind fin → blind (try_finally m fin).
Proof.
  intros Hm Hfin w t. unfold try_finally.
  destruct (Hm w t) as [t1 ->]. destruct (m w) as [r w1]; simpl.
  destruct (Hfin w1 t1) as [t2 ->]. destruct (fin w1) as [[[]|e] w2]; by exists t2.
Qed.

Lemma blind_for_each {A} (l : list A) (f : A → M unit) :
  (∀ a, blind (f a)) → blind (for_each l f).
Proof.
  intros Hf. induction l as [|a l IH]; simpl; [apply blind_ret|].
  apply blind_bind; auto.
Qed.

Lemma blind_write outf s : blind (write outf s).
Proof. destruct outf; [apply blind_emit | apply blind_raise]. Qed.

Lemma blind_flush outf : blind (flush outf).
Proof. destruct outf; [apply blind_emit | apply blind_raise]. Qed.

(** Breaks a computation into its steps and settles each step that does
    not look at the trace. *)
Ltac blind_step :=
  first
    [ apply blind_ret | apply blind_raise | apply blind_lift | apply blind_emit
    | apply blind_write | apply blind_flush
    | (apply blind_get; reflexivity) | (apply blind_modify; reflexivity)
    | (apply blind_bind; [| intros ?])
    | apply blind_try_finally
    | match goal with
      | |- blind (match ?x with _ => _ end) => destruct x
      end ].

Lemma relay_blind outf steps : blind (relay outf steps).
Proof.
  induction steps as [|st steps IH]; simpl; [apply blind_ret|].
  destruct st; repeat first [assumption | blind_step].
Qed.

Lemma spawn_blind setraw_attr unet host cmd outf on_host :
  blind (spawn setraw_attr unet host cmd outf on_host).
Proof.
  unfold spawn, spawn_body, tcgetattr, setraw, tcsetattr, openpty, host_of.
  repeat first [apply relay_blind | blind_step].
Qed.

Lemma interactive_turn_blind setraw_attr unet outf ucmd on_host many host :
  blind (interactive_turn setraw_attr unet outf ucmd on_host many host).
Proof. unfold interactive_turn. repeat first [apply spawn_blind | blind_step]. Qed.

Lemma interactive_turn_runs_one setraw_attr unet outf ucmd on_host many host :
  runs_one (Popen host (Py.replace "%NAME%" host ucmd) on_host)
           (interactive_turn setraw_attr unet outf ucmd on_host many host).
Proof.
  unfold interactive_turn.
  apply runs_one_bind_l; [unfold write; frame | intros _].
  apply runs_one_bind_r; [apply spawn_runs_one | intros _].
  unfold write; frame.
Qed.

(** With a sink that takes text, the part of a target ends the way the
    process spawned on it does. *)
Lemma interactive_turn_result setraw_attr unet ucmd on_host many host w :
  (interactive_turn setraw_attr unet TextIO ucmd on_host many host w).1
  = (spawn setraw_attr unet host (Py.replace "%NAME%" host ucmd) TextIO on_host w).1.
Proof.
  unfold interactive_turn.
  set (sp := spawn setraw_attr unet host (Py.replace "%NAME%" host ucmd) TextIO on_host).
  assert (∀ w1 : World, ((sp ;; (if many
                           then write TextIO ("------- End: " +:+ host +:+ " ------" +:+ Py.LF)
                           else mret tt)) w1).1 = (sp w1).1) as Hafter.
  { intros w1. unfold mbind, M_bind. destruct (sp w1) as [[[]|e] w2]; [|done].
    by destruct many. }
  destruct many.
  - unfold mbind at 1. unfold M_bind, write, emit. simpl. rewrite Hafter.
    destruct (spawn_blind setraw_attr unet host (Py.replace "%NAME%" host ucmd) TextIO on_host
                w (trace w ++ [Write ("------ Host: " +:+ host +:+ " ------" +:+ Py.LF)]))
      as [t' Ht].
    fold sp in Ht. by rewrite Ht.
  - unfold mbind at 1. unfold M_bind, mret, M_ret. apply Hafter.
Qed.

(** A loop whose turns each start one process, up to the first turn
    that raises: the turns before it have run, the turns after it have
    not. *)
Lemma for_each_stops {A} (mk : A → Event) (f : A → M unit) pre x post e w :
  (∀ a, runs_one (mk a) (f a)) →
  (∀ a, blind (f a)) →
  Forall (λ a, (f a w).1 = Ret tt) pre →
  (f x w).1 = Raise e →
  ∀ t, ∃ k evs,
    for_each (pre ++ x :: post) f (with_trace t w) = (Raise e, with_trace (t ++ evs) w) ∧
    execs evs = mk <$> take k (pre ++ x :: post) ∧
    (length pre ≤ k ≤ S (length pre))%nat.
Proof.
  intros Hone Hblind Hpre Hx. induction Hpre as [|a pre Ha Hpre IH]; intros t.
  - simpl. unfold mbind, M_bind.
    destruct (Hblind x w t) as [t' Hres]. destruct (Hone x (with_trace t w)) as (evs & Hw & Hev).
    rewrite Hres in Hw, Hev. simpl in Hw, Hev. rewrite Hres, Hx, Hw. simpl.
    rewrite Hx in Hev.
    destruct Hev as [Hev | [Hev _]].
    + exists 1, evs. split; [done|]. split; [by rewrite Hev | lia].
    + exists 0, evs. split; [done|]. split; [done | lia].
  - simpl. unfold mbind, M_bind.
    destruct (Hblind a w t) as [t' Hres]. destruct (Hone a (with_trace t w)) as (evs & Hw & Hev).
    rewrite Hres in Hw, Hev. simpl in Hw, Hev. rewrite Hres, Ha, Hw. simpl.
    rewrite Ha in Hev. destruct Hev as [Hev | [_ [? ?]]]; [|done].
    destruct (IH (t ++ evs)) as (k & evs' & Hrun & Hk & Hlen).
    rewrite with_trace_twice. rewrite Hrun.
    exists (S k), (evs ++ evs'). split; [by rewrite app_assoc|]. split.
    + unfold execs in *. by rewrite List.filter_app, Hev, Hk.
    + simpl. lia.
Qed.

Lemma run_command_interactive setraw_attr str_format unet outf line execfmt on_host hs body u
    w :
  host_cmd_split unet line = (hs, body) →
  str_format execfmt body = Ret u →
  let ucmd := Py.replace "%INSTANCE%" (instance unet) u in
  let many := bool_decide (1 < length hs) in
  run_command setraw_attr str_format unet outf line execfmt on_host true w
  = (for_each hs (interactive_turn setraw_attr unet outf ucmd on_host many) ;;
     write outf Py.LF) w.
Proof.
  intros Hsplit Hfmt ucmd many. unfold run_command.
  pose proof (host_cmd_split_known unet line) as Hknown.
  rewrite Hsplit in *. simpl in Hknown. rewrite Hknown.
  unfold mbind at 1. unfold M_bind, lift. by rewrite Hfmt.
Qed.

(** X28.  An interactive run on a sink that takes text goes through the
    targets one at a time, in their order: the processes it starts are
    those of the first [k] targets, each with the instance and the name
    of the host filled in, and all of them when it returns.  An
    exception at one target ends the run with that exception and keeps
    the targets after it from being started: when the processes of the
    targets [pre] end and the process of the next target [x] raises [e],
    or cannot be started, the run raises [e] and has started the
    processes of [pre] and at most that of [x].  Nothing but the trace
    changes, the terminal attributes included. *)
Theorem interactive_runs_in_order setraw_attr str_format unet line execfmt on_host u w :
  str_format execfmt (host_cmd_split unet line).2 = Ret u →
  let ucmd := Py.replace "%INSTANCE%" (instance unet) u in
  let targets := (host_cmd_split unet line).1 in
  let shcmd host := Py.replace "%NAME%" host ucmd in
  let out := run_command setraw_attr str_format unet TextIO line execfmt on_host true w in
  ∃ k evs,
    out.2 = with_trace (trace w ++ evs) w ∧
    execs evs = (λ host, Popen host (shcmd host) on_host) <$> take k targets ∧
    (out.1 = Ret tt → k = length targets) ∧
    (∀ pre x post e,
       targets = pre ++ x :: post →
       Forall (λ h, (spawn setraw_attr unet h (shcmd h) TextIO on_host w).1 = Ret tt) pre →
       (spawn setraw_attr unet x (shcmd x) TextIO on_host w).1 = Raise e →
       out.1 = Raise e ∧ (length pre ≤ k ≤ S (length pre))%nat).
Proof.
  intros Hfmt ucmd targets shcmd out. subst out targets.
  destruct (host_cmd_split unet line) as [hs body] eqn:Hsplit. simpl in *.
  rewrite (run_command_interactive _ _ _ _ _ _ _ _ _ _ _ Hsplit Hfmt). fold ucmd.
  set (many := bool_decide (1 < length hs)).
  set (turn := interactive_turn setraw_attr unet TextIO ucmd on_host many).
  set (pop := λ host, Popen host (shcmd host) on_host).
  assert (∀ a, runs_one (pop a) (turn a)) as Hone
    by (intros a; apply interactive_turn_runs_one).
  assert (∀ a, blind (turn a)) as Hblind by (intros a; apply interactive_turn_blind).
  destruct (for_each_runs pop turn hs Hone w) as (k0 & evs0 & Hw0 & Hk0 & Hret0).
  assert (execs evs0 = pop <$> take (length (execs evs0)) hs) as Hcanon.
  { rewrite Hk0, length_fmap, length_take. f_equal.
    destruct (decide (k0 ≤ length hs)%nat) as [Hle|Hgt].
    - by rewrite Nat.min_l.
    - rewrite Nat.min_r by lia. by rewrite !take_ge by lia. }
  assert (∀ pre x post e,
            hs = pre ++ x :: post →
            Forall (λ h, (spawn setraw_attr unet h (shcmd h) TextIO on_host w).1 = Ret tt) pre →
            (spawn setraw_attr unet x (shcmd x) TextIO on_host w).1 = Raise e →
            (for_each hs turn w).1 = Raise e ∧
            (length pre ≤ length (execs evs0) ≤ S (length pre))%nat) as Hstop.
  { intros pre x post e Hhs Hpre Hx.
    assert (Forall (λ a, (turn a w).1 = Ret tt) pre) as Hpre'.
    { eapply Forall_impl; [exact Hpre|]. intros h Hh. simpl in Hh.
      unfold turn. by rewrite interactive_turn_result. }
    assert ((turn x w).1 = Raise e) as Hx'.
    { unfold turn. by rewrite interactive_turn_result. }
    destruct (for_each_stops pop turn pre x post e w Hone Hblind Hpre' Hx' (trace w))
      as (k & evs & Hrun & Hk & Hlen).
    rewrite with_trace_same, <- Hhs in Hrun. rewrite Hrun in Hw0. simpl in Hw0.
    assert (evs = evs0) as ->.
    { apply (f_equal trace) in Hw0. simpl in Hw0. by apply app_inv_head in Hw0. }
    rewrite Hrun. split; [done|].
    rewrite Hk, length_fmap, length_take, <- Hhs.
    assert (S (length pre) ≤ length hs)%nat by (rewrite Hhs, length_app; simpl; lia).
    lia. }
  unfold mbind, M_bind.
  destruct (for_each hs turn w) as [[[]|e0] w1] eqn:Hloop; simpl in *; subst w1.
  - exists (length (execs evs0)), (evs0 ++ [Write Py.LF]). split; [|split; [|split]].
    + simpl. by rewrite with_trace_twice, app_assoc.
    + rewrite <- Hcanon. unfold execs. rewrite List.filter_app. simpl.
      by rewrite app_nil_r.
    + intros _. rewrite Hk0, length_fmap, length_take. rewrite (Hret0 eq_refl). lia.
    + intros pre x post e Hhs Hpre Hx. by destruct (Hstop pre x post e Hhs Hpre Hx).
  - exists (length (execs evs0)), evs0. split; [done|]. split; [done|]. split; [done|].
    intros pre x post e Hhs Hpre Hx. apply (Hstop pre x post e Hhs Hpre Hx).
Qed.

Lemma interactive_runs_in_order_witness :
  let unet := session (host_rc 0 "ok") host_fault in
  let ucmd := Py.replace "%INSTANCE%" (instance unet) "ip netns exec %INSTANCE%-%NAME% top" in
  let targets := (host_cmd_split unet "r1 r2 r1 top").1 in
  let shcmd host := Py.replace "%NAME%" host ucmd in
  let out := run_command clear_lflag braces unet TextIO "r1 r2 r1 top"
               "ip netns exec %INSTANCE%-%NAME% {}" false true (world0 true) in
  ∃ k evs,
    out.2 = with_trace (trace (world0 true) ++ evs) (world0 true) ∧
    execs evs = (λ host, Popen host (shcmd host) false) <$> take k targets ∧
    (out.1 = Ret tt → k = length targets) ∧
    (∀ pre x post e,
       targets = pre ++ x :: post →
       Forall (λ h, (spawn clear_lflag unet h (shcmd h) TextIO false (world0 true)).1 = Ret tt)
              pre →
       (spawn clear_lflag unet x (shcmd x) TextIO false (world0 true)).1 = Raise e →
       out.1 = Raise e ∧ (length pre ≤ k ≤ S (length pre))%nat).
Proof.
  apply (interactive_runs_in_order clear_lflag braces (session (host_rc 0 "ok") host_fault)
           "r1 r2 r1 top" "ip netns exec %INSTANCE%-%NAME% {}" false
           "ip netns exec %INSTANCE%-%NAME% top" (world0 true)).
  vm_compute. reflexivity.
Defined.

(** Three targets of which the second cannot be started: the first has
    run, the second was tried, the third was not, and the terminal is
    back in its mode. *)
Example interactive_fail_fast_ex :
  let unet := session (host_rc 0 "ok") host_fault in
  let '(r, w) := run_command clear_lflag braces unet TextIO "r1 r2 r1 top" "{}" false true
                             (world0 true) in
  r = Raise (Exception "OSError" "spawn failed") ∧
  execs (trace w) = [Popen "r1" "top" false; Popen "r2" "top" false] ∧
  tty_attr w = cooked.
Proof. vm_compute. done. Qed.

(** ** The help text *)

Lemma help_lines_total unet keys :
  Forall (λ k, is_Some (cli_run_cmds unet !! k)
               ∨ is_Some (k ≫= (cli_in_window_cmds unet !!.))) keys →
  ∃ s, help_lines unet keys = Ret s.
Proof.
  induction 1 as [|k keys Hk _ [s IH]]; simpl; [by eexists|].
  rewrite IH. destruct Hk as [[v ->] | [v Hv]].
  - destruct v as [[cmdfmt cmdhelp] ?]. by eexists.
  - destruct (cli_run_cmds unet !! k) as [[[cmdfmt cmdhelp] ?]|]; [by eexists|].
    rewrite Hv. destruct v as [[cmdfmt cmdhelp] ?]. by eexists.
Qed.

Lemma sorted_keys_total unet :
  cli_run_cmds unet !! None = None →
  ∃ keys,
    sorted_keys (elements (dom (cli_run_cmds unet))
                 ++ (Some <$> elements (dom (cli_in_window_cmds unet)))) = Ret keys ∧
    Forall (λ k, is_Some (cli_run_cmds unet !! k)
                 ∨ is_Some (k ≫= (cli_in_window_cmds unet !!.))) keys.
Proof.
  intros Hdefault.
  set (keys := elements (dom (cli_run_cmds unet))
               ++ (Some <$> elements (dom (cli_in_window_cmds unet)))).
  assert (∀ k, k ∈ keys →
            is_Some (cli_run_cmds unet !! k)
            ∨ is_Some (k ≫= (cli_in_window_cmds unet !!.))) as Hkeys.
  { intros k Hk. apply elem_of_app in Hk as [Hk | Hk].
    - left. by apply elem_of_dom, elem_of_elements.
    - right. apply list_elem_of_fmap in Hk as (c & -> & Hc). simpl.
      by apply elem_of_dom, elem_of_elements. }
  assert (None ∉ keys) as Hnone.
  { intros Hin. apply Hkeys in Hin as [[v Hv] | [v Hv]]; [congruence | done]. }
  clearbody keys. unfold sorted_keys.
  destruct keys as [|k1 [|k2 keys]].
  - exists []. by split.
  - exists [k1]. split; [done|]. by apply Forall_forall.
  - rewrite bool_decide_eq_false_2 by done. eexists. split; [done|].
    apply Forall_forall. intros k Hk.
    apply list_elem_of_fmap in Hk as (c & -> & Hc).
    unfold Py.sorted in Hc. rewrite merge_sort_Permutation in Hc.
    apply Hkeys. apply list_elem_of_omap in Hc as (k & Hk & Hid).
    destruct k; simpl in Hid; by simplify_eq.
Qed.

(** X29.  In a session without a default command the help text can
    always be made, whatever is registered: every name that is sorted is
    a string and every name looked up is in one of the two registries.  A
    line whose first word is [help] writes the text to the sink and
    continues the session. *)
Theorem help_without_default_command setraw_attr str_format unet line background notty g2 w :
  cli_run_cmds unet !! None = None →
  re_match (Py.strip line) = Some ("help", g2) →
  ∃ s,
    make_help_str unet = Ret s ∧
    doline setraw_attr str_format unet line TextIO background notty w
    = (Ret true, with_trace (trace w ++ [Write s]) w).
Proof.
  intros Hdefault Hm.
  destruct (sorted_keys_total unet Hdefault) as (keys & Hsorted & Hkeys).
  destruct (help_lines_total unet keys Hkeys) as [s Hlines].
  exists (help_header +:+ s +:+ Py.LF).
  assert (make_help_str unet = Ret (help_header +:+ s +:+ Py.LF)) as Hhelp.
  { unfold make_help_str. by rewrite Hsorted, Hlines. }
  split; [done|]. unfold doline. rewrite Hm, Hhelp. done.
Qed.

Lemma help_without_default_command_witness :
  let unet := session (host_rc 0 "") (host_rc 0 "") in
  ∃ s,
    make_help_str unet = Ret s ∧
    doline clear_lflag braces unet "help" TextIO false false (world0 true)
    = (Ret true, with_trace (trace (world0 true) ++ [Write s]) (world0 true)).
Proof.
  apply (help_without_default_command clear_lflag braces (session (host_rc 0 "") (host_rc 0 ""))
           "help" false false None (world0 true)).
  - vm_compute. reflexivity.
  - vm_compute. reflexivity.
Defined.

Example help_shadowed_window_ex :
  let unet := add_cli_run_cmd (session (host_rc 0 "") (host_rc 0 "")) (Some "term")
                "term <cmd>" "run <cmd>" "{}" false false in
  make_help_str unet
  = Ret (help_header +:+
         help_line "sh [hosts] <shell-command>" "execute <shell-command> on hosts" +:+
         help_line "shi [hosts] <shell-command>" "interactive shell on hosts" +:+
         help_line "term <cmd>" "run <cmd>" +:+
         help_line "term <cmd>" "run <cmd>" +:+
         Py.LF).
Proof. vm_compute. reflexivity. Qed.

(** ** Builtins and the registries *)

Lemma occurs_here sub post : occurs sub (sub +:+ post).
Proof. by exists "", post. Qed.

Lemma occurs_later pre sub s : occurs sub s → occurs sub (pre +:+ s).
Proof.
  intros (pre' & post & ->). exists (pre +:+ pre'), post. by rewrite str_app_assoc.
Qed.

Lemma occurs_before sub s post : occurs sub s → occurs sub (s +:+ post).
Proof.
  intros (pre & post' & ->). exists pre, (post' +:+ post). by rewrite !str_app_assoc.
Qed.

(** The text of the entries holds the line of every entry looked up:
    that of the run command of the name when there is one, else that of
    the window command. *)
Lemma help_lines_occurs unet keys body k cmdfmt cmdhelp :
  help_lines unet keys = Ret body →
  k ∈ keys →
  (∃ payload, cli_run_cmds unet !! k = Some (cmdfmt, cmdhelp, payload))
  ∨ (cli_run_cmds unet !! k = None
     ∧ ∃ payload, k ≫= (cli_in_window_cmds unet !!.) = Some (cmdfmt, cmdhelp, payload)) →
  occurs (help_line cmdfmt cmdhelp) body.
Proof.
  revert body. induction keys as [|k' keys IH]; intros body Hbody Hk Hentry.
  - by apply elem_of_nil in Hk.
  - simpl in Hbody.
    assert (∃ fmt' hlp' rest, help_lines unet keys = Ret rest
                              ∧ body = help_line fmt' hlp' +:+ rest
                              ∧ (k = k' → fmt' = cmdfmt ∧ hlp' = cmdhelp))
      as (fmt' & hlp' & rest & Hrest & -> & Hsame).
    { destruct (help_lines unet keys) as [rest|e].
      - destruct (cli_run_cmds unet !! k') as [[[fmt' hlp'] pl]|] eqn:Hrun.
        + injection Hbody as <-. exists fmt', hlp', rest. split; [done|].
          split; [unfold help_line; by rewrite !str_app_assoc|].
          intros ->. destruct Hentry as [[pl' Hr] | [Hr _]]; by simplify_eq.
        + destruct (k' ≫= (cli_in_window_cmds unet !!.)) as [[[fmt' hlp'] pl]|] eqn:Hwin;
            [|done].
          injection Hbody as <-. exists fmt', hlp', rest. split; [done|].
          split; [unfold help_line; by rewrite !str_app_assoc|].
          intros ->. destruct Hentry as [[pl' Hr] | [_ [pl' Hr]]]; by simplify_eq.
      - destruct (cli_run_cmds unet !! k') as [[[??]?]|]; [done|].
        by destruct (k' ≫= (cli_in_window_cmds unet !!.)) as [[[??]?]|]. }
    apply elem_of_cons in Hk as [Hk | Hk].
    + destruct (Hsame Hk) as [-> ->]. apply occurs_here.
    + apply occurs_later. by apply (IH rest).
Qed.

(** Sorting loses no name. *)
Lemma sorted_keys_elem keys keys' k :
  sorted_keys keys = Ret keys' → k ∈ keys → k ∈ keys'.
Proof.
  unfold sorted_keys. intros Hsorted Hk.
  destruct keys as [|k1 [|k2 keys]]; [by simplify_eq..|].
  remember (k1 :: k2 :: keys) as l eqn:Hl. clear Hl.
  case_bool_decide as Hnone; [done|]. injection Hsorted as <-.
  destruct k as [c|]; [|done].
  apply list_elem_of_fmap. exists c. split; [done|].
  unfold Py.sorted. rewrite merge_sort_Permutation.
  apply list_elem_of_omap. by exists (Some c).
Qed.

(** The help text: the header, then the lines of the entries, among
    them that of every run command and that of every window command
    whose name is not also that of a run command. *)
Lemma make_help_str_lines unet s :
  make_help_str unet = Ret s →
  (∃ body, s = help_header +:+ body +:+ Py.LF) ∧
  (∀ name v, cli_run_cmds unet !! name = Some v → occurs (help_line v.1.1 v.1.2) s) ∧
  (∀ name v, cli_in_window_cmds unet !! name = Some v →
             cli_run_cmds unet !! Some name = None →
             occurs (help_line v.1.1 v.1.2) s).
Proof.
  unfold make_help_str. intros Hs.
  destruct (sorted_keys _) as [keys|e] eqn:Hsorted; [|done].
  destruct (help_lines unet keys) as [body|e] eqn:Hbody; [|done].
  injection Hs as <-. split; [by exists body|]. split.
  - intros name [[cmdfmt cmdhelp] payload] Hrun. simpl.
    apply occurs_later, occurs_before.
    apply (help_lines_occurs unet keys body name); [done| |left; by exists payload].
    apply (sorted_keys_elem _ _ _ Hsorted), elem_of_app. left.
    apply elem_of_elements, elem_of_dom. by eexists.
  - intros name [[cmdfmt cmdhelp] payload] Hwin Hrun. simpl.
    apply occurs_later, occurs_before.
    apply (help_lines_occurs unet keys body (Some name));
      [done| |right; split; [done | by exists payload]].
    apply (sorted_keys_elem _ _ _ Hsorted), elem_of_app. right.
    apply list_elem_of_fmap. exists name. split; [done|].
    apply elem_of_elements, elem_of_dom. by eexists.
Qed.




(** The line [cli] in a session that has a window command and a run
    command of that name: the window of the secondary CLI is opened, in
    a new session after the server is started, and neither command is
    run. *)
Example cli_shadows_registered_ex :
  let unet := add_cli_run_cmd
                (add_cli_in_window_cmd (session (host_rc 0 "") (host_rc 0 "")) "cli"
                   "cli [hosts]" "open a vtysh on hosts" "vtysh" [])
                (Some "cli") "cli <cmd>" "run a vtysh command" "vtysh -c '{}'" false false in
  let path := "/tmp/pty-k3-sockdir/cli.sock" in
  let client := "/usr/bin/python3 /usr/lib/python3/munet/cli.py --prompt='secondary> ' " +:+
                path in
  doline clear_lflag braces unet "cli r1" TextIO true false (world0 true)
  = (Ret true,
     with_cli_sockpath (Some path)
       (with_trace [Mkdtemp; StartUnixServer path true; GetExecPath;
                    UnetRunInWindow client "Secondary CLI"] (world0 true))).
Proof. vm_compute. done. Qed.

(** ** Text on the control socket *)

Lemma write_socket_emits P s : emits P (write StreamWriter s).
Proof. apply only_emits_emits, only_emits_raise. Qed.

Lemma flush_socket_emits P : emits P (flush StreamWriter).
Proof. apply only_emits_emits, only_emits_raise. Qed.

(** Breaks a computation whose sink is the stream writer into its
    steps. *)
Ltac socket_step :=
  first
    [ apply write_socket_emits | apply flush_socket_emits
    | (apply only_emits_emits; solve [frame])
    | (apply emits_bind; [| intros ?])
    | (apply emits_try_except; [| intros ?])
    | apply emits_try_finally
    | (apply emits_for_each; intros ?)
    | (apply emits_modify; done)
    | match goal with
      | |- emits _ (match ?x with _ => _ end) => destruct x
      | |- emits _ (let '(_, _) := ?x in _) => destruct x
      end ].

Lemma relay_socket_emits steps : emits wordless_event (relay StreamWriter steps).
Proof.
  induction steps as [|st steps IH]; simpl; [socket_step|].
  destruct st; repeat first [assumption | socket_step].
Qed.

Lemma spawn_socket_emits setraw_attr unet host cmd on_host :
  emits wordless_event (spawn setraw_attr unet host cmd StreamWriter on_host).
Proof.
  unfold spawn, spawn_body, tcgetattr, setraw, tcsetattr, openpty, host_of.
  repeat first [apply relay_socket_emits | socket_step].
Qed.

Lemma report_socket_emits many l : emits wordless_event (report StreamWriter many l).
Proof.
  induction l as [|[host result] l IH]; simpl; repeat first [assumption | socket_step].
Qed.

Lemma build_aws_wordless unet ucmd on_host l w aws w' :
  build_aws unet ucmd on_host l w = (Ret aws, w') →
  Forall (λ a, wordless_event a.1) aws.
Proof.
  revert aws w w'. induction l as [|host l IH]; intros aws w w'; simpl.
  - intros [= <- _]. constructor.
  - unfold mbind, M_bind, host_of. destruct (hosts unet !! host); [|done]. simpl.
    destruct (build_aws unet ucmd on_host l w) as [[aws'|?] w1] eqn:Hrest; [|done].
    intros [= <- _]. constructor; [done|]. by eapply IH.
Qed.

Lemma run_command_socket_emits setraw_attr str_format unet line execfmt on_host with_pty :
  emits wordless_event
    (run_command setraw_attr str_format unet StreamWriter line execfmt on_host with_pty).
Proof.
  unfold run_command.
  destruct (host_cmd_split unet line) as [hs body].
  destruct (List.filter _ hs); [| socket_step].
  apply emits_bind; [socket_step | intros ucmd].
  destruct with_pty.
  - repeat first [apply spawn_socket_emits | socket_step].
  - apply emits_bind_ret; [apply build_aws_emits | intros aws w w' Haws].
    apply build_aws_wordless in Haws.
    apply emits_bind; [by apply gather_emits | intros; apply report_socket_emits].
Qed.

Lemma doline_window_socket_emits unet entry nline :
  emits wordless_event (doline_window unet StreamWriter entry nline).
Proof.
  unfold doline_window.
  match goal with |- context [List.filter ?f ?l] => destruct (List.filter f l) end;
    [| repeat socket_step].
  apply emits_bind; [| intros hosts; repeat socket_step].
  match goal with |- emits _ (?lookup ?args) => generalize args end.
  intros args. induction args as [|x args IH]; [socket_step|].
  apply emits_bind; [apply host_of_emits | intros h].
  apply emits_bind; [apply IH | intros hs]. socket_step.
Qed.

Lemma doline_socket_emits setraw_attr str_format unet line background notty :
  emits wordless_event
    (doline setraw_attr str_format unet line StreamWriter background notty).
Proof.
  assert (∀ entry body,
            emits wordless_event
              (doline_run setraw_attr str_format unet StreamWriter entry body notty))
    as Hrun.
  { intros [[? ?] [[? ?] ?]] body. unfold doline_run. simpl.
    repeat first [apply run_command_socket_emits | socket_step]. }
  assert (emits wordless_event (remote_cli unet "secondary> " "Secondary CLI" background))
    as Hcli.
  { eapply emits_weaken; [| apply remote_cli_emits]. by intros []. }
  unfold doline.
  repeat first [apply Hrun | apply Hcli | apply doline_window_socket_emits | socket_step].
Qed.


(** A connection on which the hosts of the session are asked for after
    a window is opened: the window has its marker, the list of the hosts
    is never sent, and the line after it is not read. *)
Example socket_sends_no_text_ex :
  let '(r, w) := cli_client_connected clear_lflag braces
                   (session (host_rc 0 "") (host_rc 0 "")) false
                   ["term r1" +:+ Py.LF; "hosts" +:+ Py.LF; "term r2" +:+ Py.LF]
                   (world0 true) in
  r = Raise (Exception "TypeError" "data argument must be a bytes-like object, not 'str'") ∧
  trace w = [ReadLine ("term r1" +:+ Py.LF); RunInWindow "r1" "bash" [];
             WriteBytes ENDMARKER; Drain;
             ReadLine ("hosts" +:+ Py.LF)].
Proof. vm_compute. done. Qed.
